(** * Route 53 record auto-linker: the Lambda handler of
      [lambda/r53/update-records.js], embedded and verified.

    The handler receives a CloudTrail event (a JSON document), inspects it
    with ordinary JavaScript property accesses, and talks to four services:
    the EC2 and ELBv2 inventories, the Route 53 zone directory and record
    API, and one DynamoDB table ("the association store").

    The embedding keeps the data untyped, as the JavaScript has it: events,
    service answers and stored rows are JSON values, a property access on
    [undefined] or [null] raises a [TypeError], and the service calls are
    recorded, in order, in the world the handler runs in. *)

From Stdlib Require Import ZArith List String Ascii Bool Lia DecimalString.
From stdpp Require Import base option gmap strings list fin_maps.
Import ListNotations.

Local Open Scope string_scope.
Local Open Scope list_scope.

#[local] Set Warnings "-register-all".

(** ** JavaScript values *)

Module JS.

(** JSON data as JavaScript sees it.  Numbers are the integers (no event
    field or service answer the handler touches holds a fraction); an
    object is its list of own properties, first binding of a name first. *)
Inductive value : Type :=
| VUndef
| VNull
| VBool (b : bool)
| VNum (n : Z)
| VStr (s : string)
| VArr (items : list value)
| VObj (props : list (string * value)).

Inductive Exn : Type :=
| TypeError   (* property read or method call on a value that has none *)
| AwsError.   (* a rejected service promise *)

Inductive Res (A : Type) : Type :=
| Ok (a : A)
| Throw (e : Exn).
Arguments Ok {A} a.
Arguments Throw {A} e.

Definition rbind {A B} (r : Res A) (k : A -> Res B) : Res B :=
  match r with
  | Ok a => k a
  | Throw e => Throw e
  end.

(** [own name props]: the own property [name] of an object literal. *)
Fixpoint own (name : string) (props : list (string * value)) : value :=
  match props with
  | [] => VUndef
  | (k, v) :: rest => if String.eqb k name then v else own name rest
  end.

(** [prop v name] is the read [v.name].  The names the handler reads are
    identifiers, none of them a member of a built-in prototype, so an
    object has its own properties only, and an array or a string has
    [length] only. *)
Definition prop (v : value) (name : string) : Res value :=
  match v with
  | VUndef | VNull => Throw TypeError
  | VObj props => Ok (own name props)
  | VArr items =>
      Ok (if String.eqb name "length"
          then VNum (Z.of_nat (List.length items)) else VUndef)
  | VStr s =>
      Ok (if String.eqb name "length"
          then VNum (Z.of_nat (String.length s)) else VUndef)
  | VBool _ | VNum _ => Ok VUndef
  end.

(** [first v] is the read [v[0]]. *)
Definition first (v : value) : Res value :=
  match v with
  | VUndef | VNull => Throw TypeError
  | VArr [] => Ok VUndef
  | VArr (x :: _) => Ok x
  | VStr EmptyString => Ok VUndef
  | VStr (String c _) => Ok (VStr (String c EmptyString))
  | VObj props => Ok (own "0" props)
  | VBool _ | VNum _ => Ok VUndef
  end.

(** ToBoolean. *)
Definition truthy (v : value) : bool :=
  match v with
  | VUndef | VNull => false
  | VBool b => b
  | VNum n => negb (Z.eqb n 0)
  | VStr s => negb (String.eqb s "")
  | VArr _ | VObj _ => true
  end.

(** ToString, as string concatenation and [==] apply it.  An array is
    its elements joined by commas, [undefined] and [null] elements
    contributing nothing.  This is the conversion where JavaScript makes
    one without an error and prints an integer digit by digit: on the
    [convertible] values below, with integers under 10^21 (the ids,
    names, addresses and keys the handler converts are strings). *)
Fixpoint to_string (v : value) : string :=
  match v with
  | VUndef => "undefined"
  | VNull => "null"
  | VBool true => "true"
  | VBool false => "false"
  | VNum n => NilZero.string_of_int (Z.to_int n)
  | VStr s => s
  | VArr items =>
      (fix join (l : list value) : string :=
         match l with
         | [] => ""
         | x :: rest =>
             let sx := match x with
                       | VUndef | VNull => ""
                       | _ => to_string x
                       end in
             match rest with
             | [] => sx
             | _ :: _ => sx +:+ "," +:+ join rest
             end
         end) items
  | VObj _ => "[object Object]"
  end.

(** [v === lit] for a string literal [lit]. *)
Definition strict_eq (v : value) (lit : string) : bool :=
  match v with
  | VStr s => String.eqb s lit
  | _ => false
  end.

(** [v == lit] for a string literal [lit] that is not numeric: the three
    literals the handler compares with hold letters, so ToNumber of them
    is NaN and no number or boolean is equal to them.  An array or an
    object is compared through its ToString; the result is that of
    JavaScript where the conversion raises no error, that is on the
    [convertible] values below. *)
Definition loose_eq (v : value) (lit : string) : bool :=
  match v with
  | VUndef | VNull | VBool _ | VNum _ => false
  | VStr s => String.eqb s lit
  | VArr _ | VObj _ => String.eqb (to_string v) lit
  end.

(** [String.prototype.indexOf] for a pattern, [-1] when absent. *)
Definition indexOf (s pat : string) : Z :=
  match String.index 0 pat s with
  | Some n => Z.of_nat n
  | None => (-1)%Z
  end.

(** [String.prototype.substring] with one argument: a negative start
    counts as 0, a start beyond the end gives the empty string. *)
Definition substring_from (s : string) (start : Z) : string :=
  let n := Z.to_nat (Z.max 0 start) in
  String.substring n (String.length s - n) s.

End JS.
Export JS.

Notation "'let?' x := e 'in' k" := (rbind e (fun x => k))
  (at level 10, x name, e at level 100, k at level 200).

(** ** Constants and pure helpers of the handler *)

Definition DEFAULT_TTL : Z := 300.
Definition TAG_KEY : string := "bcs:route53:record".
Definition TABLE_NAME : string := "Route53Records".

(** [url.substring(url.indexOf(".") + 1)]: both methods exist on strings
    only (an array has [indexOf] but no [substring]). *)
Definition getDomain (url : value) : Res value :=
  match url with
  | VStr s => Ok (VStr (substring_from s (indexOf s "." + 1)))
  | _ => Throw TypeError
  end.

(** [Array.prototype.filter] with a callback that may throw. *)
Fixpoint filterM (p : value -> Res bool) (l : list value) : Res (list value) :=
  match l with
  | [] => Ok []
  | x :: rest =>
      let? b := p x in
      let? kept := filterM p rest in
      Ok (if b then x :: kept else kept)
  end.

(** [Array.prototype.pop] as an expression: the last element, or
    [undefined] for the empty array. *)
Definition pop (l : list value) : value := List.last l VUndef.

(** [tags ? tags.filter(tag => tag.key == TAG_KEY).pop() : null];
    only arrays have [filter]. *)
Definition findEntry (tags : value) : Res value :=
  if truthy tags then
    match tags with
    | VArr items =>
        let? kept :=
          filterM (fun tag => let? k := prop tag "key" in Ok (loose_eq k TAG_KEY))
                  items in
        Ok (pop kept)
    | _ => Throw TypeError
    end
  else Ok VNull.

(** [tags ? tags.filter(tag => tag == TAG_KEY).pop() : null]. *)
Definition findKey (tags : value) : Res value :=
  if truthy tags then
    match tags with
    | VArr items =>
        let? kept := filterM (fun tag => Ok (loose_eq tag TAG_KEY)) items in
        Ok (pop kept)
    | _ => Throw TypeError
    end
  else Ok VNull.

(** ** The world the handler runs in *)

(** The service calls of the handler, each with the parameter object the
    source passes. *)
Inductive Call : Type :=
| EC2_describeInstances (params : value)
| ELBv2_describeLoadBalancers (params : value)
| Route53_listHostedZonesByName (params : value)
| Route53_changeResourceRecordSets (params : value)
| DynamoDB_get (params : value)
| DynamoDB_put (params : value)
| DynamoDB_delete (params : value).

(** A [console.log] line: literal text and [JSON.stringify]ed values. *)
Inductive LogPart : Type :=
| Text (s : string)
| Json (v : value).

(** [store] is the DynamoDB table, keyed by its partition key [id];
    [calls] is every service call made so far, oldest first. *)
Record World : Type := mkWorld {
  store : gmap string value;
  calls : list Call;
  console : list (list LogPart)
}.

(** What the services answer to a parameter object: [None] is a rejected
    promise.  The handler calls each operation at most once per event, so
    an answer need not depend on the calls made before.  DynamoDB answers
    from [store]; [dynamodb_rejects] says which requests it refuses
    (throttling, an outage, a key it does not accept). *)
Record Env : Type := mkEnv {
  ec2_describeInstances : value -> option value;
  elbv2_describeLoadBalancers : value -> option value;
  route53_listHostedZonesByName : value -> option value;
  route53_changeResourceRecordSets : value -> option value;
  dynamodb_rejects : Call -> bool
}.

(** Sequential code with a world and exceptions: every [await] of the
    source is a bind; the world survives a throw. *)
Definition M (A : Type) : Type := World -> Res A * World.

Definition ret {A} (a : A) : M A := fun w => (Ok a, w).

Definition lift {A} (r : Res A) : M A := fun w => (r, w).

Definition mbind {A B} (m : M A) (k : A -> M B) : M B :=
  fun w =>
    match m w with
    | (Ok a, w') => k a w'
    | (Throw e, w') => (Throw e, w')
    end.

Notation "'let!' x := e 'in' k" := (mbind e (fun x => k))
  (at level 10, x name, e at level 100, k at level 200).
Notation "e1 ;; e2" := (mbind e1 (fun _ => e2))
  (at level 100, e2 at level 200, right associativity).

Definition record_call (c : Call) (w : World) : World :=
  mkWorld (store w) (calls w ++ [c]) (console w).

Definition console_log (line : list LogPart) : M unit :=
  fun w => (Ok tt, mkWorld (store w) (calls w) (console w ++ [line])).

(** A call to a stateless service: logged, then answered by the oracle. *)
Definition request (c : Call) (answer : option value) : M value :=
  fun w =>
    (match answer with Some v => Ok v | None => Throw AwsError end,
     record_call c w).

(** The partition key is a string attribute: a request whose key is
    anything else is rejected by the service. *)
Definition key_of (r : Res value) : option string :=
  match r with
  | Ok (VStr k) => Some k
  | _ => None
  end.

Section Services.

Variable env : Env.

Definition ec2_describe (params : value) : M value :=
  request (EC2_describeInstances params) (ec2_describeInstances env params).

Definition elbv2_describe (params : value) : M value :=
  request (ELBv2_describeLoadBalancers params)
          (elbv2_describeLoadBalancers env params).

Definition route53_list (params : value) : M value :=
  request (Route53_listHostedZonesByName params)
          (route53_listHostedZonesByName env params).

Definition route53_change (params : value) : M value :=
  request (Route53_changeResourceRecordSets params)
          (route53_changeResourceRecordSets env params).

(** [dynamodb.get]: the answer holds [Item] only when the row exists. *)
Definition dynamodb_get (params : value) : M value :=
  fun w =>
    let w' := record_call (DynamoDB_get params) w in
    if dynamodb_rejects env (DynamoDB_get params) then (Throw AwsError, w')
    else
      match key_of (let? k := prop params "Key" in prop k "id") with
      | Some k =>
          (Ok (match store w !! k with
               | Some row => VObj [("Item", row)]
               | None => VObj []
               end), w')
      | None => (Throw AwsError, w')
      end.

(** [dynamodb.put]: the row replaces whatever the key held. *)
Definition dynamodb_put (params : value) : M value :=
  fun w =>
    let w' := record_call (DynamoDB_put params) w in
    if dynamodb_rejects env (DynamoDB_put params) then (Throw AwsError, w')
    else
      match prop params "Item" with
      | Ok row =>
          match key_of (prop row "id") with
          | Some k =>
              (Ok (VObj []), mkWorld (<[k := row]> (store w')) (calls w') (console w'))
          | None => (Throw AwsError, w')
          end
      | Throw _ => (Throw AwsError, w')
      end.

(** [dynamodb.delete]: no error when the row is absent. *)
Definition dynamodb_delete (params : value) : M value :=
  fun w =>
    let w' := record_call (DynamoDB_delete params) w in
    if dynamodb_rejects env (DynamoDB_delete params) then (Throw AwsError, w')
    else
      match key_of (let? k := prop params "Key" in prop k "id") with
      | Some k =>
          (Ok (VObj []), mkWorld (delete k (store w')) (calls w') (console w'))
      | None => (Throw AwsError, w')
      end.

End Services.

(** ** The classes of the handler *)

Record HostedZone : Type := mkHostedZone {
  dnsName : value;
  zone : value
}.

Record Ec2Handler : Type := mkEc2Handler {
  instanceId : value;
  instance : value
}.

Record ElbHandler : Type := mkElbHandler {
  lbArn : value;
  lb : value
}.

(** The constructors leave the declared field [undefined]. *)
Definition new_HostedZone (dnsName : value) : HostedZone :=
  mkHostedZone dnsName VUndef.
Definition new_Ec2Handler (instanceId : value) : Ec2Handler :=
  mkEc2Handler instanceId VUndef.
Definition new_ElbHandler (lbArn : value) : ElbHandler :=
  mkElbHandler lbArn VUndef.

(** The [id] getter: [this.zone.Id]. *)
Definition HostedZone_id (z : HostedZone) : Res value := prop (zone z) "Id".

(** [upsert ? "UPSERT" : "DELETE"]. *)
Definition action_of (upsert : bool) : value :=
  VStr (if upsert then "UPSERT" else "DELETE").

(** The parameter objects of the three table requests. *)
Definition key_params (id : value) : value :=
  VObj [("TableName", VStr TABLE_NAME); ("Key", VObj [("id", id)])].

Definition row (id alias object : value) : value :=
  VObj [("id", id); ("alias", alias); ("object", object)].

Definition item_params (id alias object : value) : value :=
  VObj [("TableName", VStr TABLE_NAME); ("Item", row id alias object)].

(** The parameter object of a record-set change request. *)
Definition change_params (zoneId changeBatch : value) : value :=
  VObj [("HostedZoneId", zoneId);
        ("ChangeBatch", VObj [("Changes", changeBatch)])].

Section Handler.

Variable env : Env.

(** [HostedZone.load]: [this.zone = data.HostedZones[0]]. *)
Definition HostedZone_load (z : HostedZone) : M HostedZone :=
  let! data := route53_list env (VObj [("DNSName", dnsName z)]) in
  let! z0 := lift (let? zs := prop data "HostedZones" in first zs) in
  ret (mkHostedZone (dnsName z) z0).

(** [RecordTable.getItem]: [item ? item.Item : null]. *)
Definition RecordTable_getItem (id : value) : M value :=
  let! item := dynamodb_get env (key_params id) in
  if truthy item then lift (prop item "Item") else ret VNull.

Definition RecordTable_update (id alias object : value) : M unit :=
  dynamodb_put env (item_params id alias object) ;;
  ret tt.

Definition RecordTable_remove (id : value) : M unit :=
  dynamodb_delete env (key_params id) ;;
  ret tt.

(** [Ec2Handler.load]: [this.instance = data.Reservations[0].Instances[0]]. *)
Definition Ec2Handler_load (h : Ec2Handler) : M Ec2Handler :=
  let! data := ec2_describe env (VObj [("InstanceIds", VArr [instanceId h])]) in
  let! i0 := lift (let? rs := prop data "Reservations" in
                   let? r0 := first rs in
                   let? insts := prop r0 "Instances" in
                   first insts) in
  ret (mkEc2Handler (instanceId h) i0).

Definition Ec2Handler_updateRecords
    (h : Ec2Handler) (zoneId alias : value) (upsert : bool) : M unit :=
  let ttl := VNum DEFAULT_TTL in
  let! ip := lift (prop (instance h) "PrivateIpAddress") in
  let changeBatch :=
    VArr [VObj [("Action", action_of upsert);
                ("ResourceRecordSet",
                 VObj [("Type", VStr "A");
                       ("TTL", ttl);
                       ("Name", alias);
                       ("ResourceRecords", VArr [VObj [("Value", ip)]])])]] in
  (if upsert then
     let! id := lift (prop (instance h) "InstanceId") in
     RecordTable_update id alias (instance h)
   else
     let! id := lift (prop (instance h) "InstanceId") in
     RecordTable_remove id) ;;
  console_log [Text "Update EC2 record: "; Json changeBatch;
               Text (" at zone " +:+ to_string zoneId)] ;;
  let! data := route53_change env (change_params zoneId changeBatch) in
  let! id := lift (let? info := prop data "ChangeInfo" in prop info "Id") in
  console_log [Text ("Change ID: " +:+ to_string id)].

(** [ElbHandler.load]: [this.lb = data.LoadBalancers[0]]. *)
Definition ElbHandler_load (h : ElbHandler) : M ElbHandler :=
  let! data := elbv2_describe env (VObj [("LoadBalancerArns", VArr [lbArn h])]) in
  let! l0 := lift (let? lbs := prop data "LoadBalancers" in first lbs) in
  ret (mkElbHandler (lbArn h) l0).

Definition ElbHandler_updateRecords
    (h : ElbHandler) (zoneId alias : value) (upsert : bool) : M unit :=
  let! czone := lift (prop (lb h) "CanonicalHostedZoneId") in
  let! type := lift (prop (lb h) "Type") in
  let! dns := lift (prop (lb h) "DNSName") in
  let changeBatch :=
    VArr [VObj [("Action", action_of upsert);
                ("ResourceRecordSet",
                 VObj [("Type", VStr "A");
                       ("Name", alias);
                       ("AliasTarget",
                        VObj [("HostedZoneId", czone);
                              ("DNSName",
                               VStr ((if loose_eq type "application"
                                      then "dualstack." else "")
                                     +:+ to_string dns +:+ "."));
                              ("EvaluateTargetHealth", VBool true)])])]] in
  (if upsert then
     let! id := lift (prop (lb h) "LoadBalancerArn") in
     RecordTable_update id alias (lb h)
   else
     let! id := lift (prop (lb h) "LoadBalancerArn") in
     RecordTable_remove id) ;;
  console_log [Text "Change LB batch: "; Json changeBatch] ;;
  let! data := route53_change env (change_params zoneId changeBatch) in
  let! id := lift (let? info := prop data "ChangeInfo" in prop info "Id") in
  console_log [Text ("Change ID: " +:+ to_string id)].

End Handler.

(** ** The dispatcher *)

Section Dispatch.

Variable env : Env.

(** Zone resolution, the three steps that the branches describing the
    resource first run back to back:
    [zone = new HostedZone(getDomain(name)); await zone.load(); zone.id]. *)
Definition resolve (name : value) : M value :=
  let! domain := lift (getDomain name) in
  let! zone := HostedZone_load env (new_HostedZone domain) in
  lift (HostedZone_id zone).

(** ... followed by [await handler.updateRecords(zone.id, name, upsert)]. *)
Definition link_ec2 (h : Ec2Handler) (name : value) (upsert : bool) : M unit :=
  let! zid := resolve name in
  Ec2Handler_updateRecords env h zid name upsert.

Definition link_elb (h : ElbHandler) (name : value) (upsert : bool) : M unit :=
  let! zid := resolve name in
  ElbHandler_updateRecords env h zid name upsert.

Definition processEc2 (detail : value) : M unit :=
  let! parameters := lift (prop detail "requestParameters") in
  let! eventName := lift (prop detail "eventName") in
  if strict_eq eventName "RunInstances" then
    let! specs := lift (prop parameters "tagSpecificationSet") in
    if negb (truthy specs) then ret tt
    else
      let! tags := lift (let? items := prop specs "items" in
                         let? spec0 := first items in
                         prop spec0 "tags") in
      let! entry := lift (findEntry tags) in
      if negb (truthy entry) then ret tt
      else
        let! instanceId :=
          lift (let? elements := prop detail "responseElements" in
                let? set := prop elements "instancesSet" in
                let? items := prop set "items" in
                let? item0 := first items in
                prop item0 "instanceId") in
        let! handler := Ec2Handler_load env (new_Ec2Handler instanceId) in
        let! name := lift (prop entry "value") in
        link_ec2 handler name true
  else if strict_eq eventName "TerminateInstances" then
    let! instanceId :=
      lift (let? set := prop parameters "instancesSet" in
            let? items := prop set "items" in
            let? item0 := first items in
            prop item0 "instanceId") in
    let! item := RecordTable_getItem env instanceId in
    if negb (truthy item) then ret tt
    else
      let! alias := lift (prop item "alias") in
      let! domain := lift (getDomain alias) in
      let! zone := HostedZone_load env (new_HostedZone domain) in
      let! object := lift (prop item "object") in
      let! id := lift (prop object "InstanceId") in
      let handler := mkEc2Handler id object in
      let! zid := lift (HostedZone_id zone) in
      Ec2Handler_updateRecords env handler zid alias false
  else if strict_eq eventName "CreateTags" || strict_eq eventName "DeleteTags" then
    let! entry := lift (let? set := prop parameters "tagSet" in
                        let? items := prop set "items" in
                        findEntry items) in
    if negb (truthy entry) then ret tt
    else
      let! instanceId :=
        lift (let? set := prop parameters "resourcesSet" in
              let? items := prop set "items" in
              let? item0 := first items in
              prop item0 "resourceId") in
      let! handler := Ec2Handler_load env (new_Ec2Handler instanceId) in
      let! name := lift (prop entry "value") in
      link_ec2 handler name (loose_eq eventName "CreateTags")
  else ret tt.

Definition processElb (detail : value) : M unit :=
  let! parameters := lift (prop detail "requestParameters") in
  let! eventName := lift (prop detail "eventName") in
  if strict_eq eventName "CreateLoadBalancer" then
    let! entry := lift (let? tags := prop parameters "tags" in findEntry tags) in
    if negb (truthy entry) then ret tt
    else
      let! lbArn :=
        lift (let? elements := prop detail "responseElements" in
              let? lbs := prop elements "loadBalancers" in
              let? lb0 := first lbs in
              prop lb0 "loadBalancerArn") in
      let! handler := ElbHandler_load env (new_ElbHandler lbArn) in
      let! name := lift (prop entry "value") in
      link_elb handler name true
  else if strict_eq eventName "DeleteLoadBalancer" then
    let! lbArn := lift (prop parameters "loadBalancerArn") in
    let! item := RecordTable_getItem env lbArn in
    if negb (truthy item) then ret tt
    else
      let! alias := lift (prop item "alias") in
      let! domain := lift (getDomain alias) in
      let! zone := HostedZone_load env (new_HostedZone domain) in
      let! object := lift (prop item "object") in
      let handler := mkElbHandler lbArn object in
      let! zid := lift (HostedZone_id zone) in
      ElbHandler_updateRecords env handler zid alias false
  else if strict_eq eventName "AddTags" then
    let! entry := lift (let? tags := prop parameters "tags" in findEntry tags) in
    if negb (truthy entry) then ret tt
    else
      let! lbArn := lift (let? arns := prop parameters "resourceArns" in first arns) in
      let! handler := ElbHandler_load env (new_ElbHandler lbArn) in
      let! name := lift (prop entry "value") in
      link_elb handler name true
  else if strict_eq eventName "RemoveTags" then
    let! entry := lift (let? keys := prop parameters "tagKeys" in findKey keys) in
    if negb (truthy entry) then ret tt
    else
      let! lbArn := lift (let? arns := prop parameters "resourceArns" in first arns) in
      let! item := RecordTable_getItem env lbArn in
      let! alias := lift (prop item "alias") in
      let! domain := lift (getDomain alias) in
      let! zone := HostedZone_load env (new_HostedZone domain) in
      let! object := lift (prop item "object") in
      let handler := mkElbHandler lbArn object in
      let! zid := lift (HostedZone_id zone) in
      ElbHandler_updateRecords env handler zid alias false
  else ret tt.

(** [exports.handler]. *)
Definition handler (event : value) : M unit :=
  console_log [Text "Event: "; Json event] ;;
  let! source := lift (prop event "source") in
  if strict_eq source "aws.ec2" then
    let! detail := lift (prop event "detail") in
    processEc2 detail
  else if strict_eq source "aws.elasticloadbalancing" then
    let! detail := lift (prop event "detail") in
    processElb detail
  else ret tt.

End Dispatch.

(** ** Vocabulary of the statements *)

(** A chain of reads, [Ok event .> "detail" .> "eventName"], fails where
    the JavaScript chain [event.detail.eventName] throws. *)
Definition dot (r : Res value) (name : string) : Res value :=
  let? v := r in prop v name.
Definition dot0 (r : Res value) : Res value :=
  let? v := r in first v.

#[local] Set Warnings "-postfix-notation-not-level-1".
Notation "r .> name" := (dot r name) (at level 40, left associativity).
Notation "r .>[0]" := (dot0 r) (at level 40, left associativity).

(** The table never rejects a well-formed request. *)
Definition store_up (env : Env) : Prop :=
  forall c, dynamodb_rejects env c = false.

(** The calls one run of [updateRecords] may add to the log: nothing (the
    change could not be built), the store mutation alone (it or the path
    to it failed), or the store mutation and then the change request. *)
Inductive store_first (upsert : bool) : list Call -> Prop :=
| sf_none : store_first upsert []
| sf_put p :
    upsert = true -> store_first upsert [DynamoDB_put p]
| sf_delete p :
    upsert = false -> store_first upsert [DynamoDB_delete p]
| sf_put_change p c :
    upsert = true ->
    store_first upsert [DynamoDB_put p; Route53_changeResourceRecordSets c]
| sf_delete_change p c :
    upsert = false ->
    store_first upsert [DynamoDB_delete p; Route53_changeResourceRecordSets c].

(** The parameter objects of the change requests in a call log. *)
Fixpoint change_requests (l : list Call) : list value :=
  match l with
  | [] => []
  | Route53_changeResourceRecordSets p :: rest => p :: change_requests rest
  | _ :: rest => change_requests rest
  end.

(** The two record shapes of section 4.4 of the specification: an
    address record with a fixed time-to-live of 300 seconds, and an alias
    record with target-health evaluation enabled. *)
Definition address_change (action : string) (name ip : value) : value :=
  VObj [("Action", VStr action);
        ("ResourceRecordSet",
         VObj [("Type", VStr "A");
               ("TTL", VNum 300);
               ("Name", name);
               ("ResourceRecords", VArr [VObj [("Value", ip)]])])].

Definition alias_change
    (action : string) (name targetZone : value) (targetName : string) : value :=
  VObj [("Action", VStr action);
        ("ResourceRecordSet",
         VObj [("Type", VStr "A");
               ("Name", name);
               ("AliasTarget",
                VObj [("HostedZoneId", targetZone);
                      ("DNSName", VStr targetName);
                      ("EvaluateTargetHealth", VBool true)])])].

(** What the stateless services answer in a run.  The zone directory
    lists, first, a zone with identifier [zid] for the name [domain]. *)
Definition zone_listed (env : Env) (domain zid : value) : Prop :=
  exists data,
    route53_listHostedZonesByName env (VObj [("DNSName", domain)]) = Some data /\
    Ok data .> "HostedZones" .>[0] .> "Id" = Ok zid.

(** The instance inventory describes [id] as [inst]. *)
Definition instance_described (env : Env) (id inst : value) : Prop :=
  exists data,
    ec2_describeInstances env (VObj [("InstanceIds", VArr [id])]) = Some data /\
    Ok data .> "Reservations" .>[0] .> "Instances" .>[0] = Ok inst.

(** The balancer inventory describes [arn] as [balancer]. *)
Definition balancer_described (env : Env) (arn balancer : value) : Prop :=
  exists data,
    elbv2_describeLoadBalancers env (VObj [("LoadBalancerArns", VArr [arn])])
    = Some data /\
    Ok data .> "LoadBalancers" .>[0] = Ok balancer.

(** The record API accepts the change and answers with a change id. *)
Definition change_accepted (env : Env) (params : value) : Prop :=
  exists data id,
    route53_changeResourceRecordSets env params = Some data /\
    Ok data .> "ChangeInfo" .> "Id" = Ok id.

(** The (source, eventName) pair of an event that has one. *)
Definition event_pair (event : value) : Res (value * value) :=
  let? source := prop event "source" in
  let? name := Ok event .> "detail" .> "eventName" in
  Ok (source, name).

(** The table of section 4.5 of the specification: eight pairs. *)
Definition recognized (source name : value) : bool :=
  (strict_eq source "aws.ec2" &&
   (strict_eq name "RunInstances" || strict_eq name "TerminateInstances" ||
    strict_eq name "CreateTags" || strict_eq name "DeleteTags"))
  ||
  (strict_eq source "aws.elasticloadbalancing" &&
   (strict_eq name "CreateLoadBalancer" || strict_eq name "DeleteLoadBalancer" ||
    strict_eq name "AddTags" || strict_eq name "RemoveTags")).

(** DNS names, label by label.  [after_first_dot s] is what follows the
    first dot of [s], when [s] has a dot. *)
Fixpoint after_first_dot (s : string) : option string :=
  match s with
  | EmptyString => None
  | String c rest =>
      if Ascii.eqb c "."%char then Some rest else after_first_dot rest
  end.

(** The specification's parent domain: the name minus its leftmost
    label.  A name without a dot is its own leftmost label. *)
Definition minus_leftmost_label (s : string) : string :=
  match after_first_dot s with
  | Some rest => rest
  | None => ""
  end.

(** The name the handler asks the zone directory for. *)
Definition queried_domain (s : string) : string :=
  match after_first_dot s with
  | Some rest => rest
  | None => s
  end.

(** A name without a dot. *)
Definition dotless (s : string) : Prop := after_first_dot s = None.

(** The world once the handler has logged the event it received. *)
Definition logged (event : value) (w : World) : World :=
  mkWorld (store w) (calls w) (console w ++ [[Text "Event: "; Json event]]).

(** What a run leaves behind, the console aside. *)
Definition outcome {A} (r : Res A * World)
    : Res A * gmap string value * list Call :=
  (fst r, store (snd r), calls (snd r)).

(** Two worlds with the same table and the same call log. *)
Definition agree (w1 w2 : World) : Prop :=
  store w1 = store w2 /\ calls w1 = calls w2.

(** A computation that never looks at the console. *)
Definition oblivious {A} (m : M A) : Prop :=
  forall w1 w2,
    agree w1 w2 ->
    fst (m w1) = fst (m w2) /\ agree (snd (m w1)) (snd (m w2)).

(** The events that carry a list of resources, each with the head of its
    lists: the first tag specification and the first instance of a
    RunInstances, the first instance of a TerminateInstances, the first
    resource of a CreateTags or DeleteTags, the first balancer of a
    CreateLoadBalancer, the first arn of an AddTags or RemoveTags.  Tag
    lists and key lists are carried whole. *)
Inductive View : Type :=
| RunInstancesOf (spec inst : value)
| TerminateInstancesOf (inst : value)
| TagsOf (name : string) (tags resource : value)
| CreateLoadBalancerOf (tags balancer : value)
| AddTagsOf (tags arn : value)
| RemoveTagsOf (keys arn : value).

Inductive carries (event : value) : View -> Prop :=
| carries_run spec specs inst insts :
    prop event "source" = Ok (VStr "aws.ec2") ->
    Ok event .> "detail" .> "eventName" = Ok (VStr "RunInstances") ->
    Ok event .> "detail" .> "requestParameters" .> "tagSpecificationSet"
       .> "items" = Ok (VArr (spec :: specs)) ->
    Ok event .> "detail" .> "responseElements" .> "instancesSet" .> "items"
    = Ok (VArr (inst :: insts)) ->
    carries event (RunInstancesOf spec inst)
| carries_terminate inst insts :
    prop event "source" = Ok (VStr "aws.ec2") ->
    Ok event .> "detail" .> "eventName" = Ok (VStr "TerminateInstances") ->
    Ok event .> "detail" .> "requestParameters" .> "instancesSet" .> "items"
    = Ok (VArr (inst :: insts)) ->
    carries event (TerminateInstancesOf inst)
| carries_tags name tags resource resources :
    name = "CreateTags" \/ name = "DeleteTags" ->
    prop event "source" = Ok (VStr "aws.ec2") ->
    Ok event .> "detail" .> "eventName" = Ok (VStr name) ->
    Ok event .> "detail" .> "requestParameters" .> "tagSet" .> "items"
    = Ok tags ->
    Ok event .> "detail" .> "requestParameters" .> "resourcesSet" .> "items"
    = Ok (VArr (resource :: resources)) ->
    carries event (TagsOf name tags resource)
| carries_create_balancer tags balancer balancers :
    prop event "source" = Ok (VStr "aws.elasticloadbalancing") ->
    Ok event .> "detail" .> "eventName" = Ok (VStr "CreateLoadBalancer") ->
    Ok event .> "detail" .> "requestParameters" .> "tags" = Ok tags ->
    Ok event .> "detail" .> "responseElements" .> "loadBalancers"
    = Ok (VArr (balancer :: balancers)) ->
    carries event (CreateLoadBalancerOf tags balancer)
| carries_add_tags tags arn arns :
    prop event "source" = Ok (VStr "aws.elasticloadbalancing") ->
    Ok event .> "detail" .> "eventName" = Ok (VStr "AddTags") ->
    Ok event .> "detail" .> "requestParameters" .> "tags" = Ok tags ->
    Ok event .> "detail" .> "requestParameters" .> "resourceArns"
    = Ok (VArr (arn :: arns)) ->
    carries event (AddTagsOf tags arn)
| carries_remove_tags keys arn arns :
    prop event "source" = Ok (VStr "aws.elasticloadbalancing") ->
    Ok event .> "detail" .> "eventName" = Ok (VStr "RemoveTags") ->
    Ok event .> "detail" .> "requestParameters" .> "tagKeys" = Ok keys ->
    Ok event .> "detail" .> "requestParameters" .> "resourceArns"
    = Ok (VArr (arn :: arns)) ->
    carries event (RemoveTagsOf keys arn).

(** The recognized events that lack the designated tag: a RunInstances
    without tag specifications, or one whose first specification has no
    such tag; a CreateTags or DeleteTags whose tag set has none; a
    CreateLoadBalancer or AddTags whose tags have none; a RemoveTags whose
    key list has none.  ([findEntry] and [findKey] then give [undefined],
    or [null] when there is no list at all.) *)
Inductive untagged (event : value) : Prop :=
| untagged_run_bare specs :
    prop event "source" = Ok (VStr "aws.ec2") ->
    Ok event .> "detail" .> "eventName" = Ok (VStr "RunInstances") ->
    Ok event .> "detail" .> "requestParameters" .> "tagSpecificationSet"
    = Ok specs ->
    truthy specs = false ->
    untagged event
| untagged_run tags entry :
    prop event "source" = Ok (VStr "aws.ec2") ->
    Ok event .> "detail" .> "eventName" = Ok (VStr "RunInstances") ->
    Ok event .> "detail" .> "requestParameters" .> "tagSpecificationSet"
       .> "items" .>[0] .> "tags" = Ok tags ->
    findEntry tags = Ok entry ->
    truthy entry = false ->
    untagged event
| untagged_tags name tags entry :
    name = "CreateTags" \/ name = "DeleteTags" ->
    prop event "source" = Ok (VStr "aws.ec2") ->
    Ok event .> "detail" .> "eventName" = Ok (VStr name) ->
    Ok event .> "detail" .> "requestParameters" .> "tagSet" .> "items"
    = Ok tags ->
    findEntry tags = Ok entry ->
    truthy entry = false ->
    untagged event
| untagged_balancer name tags entry :
    name = "CreateLoadBalancer" \/ name = "AddTags" ->
    prop event "source" = Ok (VStr "aws.elasticloadbalancing") ->
    Ok event .> "detail" .> "eventName" = Ok (VStr name) ->
    Ok event .> "detail" .> "requestParameters" .> "tags" = Ok tags ->
    findEntry tags = Ok entry ->
    truthy entry = false ->
    untagged event
| untagged_remove keys entry :
    prop event "source" = Ok (VStr "aws.elasticloadbalancing") ->
    Ok event .> "detail" .> "eventName" = Ok (VStr "RemoveTags") ->
    Ok event .> "detail" .> "requestParameters" .> "tagKeys" = Ok keys ->
    findKey keys = Ok entry ->
    truthy entry = false ->
    untagged event.

(** A value that is neither an array nor an object. *)
Definition primitive (v : value) : bool :=
  match v with
  | VArr _ | VObj _ => false
  | _ => true
  end.

(** ** Tags as the events list them *)

(** A tag whose key is a string, as the keys of an event's tags are. *)
Definition string_keyed (tag : value) : Prop :=
  exists k, prop tag "key" = Ok (VStr k).

(** A tag whose key is a string other than the designated one. *)
Definition other_key (tag : value) : Prop :=
  exists k, prop tag "key" = Ok (VStr k) /\ k <> TAG_KEY.

(** The designated tag, with the string value [alias]. *)
Definition designated (tag : value) (alias : string) : Prop :=
  prop tag "key" = Ok (VStr TAG_KEY) /\ prop tag "value" = Ok (VStr alias).

(** A tag list that carries the designated tag with the value [alias]:
    an array of tags with string keys, one of them the designated tag
    valued [alias], and no designated tag after it. *)
Definition tags_carry (tags : value) (alias : string) : Prop :=
  exists before tag after,
    tags = VArr (before ++ tag :: after) /\
    Forall string_keyed before /\
    designated tag alias /\
    Forall other_key after.

(** A list of removed tag keys, all strings, with the designated key
    among them. *)
Definition keys_carry (keys : value) : Prop :=
  exists ks,
    keys = VArr ks /\
    Forall (fun k => exists s, k = VStr s) ks /\
    In (VStr TAG_KEY) ks.

(** The launch request carries the designated tag valued [alias] in one
    of its tag specifications, whichever. *)
Definition launch_carries_tag (event : value) (alias : string) : Prop :=
  prop event "source" = Ok (VStr "aws.ec2") /\
  Ok event .> "detail" .> "eventName" = Ok (VStr "RunInstances") /\
  exists specs spec tags,
    Ok event .> "detail" .> "requestParameters" .> "tagSpecificationSet"
       .> "items" = Ok (VArr specs) /\
    In spec specs /\
    prop spec "tags" = Ok tags /\
    tags_carry tags alias.

(** ** What a run does for one resource *)

(** The run [run], started in [w], has linked ([upsert]) or unlinked the
    instance [k]: the store differs from that of [w] under the key [k]
    alone, where it holds the row of [alias] and [snapshot], or nothing;
    four calls were made, [first_call], the zone lookup, the write of the
    row and one change request for the A record of [alias]; and the run
    returned normally if that request was accepted. *)
Definition instance_effect (env : Env) (upsert : bool) (first_call : Call)
    (k alias : string) (snapshot ip zid : value)
    (w : World) (run : Res unit * World) : Prop :=
  let change :=
    change_params zid
      (VArr [address_change (if upsert then "UPSERT" else "DELETE")
               (VStr alias) ip]) in
  store (snd run)
  = (if upsert then <[k := row (VStr k) (VStr alias) snapshot]> (store w)
     else delete k (store w)) /\
  calls (snd run)
  = calls w ++
    [first_call;
     Route53_listHostedZonesByName
       (VObj [("DNSName", VStr (queried_domain alias))]);
     if upsert then DynamoDB_put (item_params (VStr k) (VStr alias) snapshot)
     else DynamoDB_delete (key_params (VStr k));
     Route53_changeResourceRecordSets change] /\
  (change_accepted env change -> fst run = Ok tt).

(** The same for the balancer [k] and the alias record of [alias]. *)
Definition balancer_effect (env : Env) (upsert : bool) (first_call : Call)
    (k alias : string) (snapshot targetZone type dns zid : value)
    (w : World) (run : Res unit * World) : Prop :=
  let change :=
    change_params zid
      (VArr [alias_change (if upsert then "UPSERT" else "DELETE")
               (VStr alias) targetZone
               ((if loose_eq type "application" then "dualstack." else "")
                +:+ to_string dns +:+ ".")]) in
  store (snd run)
  = (if upsert then <[k := row (VStr k) (VStr alias) snapshot]> (store w)
     else delete k (store w)) /\
  calls (snd run)
  = calls w ++
    [first_call;
     Route53_listHostedZonesByName
       (VObj [("DNSName", VStr (queried_domain alias))]);
     if upsert then DynamoDB_put (item_params (VStr k) (VStr alias) snapshot)
     else DynamoDB_delete (key_params (VStr k));
     Route53_changeResourceRecordSets change] /\
  (change_accepted env change -> fst run = Ok tt).

(** The run [run] of the handler, started in [w] on an event with the
    view [view], has acted on the first resource of the view, and on it
    alone.  Case by case, when the table is up, the tag list carries the
    designated tag, the directory lists the zone and the resource is
    described by the inventory (or, for a termination and a removal of
    tags, has its association in the store): the one record and the one
    row that are written or deleted are those of the first instance, the
    first tagged resource, the first balancer or the first arn. *)
Definition acts_on_first (env : Env) (view : View)
    (w : World) (run : Res unit * World) : Prop :=
  store_up env ->
  match view with
  | RunInstancesOf spec inst =>
      forall tags (alias iid : string) described ip zid,
        prop spec "tags" = Ok tags ->
        tags_carry tags alias ->
        prop inst "instanceId" = Ok (VStr iid) ->
        instance_described env (VStr iid) described ->
        prop described "InstanceId" = Ok (VStr iid) ->
        prop described "PrivateIpAddress" = Ok ip ->
        zone_listed env (VStr (queried_domain alias)) zid ->
        instance_effect env true
          (EC2_describeInstances (VObj [("InstanceIds", VArr [VStr iid])]))
          iid alias described ip zid w run
  | TerminateInstancesOf inst =>
      forall (alias iid : string) snapshot ip zid,
        prop inst "instanceId" = Ok (VStr iid) ->
        store w !! iid = Some (row (VStr iid) (VStr alias) snapshot) ->
        prop snapshot "InstanceId" = Ok (VStr iid) ->
        prop snapshot "PrivateIpAddress" = Ok ip ->
        zone_listed env (VStr (queried_domain alias)) zid ->
        instance_effect env false (DynamoDB_get (key_params (VStr iid)))
          iid alias snapshot ip zid w run
  | TagsOf name tags resource =>
      forall (alias k : string) rid described ip zid,
        tags_carry tags alias ->
        prop resource "resourceId" = Ok rid ->
        instance_described env rid described ->
        prop described "InstanceId" = Ok (VStr k) ->
        prop described "PrivateIpAddress" = Ok ip ->
        zone_listed env (VStr (queried_domain alias)) zid ->
        instance_effect env (String.eqb name "CreateTags")
          (EC2_describeInstances (VObj [("InstanceIds", VArr [rid])]))
          k alias described ip zid w run
  | CreateLoadBalancerOf tags balancer =>
      forall (alias k : string) arn described targetZone type dns zid,
        tags_carry tags alias ->
        prop balancer "loadBalancerArn" = Ok arn ->
        balancer_described env arn described ->
        prop described "LoadBalancerArn" = Ok (VStr k) ->
        prop described "CanonicalHostedZoneId" = Ok targetZone ->
        prop described "Type" = Ok type ->
        prop described "DNSName" = Ok dns ->
        zone_listed env (VStr (queried_domain alias)) zid ->
        balancer_effect env true
          (ELBv2_describeLoadBalancers (VObj [("LoadBalancerArns", VArr [arn])]))
          k alias described targetZone type dns zid w run
  | AddTagsOf tags arn =>
      forall (alias k : string) described targetZone type dns zid,
        tags_carry tags alias ->
        balancer_described env arn described ->
        prop described "LoadBalancerArn" = Ok (VStr k) ->
        prop described "CanonicalHostedZoneId" = Ok targetZone ->
        prop described "Type" = Ok type ->
        prop described "DNSName" = Ok dns ->
        zone_listed env (VStr (queried_domain alias)) zid ->
        balancer_effect env true
          (ELBv2_describeLoadBalancers (VObj [("LoadBalancerArns", VArr [arn])]))
          k alias described targetZone type dns zid w run
  | RemoveTagsOf keys arn =>
      forall (alias k : string) snapshot targetZone type dns zid,
        keys_carry keys ->
        arn = VStr k ->
        store w !! k = Some (row (VStr k) (VStr alias) snapshot) ->
        prop snapshot "LoadBalancerArn" = Ok (VStr k) ->
        prop snapshot "CanonicalHostedZoneId" = Ok targetZone ->
        prop snapshot "Type" = Ok type ->
        prop snapshot "DNSName" = Ok dns ->
        zone_listed env (VStr (queried_domain alias)) zid ->
        balancer_effect env false (DynamoDB_get (key_params (VStr k)))
          k alias snapshot targetZone type dns zid w run
  end.

(** ** Sample data *)

Definition sample_instance : value :=
  VObj [("InstanceId", VStr "i-0abc");
        ("PrivateIpAddress", VStr "10.0.0.5");
        ("InstanceType", VStr "t3.micro")].

Definition sample_balancer : value :=
  VObj [("LoadBalancerArn", VStr "arn:aws:elasticloadbalancing:lb/app/web/1");
        ("CanonicalHostedZoneId", VStr "Z35SXDOTRQ7X7K");
        ("DNSName", VStr "web-1.elb.amazonaws.com");
        ("Type", VStr "application")].

(** Services that answer every request: the inventories with the sample
    resources, the zone directory with one zone, the record API with a
    change id; the table is up. *)
Definition sample_env : Env :=
  mkEnv
    (fun _ => Some (VObj [("Reservations",
                           VArr [VObj [("Instances", VArr [sample_instance])]])]))
    (fun _ => Some (VObj [("LoadBalancers", VArr [sample_balancer])]))
    (fun _ => Some (VObj [("HostedZones",
                           VArr [VObj [("Id", VStr "/hostedzone/Z1");
                                       ("Name", VStr "example.com.")]])]))
    (fun _ => Some (VObj [("ChangeInfo", VObj [("Id", VStr "/change/C1")])]))
    (fun _ => false).

Definition empty_world : World := mkWorld ∅ [] [].

Definition sample_tag (alias : string) : value :=
  VObj [("key", VStr TAG_KEY); ("value", VStr alias)].

(** RunInstances of one instance tagged at launch. *)
Definition launch_event : value :=
  VObj [("source", VStr "aws.ec2");
        ("detail",
         VObj [("eventName", VStr "RunInstances");
               ("requestParameters",
                VObj [("tagSpecificationSet",
                       VObj [("items",
                              VArr [VObj [("resourceType", VStr "instance");
                                          ("tags",
                                           VArr [sample_tag "svc.example.com"])]])])]);
               ("responseElements",
                VObj [("instancesSet",
                       VObj [("items",
                              VArr [VObj [("instanceId", VStr "i-0abc")]])])])])].

(** RunInstances of two instances, with a second tag specification. *)
Definition launch_two_event : value :=
  VObj [("source", VStr "aws.ec2");
        ("detail",
         VObj [("eventName", VStr "RunInstances");
               ("requestParameters",
                VObj [("tagSpecificationSet",
                       VObj [("items",
                              VArr [VObj [("resourceType", VStr "instance");
                                          ("tags",
                                           VArr [sample_tag "svc.example.com"])];
                                    VObj [("resourceType", VStr "volume");
                                          ("tags",
                                           VArr [sample_tag "vol.example.com"])]])])]);
               ("responseElements",
                VObj [("instancesSet",
                       VObj [("items",
                              VArr [VObj [("instanceId", VStr "i-0abc")];
                                    VObj [("instanceId", VStr "i-0def")]])])])])].

(** RunInstances of one instance whose designated tag is listed in the
    second tag specification of the request, the first being that of the
    volume. *)
Definition launch_tagged_second_event : value :=
  VObj [("source", VStr "aws.ec2");
        ("detail",
         VObj [("eventName", VStr "RunInstances");
               ("requestParameters",
                VObj [("tagSpecificationSet",
                       VObj [("items",
                              VArr [VObj [("resourceType", VStr "volume");
                                          ("tags",
                                           VArr [VObj [("key", VStr "Name");
                                                       ("value", VStr "data")]])];
                                    VObj [("resourceType", VStr "instance");
                                          ("tags",
                                           VArr [sample_tag "svc.example.com"])]])])]);
               ("responseElements",
                VObj [("instancesSet",
                       VObj [("items",
                              VArr [VObj [("instanceId", VStr "i-0abc")]])])])])].

Definition terminate_event : value :=
  VObj [("source", VStr "aws.ec2");
        ("detail",
         VObj [("eventName", VStr "TerminateInstances");
               ("requestParameters",
                VObj [("instancesSet",
                       VObj [("items",
                              VArr [VObj [("instanceId", VStr "i-0abc")]])])])])].

Definition remove_tags_event : value :=
  VObj [("source", VStr "aws.elasticloadbalancing");
        ("detail",
         VObj [("eventName", VStr "RemoveTags");
               ("requestParameters",
                VObj [("resourceArns",
                       VArr [VStr "arn:aws:elasticloadbalancing:lb/app/web/1"]);
                      ("tagKeys", VArr [VStr "Name"; VStr TAG_KEY])])])].

(** A world whose store holds the association of the sample instance and
    that of the sample balancer. *)
Definition linked_world : World :=
  mkWorld
    (<["i-0abc" := row (VStr "i-0abc") (VStr "svc.example.com") sample_instance]>
       (<["arn:aws:elasticloadbalancing:lb/app/web/1" :=
            row (VStr "arn:aws:elasticloadbalancing:lb/app/web/1")
                (VStr "www.example.com") sample_balancer]> ∅))
    [] [].

(** ** Further vocabulary *)

(** [undefined] and [null], the values that have no properties. *)
Definition nullish (v : value) : bool :=
  match v with
  | VUndef | VNull => true
  | _ => false
  end.

(** The values that [==] and string concatenation convert to a string
    without an error.  ToPrimitive of an object calls its [toString]
    (after [valueOf], which gives the object back): with an own property
    of that name, which in JSON data is no function, it throws a
    [TypeError]; an array is converted element by element.  [loose_eq]
    and [to_string] are the comparison and the conversion on these
    values. *)
Definition has_own (name : string) (props : list (string * value)) : bool :=
  existsb (fun p => String.eqb (fst p) name) props.

Fixpoint convertible (v : value) : bool :=
  match v with
  | VObj props => negb (has_own "toString" props)
  | VArr items =>
      (fix all (l : list value) : bool :=
         match l with
         | [] => true
         | x :: rest => convertible x && all rest
         end) items
  | _ => true
  end.

(** Services like the sample ones, except that the record API rejects
    every change. *)
Definition rejecting_env : Env :=
  mkEnv (ec2_describeInstances sample_env)
        (elbv2_describeLoadBalancers sample_env)
        (route53_listHostedZonesByName sample_env)
        (fun _ => None)
        (fun _ => false).

(** Services like the sample ones, except that the instance inventory
    rejects every describe. *)
Definition blind_env : Env :=
  mkEnv (fun _ => None)
        (elbv2_describeLoadBalancers sample_env)
        (route53_listHostedZonesByName sample_env)
        (route53_changeResourceRecordSets sample_env)
        (fun _ => false).

(** Services like the sample ones, except that the zone directory finds
    no zone. *)
Definition zoneless_env : Env :=
  mkEnv (ec2_describeInstances sample_env)
        (elbv2_describeLoadBalancers sample_env)
        (fun _ => Some (VObj [("HostedZones", VArr [])]))
        (route53_changeResourceRecordSets sample_env)
        (fun _ => false).

(** DeleteTags of the designated tag of one instance, value given. *)
Definition delete_tags_event : value :=
  VObj [("source", VStr "aws.ec2");
        ("detail",
         VObj [("eventName", VStr "DeleteTags");
               ("requestParameters",
                VObj [("resourcesSet",
                       VObj [("items",
                              VArr [VObj [("resourceId", VStr "i-0abc")]])]);
                      ("tagSet",
                       VObj [("items",
                              VArr [sample_tag "svc.example.com"])])])])].

(** DeleteTags of the designated tag by its key alone. *)
Definition delete_tags_by_key_event : value :=
  VObj [("source", VStr "aws.ec2");
        ("detail",
         VObj [("eventName", VStr "DeleteTags");
               ("requestParameters",
                VObj [("resourcesSet",
                       VObj [("items",
                              VArr [VObj [("resourceId", VStr "i-0abc")]])]);
                      ("tagSet",
                       VObj [("items",
                              VArr [VObj [("key", VStr TAG_KEY)]])])])])].

Definition add_tags_event : value :=
  VObj [("source", VStr "aws.elasticloadbalancing");
        ("detail",
         VObj [("eventName", VStr "AddTags");
               ("requestParameters",
                VObj [("resourceArns",
                       VArr [VStr "arn:aws:elasticloadbalancing:lb/app/web/1"]);
                      ("tags", VArr [sample_tag "www.example.com"])])])].

Definition delete_balancer_event : value :=
  VObj [("source", VStr "aws.elasticloadbalancing");
        ("detail",
         VObj [("eventName", VStr "DeleteLoadBalancer");
               ("requestParameters",
                VObj [("loadBalancerArn",
                       VStr "arn:aws:elasticloadbalancing:lb/app/web/1")])])].

(** An instance-launch event, seen from the store: RunInstances with the
    designated tag valued [alias] in its first tag specification, for the
    new instance [iid]. *)
Definition launches (event : value) (alias iid : string) : Prop :=
  prop event "source" = Ok (VStr "aws.ec2") /\
  Ok event .> "detail" .> "eventName" = Ok (VStr "RunInstances") /\
  (exists tags entry,
     Ok event .> "detail" .> "requestParameters" .> "tagSpecificationSet"
        .> "items" .>[0] .> "tags" = Ok tags /\
     findEntry tags = Ok entry /\
     prop entry "value" = Ok (VStr alias)) /\
  Ok event .> "detail" .> "responseElements" .> "instancesSet"
     .> "items" .>[0] .> "instanceId" = Ok (VStr iid).

(** An instance-termination event for the instance [iid]. *)
Definition terminates (event : value) (iid : string) : Prop :=
  prop event "source" = Ok (VStr "aws.ec2") /\
  Ok event .> "detail" .> "eventName" = Ok (VStr "TerminateInstances") /\
  Ok event .> "detail" .> "requestParameters" .> "instancesSet"
     .> "items" .>[0] .> "instanceId" = Ok (VStr iid).

(** The calls that change nothing: the two inventory describes, the zone
    lookup and the table read. *)
Definition is_read (c : Call) : bool :=
  match c with
  | EC2_describeInstances _ | ELBv2_describeLoadBalancers _
  | Route53_listHostedZonesByName _ | DynamoDB_get _ => true
  | Route53_changeResourceRecordSets _ | DynamoDB_put _ | DynamoDB_delete _ =>
      false
  end.

(** A row as the handlers write it: under the key [k] it has the id [k]
    and the snapshot of the instance or of the balancer named [k]. *)
Definition row_ok (k : string) (item : value) : Prop :=
  exists alias object,
    item = row (VStr k) alias object /\
    (prop object "InstanceId" = Ok (VStr k) \/
     prop object "LoadBalancerArn" = Ok (VStr k)).

Definition store_ok (s : gmap string value) : Prop := map_Forall row_ok s.

(** A computation that only reads: the store is as before and the calls
    it adds are reads. *)
Definition reads_only {A} (m : M A) : Prop :=
  forall w,
    store (snd (m w)) = store w /\
    exists reads,
      calls (snd (m w)) = calls w ++ reads /\ forallb is_read reads = true.

(** A computation that reads, then at most mutates the store and submits
    a change, in that order; that returns normally only with neither or
    both; that changes the store under one key at most; and that keeps
    the rows well formed. *)
Definition disciplined {A} (m : M A) : Prop :=
  forall w,
    (exists reads upsert tail,
       calls (snd (m w)) = calls w ++ reads ++ tail /\
       forallb is_read reads = true /\
       store_first upsert tail /\
       (forall a, fst (m w) = Ok a ->
                  tail = [] \/
                  exists p c, tail = [p; Route53_changeResourceRecordSets c])) /\
    (exists k, forall k', k' <> k -> store (snd (m w)) !! k' = store w !! k') /\
    (store_ok (store w) -> store_ok (store (snd (m w)))).

(** The function invoked once per event, one event after the other: the
    world each invocation leaves is the one the next starts in, whether
    the invocation returned or threw. *)
Definition handle_all (env : Env) (events : list value) (w : World) : World :=
  fold_left (fun w event => snd (handler env event w)) events w.

(** ** The event rules of the stack ([cdk/lib/r53-records-stack.js]) *)

(** An event pattern as the stack writes it: for each field the values
    that are let through. *)
Record EventPattern : Type := mkEventPattern {
  pattern_source : list string;
  pattern_detailType : list string;
  pattern_eventSource : list string;
  pattern_eventName : list string
}.

(** Rule "R53-Records-EC2". *)
Definition ec2_rule : EventPattern :=
  mkEventPattern
    ["aws.ec2"]
    ["AWS API Call via CloudTrail"]
    ["ec2.amazonaws.com"]
    ["RunInstances"; "TerminateInstances"; "CreateTags"; "DeleteTags"].

(** Rule "R53-Records-ELB". *)
Definition elb_rule : EventPattern :=
  mkEventPattern
    ["aws.elasticloadbalancing"]
    ["AWS API Call via CloudTrail"]
    ["elasticloadbalancing.amazonaws.com"]
    ["CreateLoadBalancer"; "DeleteLoadBalancer"; "AddTags"; "RemoveTags"].

(** How the event bus reads a pattern: the field of the event is a string
    and is one of the listed values. *)
Definition field_matches (field : Res value) (allowed : list string) : bool :=
  match field with
  | Ok (VStr s) => existsb (String.eqb s) allowed
  | _ => false
  end.

Definition pattern_matches (p : EventPattern) (event : value) : bool :=
  field_matches (prop event "source") (pattern_source p) &&
  field_matches (prop event "detail-type") (pattern_detailType p) &&
  field_matches (Ok event .> "detail" .> "eventSource") (pattern_eventSource p) &&
  field_matches (Ok event .> "detail" .> "eventName") (pattern_eventName p).

(** Both rules have the function as their target. *)
Definition delivered (event : value) : bool :=
  pattern_matches ec2_rule event || pattern_matches elb_rule event.

(** The event source CloudTrail records for the calls of a service:
    [ec2.amazonaws.com] in the events of [aws.ec2], and so on. *)
Definition cloudtrail_event_source (source : string) : string :=
  if String.eqb source "aws.ec2" then "ec2.amazonaws.com"
  else if String.eqb source "aws.elasticloadbalancing"
       then "elasticloadbalancing.amazonaws.com"
       else source.

(** A delivered event without request parameters. *)
Definition delivered_bare_event : value :=
  VObj [("source", VStr "aws.ec2");
        ("detail-type", VStr "AWS API Call via CloudTrail");
        ("detail",
         VObj [("eventSource", VStr "ec2.amazonaws.com");
               ("eventName", VStr "DeleteTags");
               ("requestParameters", VNull)])].

(* ===================================================================== *)
(** * Proofs *)
(* ===================================================================== *)

Arguments prop !v name /.
Arguments first !v /.
Arguments truthy !v /.
Arguments strict_eq !v lit /.
Arguments loose_eq !v lit /.
Arguments getDomain !url /.
Arguments findEntry : simpl never.
Arguments findKey : simpl never.
Arguments to_string : simpl never.
Arguments String.append : simpl never.
Arguments Ec2Handler_load : simpl never.
Arguments ElbHandler_load : simpl never.
Arguments HostedZone_load : simpl never.
Arguments Ec2Handler_updateRecords : simpl never.
Arguments ElbHandler_updateRecords : simpl never.
Arguments RecordTable_getItem : simpl never.
Arguments RecordTable_update : simpl never.
Arguments RecordTable_remove : simpl never.
Arguments resolve : simpl never.

(** ** The JavaScript fragment on examples *)

Example getDomain_svc :
  getDomain (VStr "svc.example.com") = Ok (VStr "example.com").
Proof. reflexivity. Qed.

Example findEntry_last_wins :
  findEntry (VArr [VObj [("key", VStr TAG_KEY); ("value", VStr "a.x.org")];
                   VObj [("key", VStr "Name"); ("value", VStr "web")];
                   VObj [("key", VStr TAG_KEY); ("value", VStr "b.x.org")]])
  = Ok (VObj [("key", VStr TAG_KEY); ("value", VStr "b.x.org")]).
Proof. reflexivity. Qed.

(** [==] applies ToString to an array: a one-element array holding the
    tag key is equal to it. *)
Example loose_eq_array :
  loose_eq (VArr [VStr TAG_KEY]) TAG_KEY = true.
Proof. reflexivity. Qed.

(** ** Reading values *)

(** A value that has one property read succeed has them all succeed. *)
Lemma prop_total v a b x :
  prop v a = Ok x -> exists y, prop v b = Ok y.
Proof. destruct v; simpl; intros H; try discriminate H; eauto. Qed.

Lemma truthy_prop v : truthy v = true -> forall a, exists y, prop v a = Ok y.
Proof. destruct v; simpl; intros H a; try discriminate H; eauto. Qed.

(** A value with a property that holds a string is an object. *)
Lemma prop_string_truthy v name s :
  prop v name = Ok (VStr s) -> truthy v = true.
Proof.
  destruct v; simpl; intros H; try discriminate H; try reflexivity;
    revert H; destruct (String.eqb name "length"); intros H; discriminate H.
Qed.

(** A value with a property, other than [length], that can itself be
    indexed is an object. *)
Lemma prop_first_truthy v name x y :
  String.eqb name "length" = false ->
  prop v name = Ok x -> first x = Ok y -> truthy v = true.
Proof.
  destruct v; simpl; intros Hname Hx Hy; try discriminate Hx; try reflexivity;
    try rewrite Hname in Hx; injection Hx as <-; discriminate Hy.
Qed.

Lemma prop_array_truthy v name items :
  prop v name = Ok (VArr items) -> truthy v = true.
Proof.
  destruct v; simpl; intros H; try discriminate H; try reflexivity;
    revert H; destruct (String.eqb name "length"); intros H; discriminate H.
Qed.

Lemma loose_eq_primitive v lit :
  primitive v = true -> loose_eq v lit = strict_eq v lit.
Proof. destruct v; simpl; intros H; try reflexivity; discriminate H. Qed.

(** Splits the hypotheses on chains of reads into single reads. *)
Ltac split_reads :=
  unfold dot, dot0 in *;
  repeat match goal with
  | H : rbind (Ok _) _ = _ |- _ => cbn [rbind] in H
  | H : rbind ?r _ = Ok _ |- _ =>
      let E := fresh "E" in
      destruct r eqn:E; cbn [rbind] in H; [|discriminate H]
  | H : Ok _ = Ok _ |- _ => injection H as H; try subst
  | H : (_, _) = (_, _) |- _ => injection H as ? ?; try subst
  end.

(** Uses the single reads in the goal. *)
Ltac use_reads :=
  repeat (cbn [rbind];
          match goal with
          | H : prop ?v ?n = _ |- context [prop ?v ?n] => rewrite H
          | H : first ?v = _ |- context [first ?v] => rewrite H
          | H : findEntry ?v = _ |- context [findEntry ?v] => rewrite H
          | H : findKey ?v = _ |- context [findKey ?v] => rewrite H
          | H : getDomain ?v = _ |- context [getDomain ?v] => rewrite H
          | H : truthy ?v = _ |- context [truthy ?v] => rewrite H
          | H : strict_eq ?v ?n = _ |- context [strict_eq ?v ?n] => rewrite H
          end).

Ltac unfold_services :=
  unfold RecordTable_update, RecordTable_remove, RecordTable_getItem,
    dynamodb_put, dynamodb_delete, dynamodb_get,
    route53_change, route53_list, ec2_describe, elbv2_describe,
    request, console_log, record_call, mbind, lift, ret in *.

Ltac read_through :=
  unfold mbind, lift;
  repeat (use_reads; simpl;
          repeat match goal with
          | H : prop ?v _ = Ok (VArr _) |- context [truthy ?v] =>
              rewrite (prop_array_truthy _ _ _ H)
          end);
  try reflexivity.

(** ** The sample services *)

Lemma sample_store_up : store_up sample_env.
Proof. intros c. reflexivity. Qed.

Lemma sample_instance_described id :
  instance_described sample_env id sample_instance.
Proof. eexists. split; reflexivity. Qed.

Lemma sample_change_accepted params : change_accepted sample_env params.
Proof. do 2 eexists. split; reflexivity. Qed.

Lemma sample_zone_listed domain :
  zone_listed sample_env domain (VStr "/hostedzone/Z1").
Proof. eexists. split; reflexivity. Qed.

(** ** The association store *)

Lemma update_run env (k : string) alias object w :
  dynamodb_rejects env (DynamoDB_put (item_params (VStr k) alias object)) = false ->
  RecordTable_update env (VStr k) alias object w
  = (Ok tt, mkWorld (<[k := row (VStr k) alias object]> (store w))
                    (calls w ++ [DynamoDB_put (item_params (VStr k) alias object)])
                    (console w)).
Proof.
  intros Hup. unfold RecordTable_update, mbind, dynamodb_put.
  rewrite Hup. reflexivity.
Qed.

Lemma remove_run env (k : string) w :
  dynamodb_rejects env (DynamoDB_delete (key_params (VStr k))) = false ->
  RecordTable_remove env (VStr k) w
  = (Ok tt, mkWorld (delete k (store w))
                    (calls w ++ [DynamoDB_delete (key_params (VStr k))])
                    (console w)).
Proof.
  intros Hup. unfold RecordTable_remove, mbind, dynamodb_delete.
  rewrite Hup. reflexivity.
Qed.

Lemma getItem_run env (k : string) w :
  dynamodb_rejects env (DynamoDB_get (key_params (VStr k))) = false ->
  RecordTable_getItem env (VStr k) w
  = (Ok (match store w !! k with Some r => r | None => VUndef end),
     record_call (DynamoDB_get (key_params (VStr k))) w).
Proof.
  intros Hup. unfold RecordTable_getItem, mbind, dynamodb_get.
  rewrite Hup. simpl. destruct (store w !! k); reflexivity.
Qed.

(** C8.  With the table up, [update] for an id followed by [remove] for
    the same id both succeed; the row is present in between and absent
    afterwards, and the rest of the table is as it was at the start. *)
Theorem store_update_then_remove env (k : string) alias object w :
  store_up env ->
  exists w1 w2,
    RecordTable_update env (VStr k) alias object w = (Ok tt, w1) /\
    store w1 !! k = Some (row (VStr k) alias object) /\
    RecordTable_remove env (VStr k) w1 = (Ok tt, w2) /\
    store w2 !! k = None /\
    store w2 = delete k (store w).
Proof.
  intros Hup. do 2 eexists.
  split; [apply update_run, Hup|].
  split; [apply lookup_insert_eq|].
  split; [apply remove_run, Hup|].
  simpl. split; [apply lookup_delete_eq|apply delete_insert_eq].
Qed.

Lemma store_update_then_remove_witness :
  exists w1 w2,
    RecordTable_update sample_env (VStr "i-0abc") (VStr "svc.example.com")
      sample_instance empty_world = (Ok tt, w1) /\
    store w1 !! "i-0abc"
    = Some (row (VStr "i-0abc") (VStr "svc.example.com") sample_instance) /\
    RecordTable_remove sample_env (VStr "i-0abc") w1 = (Ok tt, w2) /\
    store w2 !! "i-0abc" = None /\
    store w2 = delete "i-0abc" (store empty_world).
Proof.
  apply (store_update_then_remove sample_env "i-0abc" (VStr "svc.example.com")
           sample_instance empty_world).
  apply sample_store_up.
Defined.

(** ** The record mutator *)

Ltac close_calls :=
  simpl;
  first
    [ exists []; rewrite app_nil_r;
      split; [reflexivity|split; [constructor|discriminate]]
    | eexists [_];
      split; [reflexivity|split; [constructor; reflexivity|discriminate]]
    | rewrite <- app_assoc; eexists [_; _];
      split; [reflexivity|split; [constructor; reflexivity|]];
      solve [discriminate|eauto] ].

(** The part of [updateRecords] after the change batch is built: the
    table request, the change request, the read of the change id. *)
Ltac after_build closer env id :=
  let data := fresh "data" in
  let info := fresh "info" in
  match goal with |- context [dynamodb_rejects env ?c] =>
    destruct (dynamodb_rejects env c) end;
  [closer|];
  destruct id; try solve [closer];
  match goal with |- context [route53_changeResourceRecordSets env ?c] =>
    destruct (route53_changeResourceRecordSets env c) as [data|] end;
  [|closer];
  simpl; destruct (prop data "ChangeInfo") as [info|]; [|closer];
  simpl; destruct (prop info "Id"); closer.

Lemma Ec2Handler_updateRecords_calls env h zoneId alias upsert w :
  exists new,
    calls (snd (Ec2Handler_updateRecords env h zoneId alias upsert w))
    = calls w ++ new /\
    store_first upsert new /\
    (fst (Ec2Handler_updateRecords env h zoneId alias upsert w) = Ok tt ->
     exists p c, new = [p; Route53_changeResourceRecordSets c]).
Proof.
  unfold Ec2Handler_updateRecords. unfold_services.
  destruct (prop (instance h) "PrivateIpAddress") as [ip|]; [|close_calls].
  destruct (prop (instance h) "InstanceId") as [id|];
    [|destruct upsert; close_calls].
  destruct upsert; simpl; after_build ltac:(close_calls) env id.
Qed.

Lemma ElbHandler_updateRecords_calls env h zoneId alias upsert w :
  exists new,
    calls (snd (ElbHandler_updateRecords env h zoneId alias upsert w))
    = calls w ++ new /\
    store_first upsert new /\
    (fst (ElbHandler_updateRecords env h zoneId alias upsert w) = Ok tt ->
     exists p c, new = [p; Route53_changeResourceRecordSets c]).
Proof.
  unfold ElbHandler_updateRecords. unfold_services.
  destruct (prop (lb h) "CanonicalHostedZoneId") as [czone|]; [|close_calls].
  destruct (prop (lb h) "Type") as [type|]; [|close_calls].
  destruct (prop (lb h) "DNSName") as [dns|]; [|close_calls].
  destruct (prop (lb h) "LoadBalancerArn") as [id|];
    [|destruct upsert; close_calls].
  destruct upsert; simpl; after_build ltac:(close_calls) env id.
Qed.

(** C3.  Whatever the services answer, a run of [updateRecords] (of the
    instance handler and of the balancer handler) adds to the call log
    either nothing, or the store mutation alone, or the store mutation
    followed by the change request: a put when [upsert] is true, a delete
    when it is false.  A run that returns normally has made both calls, in
    that order. *)
Theorem store_mutation_precedes_change env zoneId alias upsert w :
  (forall h,
     exists new,
       calls (snd (Ec2Handler_updateRecords env h zoneId alias upsert w))
       = calls w ++ new /\
       store_first upsert new /\
       (fst (Ec2Handler_updateRecords env h zoneId alias upsert w) = Ok tt ->
        exists p c, new = [p; Route53_changeResourceRecordSets c])) /\
  (forall h,
     exists new,
       calls (snd (ElbHandler_updateRecords env h zoneId alias upsert w))
       = calls w ++ new /\
       store_first upsert new /\
       (fst (ElbHandler_updateRecords env h zoneId alias upsert w) = Ok tt ->
        exists p c, new = [p; Route53_changeResourceRecordSets c])).
Proof.
  split; intros h.
  - apply Ec2Handler_updateRecords_calls.
  - apply ElbHandler_updateRecords_calls.
Qed.

Ltac close_shape :=
  simpl;
  first
    [ exists []; rewrite app_nil_r;
      split; [reflexivity|split; [left; reflexivity|discriminate]]
    | eexists [_];
      split; [reflexivity|split; [left; reflexivity|discriminate]]
    | rewrite <- app_assoc; eexists [_; _];
      split; [reflexivity|split; [right; reflexivity|intros _; reflexivity]] ].

(** C6.  The change requests that a run of [updateRecords] adds to the
    call log: none or exactly one, and one when the run returns normally.
    For an instance it is an A record with TTL 300 whose value is the
    instance's private address.  For a balancer whose [Type] is a
    primitive value (the inventory answers with a string) it is an alias
    record targeting the balancer's canonical hosted zone and its DNS
    name followed by a dot, prefixed by "dualstack." exactly when the type
    is the string "application", with target-health evaluation on.  The
    action is "UPSERT" when [upsert] is true and "DELETE" otherwise. *)
Theorem change_request_shape env zoneId alias (upsert : bool) w :
  (forall h ip,
     prop (instance h) "PrivateIpAddress" = Ok ip ->
     let expected :=
       change_params zoneId
         (VArr [address_change (if upsert then "UPSERT" else "DELETE") alias ip]) in
     exists new,
       calls (snd (Ec2Handler_updateRecords env h zoneId alias upsert w))
       = calls w ++ new /\
       (change_requests new = [] \/ change_requests new = [expected]) /\
       (fst (Ec2Handler_updateRecords env h zoneId alias upsert w) = Ok tt ->
        change_requests new = [expected])) /\
  (forall h targetZone type dns,
     prop (lb h) "CanonicalHostedZoneId" = Ok targetZone ->
     prop (lb h) "Type" = Ok type ->
     prop (lb h) "DNSName" = Ok dns ->
     primitive type = true ->
     let expected :=
       change_params zoneId
         (VArr [alias_change (if upsert then "UPSERT" else "DELETE") alias
                  targetZone
                  ((if strict_eq type "application" then "dualstack." else "")
                   +:+ to_string dns +:+ ".")]) in
     exists new,
       calls (snd (ElbHandler_updateRecords env h zoneId alias upsert w))
       = calls w ++ new /\
       (change_requests new = [] \/ change_requests new = [expected]) /\
       (fst (ElbHandler_updateRecords env h zoneId alias upsert w) = Ok tt ->
        change_requests new = [expected])).
Proof.
  split.
  - intros h ip Hip expected. subst expected.
    unfold Ec2Handler_updateRecords. unfold_services. rewrite Hip.
    destruct (prop (instance h) "InstanceId") as [id|];
      [|destruct upsert; close_shape].
    destruct upsert; simpl; after_build ltac:(close_shape) env id.
  - intros h targetZone type dns Hzone Htype Hdns Hprim expected. subst expected.
    unfold ElbHandler_updateRecords. unfold_services.
    rewrite Hzone, Htype, Hdns, (loose_eq_primitive _ _ Hprim).
    destruct (prop (lb h) "LoadBalancerArn") as [id|];
      [|destruct upsert; close_shape].
    destruct upsert; simpl; after_build ltac:(close_shape) env id.
Qed.

Lemma change_request_shape_witness :
  (let expected :=
     change_params (VStr "/hostedzone/Z1")
       (VArr [address_change "UPSERT" (VStr "svc.example.com")
                (VStr "10.0.0.5")]) in
   exists new,
     calls (snd (Ec2Handler_updateRecords sample_env
                   (mkEc2Handler (VStr "i-0abc") sample_instance)
                   (VStr "/hostedzone/Z1") (VStr "svc.example.com") true
                   empty_world))
     = calls empty_world ++ new /\
     (change_requests new = [] \/ change_requests new = [expected]) /\
     (fst (Ec2Handler_updateRecords sample_env
             (mkEc2Handler (VStr "i-0abc") sample_instance)
             (VStr "/hostedzone/Z1") (VStr "svc.example.com") true
             empty_world) = Ok tt ->
      change_requests new = [expected])) /\
  (let expected :=
     change_params (VStr "/hostedzone/Z1")
       (VArr [alias_change "DELETE" (VStr "www.example.com")
                (VStr "Z35SXDOTRQ7X7K")
                ((if strict_eq (VStr "application") "application"
                  then "dualstack." else "")
                 +:+ to_string (VStr "web-1.elb.amazonaws.com") +:+ ".")]) in
   exists new,
     calls (snd (ElbHandler_updateRecords sample_env
                   (mkElbHandler VUndef sample_balancer)
                   (VStr "/hostedzone/Z1") (VStr "www.example.com") false
                   linked_world))
     = calls linked_world ++ new /\
     (change_requests new = [] \/ change_requests new = [expected]) /\
     (fst (ElbHandler_updateRecords sample_env
             (mkElbHandler VUndef sample_balancer)
             (VStr "/hostedzone/Z1") (VStr "www.example.com") false
             linked_world) = Ok tt ->
      change_requests new = [expected])).
Proof.
  split.
  - apply (proj1 (change_request_shape sample_env (VStr "/hostedzone/Z1")
                    (VStr "svc.example.com") true empty_world)
             (mkEc2Handler (VStr "i-0abc") sample_instance) (VStr "10.0.0.5")).
    reflexivity.
  - apply (proj2 (change_request_shape sample_env (VStr "/hostedzone/Z1")
                    (VStr "www.example.com") false linked_world)
             (mkElbHandler VUndef sample_balancer)
             (VStr "Z35SXDOTRQ7X7K") (VStr "application")
             (VStr "web-1.elb.amazonaws.com"));
      reflexivity.
Defined.

(** The alias record of the sample balancer, spelled out. *)
Example sample_alias_change :
  change_requests
    (calls (snd (ElbHandler_updateRecords sample_env
                   (mkElbHandler VUndef sample_balancer)
                   (VStr "/hostedzone/Z1") (VStr "www.example.com") true
                   empty_world)))
  = [change_params (VStr "/hostedzone/Z1")
       (VArr [alias_change "UPSERT" (VStr "www.example.com")
                (VStr "Z35SXDOTRQ7X7K")
                "dualstack.web-1.elb.amazonaws.com."])].
Proof. reflexivity. Qed.

(** A run of the instance mutator with the table up, on an instance that
    has an id. *)
Lemma Ec2Handler_updateRecords_run env h zoneId alias (upsert : bool) w k ip :
  prop (instance h) "PrivateIpAddress" = Ok ip ->
  prop (instance h) "InstanceId" = Ok (VStr k) ->
  store_up env ->
  let change :=
    change_params zoneId
      (VArr [address_change (if upsert then "UPSERT" else "DELETE") alias ip]) in
  let run := Ec2Handler_updateRecords env h zoneId alias upsert w in
  store (snd run)
  = (if upsert then <[k := row (VStr k) alias (instance h)]> (store w)
     else delete k (store w)) /\
  calls (snd run)
  = calls w ++
    [if upsert then DynamoDB_put (item_params (VStr k) alias (instance h))
     else DynamoDB_delete (key_params (VStr k));
     Route53_changeResourceRecordSets change] /\
  (change_accepted env change -> fst run = Ok tt).
Proof.
  intros Hip Hid Hup change run. subst change run.
  unfold Ec2Handler_updateRecords. unfold_services. rewrite Hip, Hid.
  destruct upsert; simpl; rewrite Hup; simpl; rewrite <- app_assoc; simpl.
  all: unfold change_params, address_change, action_of, DEFAULT_TTL.
  all: split; [|split]; [| |intros (data & id & -> & Hread); split_reads;
                              simpl; use_reads];
    match goal with
    | |- context [route53_changeResourceRecordSets ?e ?c] =>
        destruct (route53_changeResourceRecordSets e c) as [data|];
        simpl; [|reflexivity];
        destruct (prop data "ChangeInfo") as [info|]; simpl; [|reflexivity];
        destruct (prop info "Id"); reflexivity
    | _ => reflexivity
    end.
Qed.

(** A run of the balancer mutator with the table up, on a balancer that
    has an arn. *)
Lemma ElbHandler_updateRecords_run
    env h zoneId alias (upsert : bool) w k targetZone type dns :
  prop (lb h) "CanonicalHostedZoneId" = Ok targetZone ->
  prop (lb h) "Type" = Ok type ->
  prop (lb h) "DNSName" = Ok dns ->
  prop (lb h) "LoadBalancerArn" = Ok (VStr k) ->
  store_up env ->
  let change :=
    change_params zoneId
      (VArr [alias_change (if upsert then "UPSERT" else "DELETE") alias
               targetZone
               ((if loose_eq type "application" then "dualstack." else "")
                +:+ to_string dns +:+ ".")]) in
  let run := ElbHandler_updateRecords env h zoneId alias upsert w in
  store (snd run)
  = (if upsert then <[k := row (VStr k) alias (lb h)]> (store w)
     else delete k (store w)) /\
  calls (snd run)
  = calls w ++
    [if upsert then DynamoDB_put (item_params (VStr k) alias (lb h))
     else DynamoDB_delete (key_params (VStr k));
     Route53_changeResourceRecordSets change] /\
  (change_accepted env change -> fst run = Ok tt).
Proof.
  intros Hzone Htype Hdns Hid Hup change run. subst change run.
  unfold ElbHandler_updateRecords. unfold_services.
  rewrite Hzone, Htype, Hdns, Hid.
  destruct upsert; simpl; rewrite Hup; simpl; rewrite <- app_assoc; simpl.
  all: unfold change_params, alias_change, action_of.
  all: split; [|split]; [| |intros (data & id & -> & Hread); split_reads;
                              simpl; use_reads];
    match goal with
    | |- context [route53_changeResourceRecordSets ?e ?c] =>
        destruct (route53_changeResourceRecordSets e c) as [data|];
        simpl; [|reflexivity];
        destruct (prop data "ChangeInfo") as [info|]; simpl; [|reflexivity];
        destruct (prop info "Id"); reflexivity
    | _ => reflexivity
    end.
Qed.

(** The mutator consults the record API and the table only. *)
Lemma ElbHandler_updateRecords_env env env' h zoneId alias upsert w :
  route53_changeResourceRecordSets env' = route53_changeResourceRecordSets env ->
  dynamodb_rejects env' = dynamodb_rejects env ->
  ElbHandler_updateRecords env' h zoneId alias upsert w
  = ElbHandler_updateRecords env h zoneId alias upsert w.
Proof.
  intros Hchange Hrejects.
  unfold ElbHandler_updateRecords. unfold_services.
  rewrite Hchange, Hrejects. reflexivity.
Qed.

Lemma change_requests_app l1 l2 :
  change_requests (l1 ++ l2) = change_requests l1 ++ change_requests l2.
Proof.
  induction l1 as [|c l1 IH]; [reflexivity|].
  destruct c; simpl; rewrite IH; reflexivity.
Qed.

(** ** Zone resolution *)

Lemma substring_whole s : String.substring 0 (String.length s) s = s.
Proof. induction s as [|c s IH]; simpl; [reflexivity|]. now rewrite IH. Qed.

Lemma prefix_empty s : String.prefix "" s = true.
Proof. destruct s; reflexivity. Qed.

(** [indexOf] finds the first dot, and the suffix after it is what
    [after_first_dot] gives. *)
Lemma index_dot s :
  match String.index 0 "." s with
  | Some n =>
      after_first_dot s
      = Some (String.substring (S n) (String.length s - S n) s)
  | None => after_first_dot s = None
  end.
Proof.
  induction s as [|c s IH]; [reflexivity|].
  cbn [String.index String.prefix after_first_dot].
  destruct (ascii_dec "." c) as [<-|Hne].
  - rewrite prefix_empty. simpl. now rewrite Nat.sub_0_r, substring_whole.
  - assert (Ascii.eqb c "." = false) as ->
      by (apply Ascii.eqb_neq; congruence).
    destruct (String.index 0 "." s) as [n|]; simpl; exact IH.
Qed.

Lemma getDomain_string s :
  getDomain (VStr s) = Ok (VStr (queried_domain s)).
Proof.
  unfold getDomain, substring_from, indexOf, queried_domain.
  pose proof (index_dot s) as H.
  destruct (String.index 0 "." s) as [n|]; rewrite H.
  - replace (Z.to_nat (Z.max 0 (Z.of_nat n + 1))) with (S n) by lia.
    reflexivity.
  - simpl. now rewrite Nat.sub_0_r, substring_whole.
Qed.

(** A label has no dot; a name made of a label, a dot and a rest. *)
Lemma after_first_dot_label label rest :
  after_first_dot label = None ->
  after_first_dot (label +:+ "." +:+ rest) = Some rest.
Proof.
  induction label as [|c label IH]; simpl; [reflexivity|].
  destruct (Ascii.eqb c "."); [discriminate|exact IH].
Qed.

Lemma HostedZone_load_run env domain zid w :
  zone_listed env domain zid ->
  exists z,
    HostedZone_load env (new_HostedZone domain) w
    = (Ok z, record_call
               (Route53_listHostedZonesByName (VObj [("DNSName", domain)])) w) /\
    HostedZone_id z = Ok zid.
Proof.
  intros (data & Hlist & Hid). split_reads.
  eexists. unfold HostedZone_load. unfold_services. simpl.
  rewrite Hlist. use_reads. simpl. split; [reflexivity|]. assumption.
Qed.

Lemma resolve_run env name domain zid w :
  getDomain name = Ok domain ->
  zone_listed env domain zid ->
  resolve env name w
  = (Ok zid, record_call
               (Route53_listHostedZonesByName (VObj [("DNSName", domain)])) w).
Proof.
  intros Hdom Hzone.
  destruct (HostedZone_load_run env domain zid w Hzone) as (z & Hload & Hid).
  unfold resolve, mbind, lift. rewrite Hdom, Hload, Hid. reflexivity.
Qed.

(** C9, as amended.  For a name made of a dotless label, a dot and a
    rest, zone resolution asks the directory for the rest; for a name
    without any dot it asks for the name itself.  Either way it makes that
    one call and returns the identifier of the first zone listed. *)
Theorem zone_resolution env zid w :
  (forall label rest,
     dotless label ->
     zone_listed env (VStr rest) zid ->
     resolve env (VStr (label +:+ "." +:+ rest)) w
     = (Ok zid,
        record_call
          (Route53_listHostedZonesByName (VObj [("DNSName", VStr rest)])) w)) /\
  (forall name,
     dotless name ->
     zone_listed env (VStr name) zid ->
     resolve env (VStr name) w
     = (Ok zid,
        record_call
          (Route53_listHostedZonesByName (VObj [("DNSName", VStr name)])) w)).
Proof.
  split.
  - intros label rest Hlabel Hzone. apply resolve_run; [|exact Hzone].
    rewrite getDomain_string. unfold queried_domain.
    now rewrite (after_first_dot_label _ _ Hlabel).
  - intros name Hname Hzone. apply resolve_run; [|exact Hzone].
    rewrite getDomain_string. unfold queried_domain.
    unfold dotless in Hname. now rewrite Hname.
Qed.

Lemma zone_resolution_witness :
  resolve sample_env (VStr "svc.example.com") empty_world
  = (Ok (VStr "/hostedzone/Z1"),
     record_call
       (Route53_listHostedZonesByName
          (VObj [("DNSName", VStr "example.com")])) empty_world)
  /\
  resolve sample_env (VStr "localhost") empty_world
  = (Ok (VStr "/hostedzone/Z1"),
     record_call
       (Route53_listHostedZonesByName
          (VObj [("DNSName", VStr "localhost")])) empty_world).
Proof.
  split.
  - apply (proj1 (zone_resolution sample_env (VStr "/hostedzone/Z1") empty_world)
             "svc" "example.com").
    + reflexivity.
    + apply sample_zone_listed.
  - apply (proj2 (zone_resolution sample_env (VStr "/hostedzone/Z1") empty_world)
             "localhost").
    + reflexivity.
    + apply sample_zone_listed.
Defined.

(** C9 as stated fails for a name without a dot: the name minus its
    leftmost label is empty, and the directory is asked for the name. *)
Lemma dotless_alias_queried_whole :
  calls (snd (resolve sample_env (VStr "localhost") empty_world))
  <> [Route53_listHostedZonesByName
        (VObj [("DNSName", VStr (minus_leftmost_label "localhost"))])].
Proof. vm_compute. discriminate. Qed.

(** ** The dispatcher *)

Lemma handler_ec2 env event detail w :
  prop event "source" = Ok (VStr "aws.ec2") ->
  prop event "detail" = Ok detail ->
  handler env event w = processEc2 env detail (logged event w).
Proof.
  intros Hsrc Hdetail. unfold handler, mbind, lift, console_log.
  rewrite Hsrc, Hdetail. reflexivity.
Qed.

Lemma handler_elb env event detail w :
  prop event "source" = Ok (VStr "aws.elasticloadbalancing") ->
  prop event "detail" = Ok detail ->
  handler env event w = processElb env detail (logged event w).
Proof.
  intros Hsrc Hdetail. unfold handler, mbind, lift, console_log.
  rewrite Hsrc, Hdetail. reflexivity.
Qed.

(** C7.  An event whose (source, eventName) pair is not one of the eight
    recognized ones: the handler logs the event and returns normally; the
    call log and the store are as they were. *)
Theorem unrecognized_event_ignored env event w source name :
  event_pair event = Ok (source, name) ->
  recognized source name = false ->
  handler env event w
  = (Ok tt, mkWorld (store w) (calls w)
                    (console w ++ [[Text "Event: "; Json event]])).
Proof.
  intros Hpair Hrec. unfold event_pair in Hpair. split_reads.
  match goal with H : prop _ "eventName" = Ok _ |- _ =>
    destruct (prop_total _ _ "requestParameters" _ H) as [parameters Hparams]
  end.
  unfold recognized in Hrec.
  apply orb_false_iff in Hrec as [Hec2 Helb].
  unfold handler, processEc2, processElb. unfold_services. use_reads.
  destruct (strict_eq source "aws.ec2") eqn:Hs1; simpl in *.
  - repeat (apply orb_false_iff in Hec2 as [Hec2 ?]).
    use_reads. simpl. use_reads. reflexivity.
  - destruct (strict_eq source "aws.elasticloadbalancing") eqn:Hs2;
      simpl in *; [|reflexivity].
    repeat (apply orb_false_iff in Helb as [Helb ?]).
    use_reads. simpl. use_reads. reflexivity.
Qed.

Lemma unrecognized_event_ignored_witness :
  let event :=
    VObj [("source", VStr "aws.ec2");
          ("detail", VObj [("eventName", VStr "StopInstances")])] in
  handler sample_env event linked_world
  = (Ok tt, mkWorld (store linked_world) (calls linked_world)
                    (console linked_world ++ [[Text "Event: "; Json event]])).
Proof.
  apply (unrecognized_event_ignored sample_env
           (VObj [("source", VStr "aws.ec2");
                  ("detail", VObj [("eventName", VStr "StopInstances")])])
           linked_world (VStr "aws.ec2") (VStr "StopInstances"));
    reflexivity.
Defined.

(** ** Looking for the designated tag *)

Lemma filterM_total f l :
  filterM (fun x => Ok (f x)) l = Ok (List.filter f l).
Proof.
  induction l as [|x l IH]; [reflexivity|].
  simpl. rewrite IH. simpl. destruct (f x); reflexivity.
Qed.

Lemma pop_In (l : list value) : l <> [] -> In (pop l) l.
Proof.
  unfold pop. induction l as [|x l IH]; [congruence|].
  intros _. destruct l as [|y l]; [now left|].
  right. apply IH. discriminate.
Qed.

Lemma loose_eq_TAG_KEY_truthy v : loose_eq v TAG_KEY = true -> truthy v = true.
Proof.
  destruct v; simpl; try discriminate; try reflexivity.
  intros H. apply String.eqb_eq in H. subst. reflexivity.
Qed.

(** A key list that holds the designated key: [findKey] returns a truthy
    element of the list, equal (by [==]) to the designated key. *)
Lemma findKey_found keys :
  In (VStr TAG_KEY) keys ->
  exists entry,
    findKey (VArr keys) = Ok entry /\
    truthy entry = true /\
    loose_eq entry TAG_KEY = true.
Proof.
  intros Hin. unfold findKey. simpl. rewrite filterM_total. simpl.
  eexists. split; [reflexivity|].
  assert (In (pop (List.filter (fun tag => loose_eq tag TAG_KEY) keys))
             (List.filter (fun tag => loose_eq tag TAG_KEY) keys)) as Hpop.
  { apply pop_In. intros Hnil.
    assert (In (VStr TAG_KEY) (List.filter (fun tag => loose_eq tag TAG_KEY) keys))
      as Hk by (apply filter_In; split; [exact Hin|reflexivity]).
    rewrite Hnil in Hk. destruct Hk. }
  apply filter_In in Hpop as [_ Heq].
  split; [apply loose_eq_TAG_KEY_truthy|]; exact Heq.
Qed.

(** A key list without the designated key (its keys are strings):
    [findKey] returns [undefined]. *)
Lemma findKey_absent keys :
  Forall (fun k => loose_eq k TAG_KEY = false) keys ->
  findKey (VArr keys) = Ok VUndef.
Proof.
  intros Hall. unfold findKey. simpl. rewrite filterM_total. simpl.
  replace (List.filter (fun tag => loose_eq tag TAG_KEY) keys) with (@nil value);
    [reflexivity|].
  induction Hall as [|k keys Hk _ IH]; [reflexivity|].
  simpl. rewrite Hk. exact IH.
Qed.

(** A tag list (of objects) none of which has the designated key. *)
Lemma findEntry_absent tags :
  Forall (fun tag => exists k, prop tag "key" = Ok k /\
                               loose_eq k TAG_KEY = false) tags ->
  findEntry (VArr tags) = Ok VUndef.
Proof.
  intros Hall. unfold findEntry. simpl.
  replace (filterM (fun tag => let? k := prop tag "key" in
                               Ok (loose_eq k TAG_KEY)) tags)
    with (Ok (@nil value)); [reflexivity|].
  induction Hall as [|tag tags (k & Hk & Hne) _ IH]; [reflexivity|].
  simpl. rewrite Hk. simpl. rewrite Hne, <- IH. reflexivity.
Qed.

(** No list of tags at all. *)
Lemma findEntry_undefined : findEntry VUndef = Ok VNull.
Proof. reflexivity. Qed.

(** A tag list that holds a tag with the designated key, followed by
    tags with other keys only: [findEntry] returns that tag (the last
    one with the key, when several have it). *)
Lemma findEntry_found before tag after :
  Forall (fun t => exists k, prop t "key" = Ok k) before ->
  prop tag "key" = Ok (VStr TAG_KEY) ->
  Forall (fun t => exists k, prop t "key" = Ok k /\
                             loose_eq k TAG_KEY = false) after ->
  findEntry (VArr (before ++ tag :: after)) = Ok tag.
Proof.
  intros Hbefore Htag Hafter. unfold findEntry. simpl.
  assert (exists kept,
            filterM (fun tag => let? k := prop tag "key" in
                                Ok (loose_eq k TAG_KEY))
                    (before ++ tag :: after)
            = Ok (kept ++ [tag])) as (kept & ->).
  { induction Hbefore as [|t before (k & Hk) _ (kept & IH)].
    - exists []. simpl. rewrite Htag. simpl.
      replace (filterM (fun tag => let? k := prop tag "key" in
                                   Ok (loose_eq k TAG_KEY)) after)
        with (Ok (@nil value)); [reflexivity|].
      clear Htag. induction Hafter as [|t after (k & Hk & Hne) _ IH];
        [reflexivity|].
      simpl. rewrite Hk. simpl. rewrite Hne, <- IH. reflexivity.
    - exists (if loose_eq k TAG_KEY then t :: kept else kept).
      simpl. rewrite Hk, IH. simpl.
      destruct (loose_eq k TAG_KEY); reflexivity. }
  simpl. unfold pop. now rewrite last_last.
Qed.

(** ** An instance is launched *)

Lemma Ec2Handler_load_run env id inst w :
  instance_described env id inst ->
  Ec2Handler_load env (new_Ec2Handler id) w
  = (Ok (mkEc2Handler id inst),
     record_call (EC2_describeInstances (VObj [("InstanceIds", VArr [id])])) w).
Proof.
  intros (data & Hdesc & Hinst). split_reads.
  unfold Ec2Handler_load. unfold_services. simpl.
  rewrite Hdesc. use_reads. simpl. congruence.
Qed.

Lemma ElbHandler_load_run env arn balancer w :
  balancer_described env arn balancer ->
  ElbHandler_load env (new_ElbHandler arn) w
  = (Ok (mkElbHandler arn balancer),
     record_call
       (ELBv2_describeLoadBalancers (VObj [("LoadBalancerArns", VArr [arn])])) w).
Proof.
  intros (data & Hdesc & Hlb). split_reads.
  unfold ElbHandler_load. unfold_services. simpl.
  rewrite Hdesc. use_reads. simpl. congruence.
Qed.

(** The RunInstances branch, up to the call of the mutator. *)
Lemma handler_RunInstances env event tags entry name iid inst zid domain w :
  prop event "source" = Ok (VStr "aws.ec2") ->
  Ok event .> "detail" .> "eventName" = Ok (VStr "RunInstances") ->
  Ok event .> "detail" .> "requestParameters" .> "tagSpecificationSet"
     .> "items" .>[0] .> "tags" = Ok tags ->
  findEntry tags = Ok entry ->
  truthy entry = true ->
  prop entry "value" = Ok name ->
  Ok event .> "detail" .> "responseElements" .> "instancesSet"
     .> "items" .>[0] .> "instanceId" = Ok iid ->
  instance_described env iid inst ->
  getDomain name = Ok domain ->
  zone_listed env domain zid ->
  handler env event w
  = Ec2Handler_updateRecords env (mkEc2Handler iid inst) zid name true
      (record_call (Route53_listHostedZonesByName (VObj [("DNSName", domain)]))
         (record_call (EC2_describeInstances (VObj [("InstanceIds", VArr [iid])]))
            (logged event w))).
Proof.
  intros Hsrc Hname Htags Hentry Htruthy Hvalue Hiid Hdesc Hdom Hzone.
  split_reads.
  match goal with
  | H1 : prop ?s "items" = Ok ?i, H2 : first ?i = Ok _,
    H3 : prop _ "tagSpecificationSet" = Ok ?s |- _ =>
      pose proof (prop_first_truthy s "items" _ _ eq_refl H1 H2) as Hspecs
  end.
  unfold handler, processEc2, link_ec2, mbind, lift, console_log.
  use_reads. simpl. use_reads. simpl. use_reads. simpl.
  rewrite (Ec2Handler_load_run _ _ _ _ Hdesc).
  rewrite (resolve_run _ _ _ _ _ Hdom Hzone). reflexivity.
Qed.

(** A tag list that carries the designated tag, as [findEntry] sees it. *)
Lemma tags_carry_found tags alias :
  tags_carry tags alias ->
  exists tag,
    findEntry tags = Ok tag /\
    truthy tag = true /\
    prop tag "value" = Ok (VStr alias).
Proof.
  intros (before & tag & after & -> & Hbefore & [Hkey Hvalue] & Hafter).
  exists tag. split; [|split].
  - apply findEntry_found; [|exact Hkey|].
    + eapply Forall_impl; [exact Hbefore|]. intros t [k Hk]. eauto.
    + eapply Forall_impl; [exact Hafter|]. intros t (k & Hk & Hne).
      exists (VStr k). split; [exact Hk|].
      simpl. now apply String.eqb_neq.
  - exact (prop_string_truthy _ _ _ Hvalue).
  - exact Hvalue.
Qed.

(** C2, as amended.  A RunInstances event whose first tag specification
    carries the designated tag with a string value [alias] (the claim has
    "svc.example.com"), when the inventory describes the new instance, the
    directory lists a zone for the parent domain and the table is up: the
    store then holds, under the new instance id, the row with that alias
    and the described instance; the handler has made exactly four calls,
    the last being the one change request, an UPSERT of an A record
    named [alias]; and it returns normally when the change is accepted.
    The tag is looked for in the first tag specification of the request
    and in no other (line 177 of the handler). *)
Theorem launch_links_record env event tags (alias iid : string) inst ip zid w :
  prop event "source" = Ok (VStr "aws.ec2") ->
  Ok event .> "detail" .> "eventName" = Ok (VStr "RunInstances") ->
  Ok event .> "detail" .> "requestParameters" .> "tagSpecificationSet"
     .> "items" .>[0] .> "tags" = Ok tags ->
  tags_carry tags alias ->
  Ok event .> "detail" .> "responseElements" .> "instancesSet"
     .> "items" .>[0] .> "instanceId" = Ok (VStr iid) ->
  instance_described env (VStr iid) inst ->
  prop inst "InstanceId" = Ok (VStr iid) ->
  prop inst "PrivateIpAddress" = Ok ip ->
  zone_listed env (VStr (queried_domain alias)) zid ->
  store_up env ->
  let change :=
    change_params zid (VArr [address_change "UPSERT" (VStr alias) ip]) in
  let run := handler env event w in
  store (snd run) !! iid = Some (row (VStr iid) (VStr alias) inst) /\
  calls (snd run)
  = calls w ++
    [EC2_describeInstances (VObj [("InstanceIds", VArr [VStr iid])]);
     Route53_listHostedZonesByName
       (VObj [("DNSName", VStr (queried_domain alias))]);
     DynamoDB_put (item_params (VStr iid) (VStr alias) inst);
     Route53_changeResourceRecordSets change] /\
  change_requests (calls (snd run)) = change_requests (calls w) ++ [change] /\
  (change_accepted env change -> fst run = Ok tt).
Proof.
  intros Hsrc Hname Htags Hcarry Hiid Hdesc Hinst Hip Hzone Hup change run.
  subst run.
  destruct (tags_carry_found tags alias Hcarry)
    as (entry & Hentry & Htruthy & Hvalue).
  rewrite (handler_RunInstances env event tags entry (VStr alias) (VStr iid)
             inst zid (VStr (queried_domain alias)) w)
    by eauto using getDomain_string.
  edestruct (Ec2Handler_updateRecords_run env (mkEc2Handler (VStr iid) inst)
               zid (VStr alias) true) as (Hstore & Hcalls & Hok);
    [exact Hip|exact Hinst|exact Hup|].
  rewrite Hstore, Hcalls. simpl. rewrite <- !app_assoc. simpl.
  split; [apply lookup_insert_eq|].
  split; [reflexivity|].
  split; [|exact Hok].
  rewrite change_requests_app. reflexivity.
Qed.

Lemma launch_links_record_witness :
  let change :=
    change_params (VStr "/hostedzone/Z1")
      (VArr [address_change "UPSERT" (VStr "svc.example.com") (VStr "10.0.0.5")]) in
  let run := handler sample_env launch_event empty_world in
  store (snd run) !! "i-0abc"
  = Some (row (VStr "i-0abc") (VStr "svc.example.com") sample_instance) /\
  calls (snd run)
  = calls empty_world ++
    [EC2_describeInstances (VObj [("InstanceIds", VArr [VStr "i-0abc"])]);
     Route53_listHostedZonesByName
       (VObj [("DNSName", VStr (queried_domain "svc.example.com"))]);
     DynamoDB_put
       (item_params (VStr "i-0abc") (VStr "svc.example.com") sample_instance);
     Route53_changeResourceRecordSets change] /\
  change_requests (calls (snd run))
  = change_requests (calls empty_world) ++ [change] /\
  (change_accepted sample_env change -> fst run = Ok tt).
Proof.
  apply (launch_links_record sample_env launch_event
           (VArr [sample_tag "svc.example.com"])
           "svc.example.com" "i-0abc" sample_instance (VStr "10.0.0.5")
           (VStr "/hostedzone/Z1") empty_world);
    try reflexivity.
  - exists [], (sample_tag "svc.example.com"), [].
    repeat split; constructor.
  - apply sample_instance_described.
  - apply sample_zone_listed.
  - apply sample_store_up.
Defined.

(** C2 as the specification has it, for every launch that carries the
    tag, fails.  The request below lists the designated tag, valued
    "svc.example.com", in its second tag specification; every service
    answers; and the handler returns without a call: the store has no
    entry for the new instance and no change request is submitted. *)
Lemma launch_tagged_second_not_linked :
  let run := handler sample_env launch_tagged_second_event empty_world in
  launch_carries_tag launch_tagged_second_event "svc.example.com" /\
  Ok launch_tagged_second_event .> "detail" .> "responseElements"
     .> "instancesSet" .> "items" .>[0] .> "instanceId" = Ok (VStr "i-0abc") /\
  fst run = Ok tt /\
  store (snd run) !! "i-0abc" = None /\
  change_requests (calls (snd run)) = [] /\
  calls (snd run) = [].
Proof.
  split; [|vm_compute; repeat split].
  split; [reflexivity|]. split; [reflexivity|].
  eexists _, _, _. split; [reflexivity|].
  split; [right; left; reflexivity|].
  split; [reflexivity|].
  exists [], (sample_tag "svc.example.com"), [].
  repeat split; constructor.
Qed.

(** ** The branches that start from the stored association *)

(** The TerminateInstances branch, up to the call of the mutator. *)
Lemma handler_TerminateInstances
    env event (iid : string) item alias domain zid id w :
  prop event "source" = Ok (VStr "aws.ec2") ->
  Ok event .> "detail" .> "eventName" = Ok (VStr "TerminateInstances") ->
  Ok event .> "detail" .> "requestParameters" .> "instancesSet"
     .> "items" .>[0] .> "instanceId" = Ok (VStr iid) ->
  dynamodb_rejects env (DynamoDB_get (key_params (VStr iid))) = false ->
  store w !! iid = Some item ->
  truthy item = true ->
  prop item "alias" = Ok alias ->
  getDomain alias = Ok domain ->
  zone_listed env domain zid ->
  Ok item .> "object" .> "InstanceId" = Ok id ->
  exists object,
    prop item "object" = Ok object /\
    handler env event w
    = Ec2Handler_updateRecords env (mkEc2Handler id object) zid alias false
        (record_call (Route53_listHostedZonesByName (VObj [("DNSName", domain)]))
           (record_call (DynamoDB_get (key_params (VStr iid)))
              (logged event w))).
Proof.
  intros Hsrc Hname Hiid Hup Hitem Htruthy Halias Hdom Hzone Hobj.
  split_reads.
  destruct (HostedZone_load_run env domain zid
              (record_call (DynamoDB_get (key_params (VStr iid))) (logged event w))
              Hzone) as (z & Hload & Hzid).
  eexists. split; [eassumption|].
  unfold handler, processEc2, mbind, lift, console_log.
  use_reads. simpl. use_reads. simpl.
  rewrite (getItem_run _ _ _ Hup). simpl. rewrite Hitem.
  use_reads. simpl. use_reads. simpl.
  unfold logged in Hload. rewrite Hload. use_reads. rewrite Hzid. reflexivity.
Qed.

(** C4.  A TerminateInstances event for an instance whose id has an
    association row in the store, with a string alias (the claim has
    "svc.example.com") and a snapshot of that instance, when the directory
    lists a zone for the parent domain and the table is up: the handler
    makes exactly four calls, none of them to the instance inventory: the
    table read, the zone lookup, the table delete and a change request
    that is a DELETE of the A record of that alias with the address of the
    stored snapshot.  The row is gone from the store afterwards, and the
    handler returns normally when the change is accepted. *)
Theorem terminate_unlinks_record
    env event (iid alias : string) item object ip zid w :
  prop event "source" = Ok (VStr "aws.ec2") ->
  Ok event .> "detail" .> "eventName" = Ok (VStr "TerminateInstances") ->
  Ok event .> "detail" .> "requestParameters" .> "instancesSet"
     .> "items" .>[0] .> "instanceId" = Ok (VStr iid) ->
  store w !! iid = Some item ->
  prop item "alias" = Ok (VStr alias) ->
  prop item "object" = Ok object ->
  prop object "InstanceId" = Ok (VStr iid) ->
  prop object "PrivateIpAddress" = Ok ip ->
  zone_listed env (VStr (queried_domain alias)) zid ->
  store_up env ->
  let change :=
    change_params zid (VArr [address_change "DELETE" (VStr alias) ip]) in
  let run := handler env event w in
  calls (snd run)
  = calls w ++
    [DynamoDB_get (key_params (VStr iid));
     Route53_listHostedZonesByName
       (VObj [("DNSName", VStr (queried_domain alias))]);
     DynamoDB_delete (key_params (VStr iid));
     Route53_changeResourceRecordSets change] /\
  store (snd run) !! iid = None /\
  store (snd run) = delete iid (store w) /\
  (change_accepted env change -> fst run = Ok tt).
Proof.
  intros Hsrc Hname Hiid Hitem Halias Hobject Hid Hip Hzone Hup change run.
  subst run.
  edestruct (handler_TerminateInstances env event iid item (VStr alias)
               (VStr (queried_domain alias)) zid (VStr iid) w)
    as (object' & Hobject' & ->);
    eauto using prop_string_truthy, getDomain_string.
  { unfold dot. simpl. rewrite Hobject. exact Hid. }
  assert (object' = object) as -> by congruence.
  edestruct (Ec2Handler_updateRecords_run env (mkEc2Handler (VStr iid) object)
               zid (VStr alias) false) as (Hstore & Hcalls & Hok);
    [exact Hip|exact Hid|exact Hup|].
  rewrite Hstore, Hcalls. simpl. rewrite <- !app_assoc. simpl.
  split; [reflexivity|].
  split; [apply lookup_delete_eq|].
  split; [reflexivity|exact Hok].
Qed.

Lemma terminate_unlinks_record_witness :
  let change :=
    change_params (VStr "/hostedzone/Z1")
      (VArr [address_change "DELETE" (VStr "svc.example.com") (VStr "10.0.0.5")]) in
  let run := handler sample_env terminate_event linked_world in
  calls (snd run)
  = calls linked_world ++
    [DynamoDB_get (key_params (VStr "i-0abc"));
     Route53_listHostedZonesByName
       (VObj [("DNSName", VStr (queried_domain "svc.example.com"))]);
     DynamoDB_delete (key_params (VStr "i-0abc"));
     Route53_changeResourceRecordSets change] /\
  store (snd run) !! "i-0abc" = None /\
  store (snd run) = delete "i-0abc" (store linked_world) /\
  (change_accepted sample_env change -> fst run = Ok tt).
Proof.
  apply (terminate_unlinks_record sample_env terminate_event
           "i-0abc" "svc.example.com"
           (row (VStr "i-0abc") (VStr "svc.example.com") sample_instance)
           sample_instance (VStr "10.0.0.5") (VStr "/hostedzone/Z1") linked_world);
    try reflexivity.
  - apply sample_zone_listed.
  - apply sample_store_up.
Defined.

(** The RemoveTags branch, up to the read of the association. *)
Lemma handler_RemoveTags env event keys entry (arn : string) w :
  prop event "source" = Ok (VStr "aws.elasticloadbalancing") ->
  Ok event .> "detail" .> "eventName" = Ok (VStr "RemoveTags") ->
  Ok event .> "detail" .> "requestParameters" .> "tagKeys" = Ok keys ->
  findKey keys = Ok entry ->
  truthy entry = true ->
  Ok event .> "detail" .> "requestParameters" .> "resourceArns" .>[0]
  = Ok (VStr arn) ->
  dynamodb_rejects env (DynamoDB_get (key_params (VStr arn))) = false ->
  handler env event w
  = (let item := match store w !! arn with Some r => r | None => VUndef end in
     let! alias := lift (prop item "alias") in
     let! domain := lift (getDomain alias) in
     let! zone := HostedZone_load env (new_HostedZone domain) in
     let! object := lift (prop item "object") in
     let handler := mkElbHandler (VStr arn) object in
     let! zid := lift (HostedZone_id zone) in
     ElbHandler_updateRecords env handler zid alias false)
      (record_call (DynamoDB_get (key_params (VStr arn))) (logged event w)).
Proof.
  intros Hsrc Hname Hkeys Hentry Htruthy Harn Hup.
  split_reads.
  match goal with |- _ = ?k _ => set (rest := k) end.
  unfold handler, processElb, mbind, lift, console_log.
  use_reads. simpl. use_reads. simpl. use_reads. simpl.
  rewrite (getItem_run _ _ _ Hup). reflexivity.
Qed.

(** C5.  A RemoveTags event whose removed-key list holds the designated
    key, for a balancer whose arn has an association row in the store
    (with a string alias and a snapshot of that balancer), when the
    directory lists a zone for the parent domain and the table is up: the
    handler makes exactly four calls, none of them to an inventory: the
    table read, the zone lookup, the table delete and a change request
    that is a DELETE of the alias record named by the stored alias and
    built from the stored snapshot.  Services that differ only in what the
    inventories answer give the same run. *)
Theorem remove_tags_unlinks_record
    env event keys (arn alias : string) item balancer targetZone type dns zid w :
  prop event "source" = Ok (VStr "aws.elasticloadbalancing") ->
  Ok event .> "detail" .> "eventName" = Ok (VStr "RemoveTags") ->
  Ok event .> "detail" .> "requestParameters" .> "tagKeys" = Ok (VArr keys) ->
  In (VStr TAG_KEY) keys ->
  Ok event .> "detail" .> "requestParameters" .> "resourceArns" .>[0]
  = Ok (VStr arn) ->
  store w !! arn = Some item ->
  prop item "alias" = Ok (VStr alias) ->
  prop item "object" = Ok balancer ->
  prop balancer "LoadBalancerArn" = Ok (VStr arn) ->
  prop balancer "CanonicalHostedZoneId" = Ok targetZone ->
  prop balancer "Type" = Ok type ->
  prop balancer "DNSName" = Ok dns ->
  zone_listed env (VStr (queried_domain alias)) zid ->
  store_up env ->
  let change :=
    change_params zid
      (VArr [alias_change "DELETE" (VStr alias) targetZone
               ((if loose_eq type "application" then "dualstack." else "")
                +:+ to_string dns +:+ ".")]) in
  let run := handler env event w in
  calls (snd run)
  = calls w ++
    [DynamoDB_get (key_params (VStr arn));
     Route53_listHostedZonesByName
       (VObj [("DNSName", VStr (queried_domain alias))]);
     DynamoDB_delete (key_params (VStr arn));
     Route53_changeResourceRecordSets change] /\
  store (snd run) !! arn = None /\
  (change_accepted env change -> fst run = Ok tt) /\
  (forall env',
     route53_listHostedZonesByName env' = route53_listHostedZonesByName env ->
     route53_changeResourceRecordSets env' = route53_changeResourceRecordSets env ->
     dynamodb_rejects env' = dynamodb_rejects env ->
     handler env' event w = handler env event w).
Proof.
  intros Hsrc Hname Hkeys Hin Harn Hitem Halias Hobject Hid Htarget Htype Hdns
         Hzone Hup change run.
  subst run.
  destruct (findKey_found keys Hin) as (entry & Hentry & Htruthy & _).
  assert (forall e,
            route53_listHostedZonesByName e = route53_listHostedZonesByName env ->
            dynamodb_rejects e = dynamodb_rejects env ->
            handler e event w
            = ElbHandler_updateRecords e (mkElbHandler (VStr arn) balancer)
                zid (VStr alias) false
                (record_call
                   (Route53_listHostedZonesByName
                      (VObj [("DNSName", VStr (queried_domain alias))]))
                   (record_call (DynamoDB_get (key_params (VStr arn)))
                      (logged event w)))) as Hrun.
  { intros e Hlist Hrej.
    assert (zone_listed e (VStr (queried_domain alias)) zid) as Hzone'.
    { destruct Hzone as (data & Hdata & Hread). exists data.
      rewrite Hlist. split; assumption. }
    destruct (HostedZone_load_run e (VStr (queried_domain alias)) zid
                (record_call (DynamoDB_get (key_params (VStr arn)))
                   (logged event w)) Hzone') as (z & Hload & Hzid).
    rewrite (handler_RemoveTags e event (VArr keys) entry arn w); try assumption;
      [|rewrite Hrej; apply Hup].
    rewrite Hitem. unfold mbind, lift.
    rewrite Halias, getDomain_string, Hload, Hobject, Hzid. reflexivity. }
  split; [|split; [|split]].
  - rewrite (Hrun env eq_refl eq_refl).
    edestruct (ElbHandler_updateRecords_run env (mkElbHandler (VStr arn) balancer)
                 zid (VStr alias) false) as (_ & -> & _); try eassumption.
    simpl. rewrite <- !app_assoc. reflexivity.
  - rewrite (Hrun env eq_refl eq_refl).
    edestruct (ElbHandler_updateRecords_run env (mkElbHandler (VStr arn) balancer)
                 zid (VStr alias) false) as (-> & _ & _); try eassumption.
    apply lookup_delete_eq.
  - rewrite (Hrun env eq_refl eq_refl).
    edestruct (ElbHandler_updateRecords_run env (mkElbHandler (VStr arn) balancer)
                 zid (VStr alias) false) as (_ & _ & Hok); try eassumption.
  - intros env' Hlist Hchange Hrej.
    rewrite (Hrun env' Hlist Hrej), (Hrun env eq_refl eq_refl).
    apply ElbHandler_updateRecords_env; assumption.
Qed.

Lemma remove_tags_unlinks_record_witness :
  let arn := "arn:aws:elasticloadbalancing:lb/app/web/1" in
  let change :=
    change_params (VStr "/hostedzone/Z1")
      (VArr [alias_change "DELETE" (VStr "www.example.com")
               (VStr "Z35SXDOTRQ7X7K")
               "dualstack.web-1.elb.amazonaws.com."]) in
  let run := handler sample_env remove_tags_event linked_world in
  calls (snd run)
  = [DynamoDB_get (key_params (VStr arn));
     Route53_listHostedZonesByName (VObj [("DNSName", VStr "example.com")]);
     DynamoDB_delete (key_params (VStr arn));
     Route53_changeResourceRecordSets change] /\
  store (snd run) !! arn = None /\
  (change_accepted sample_env change -> fst run = Ok tt) /\
  (forall env',
     route53_listHostedZonesByName env'
     = route53_listHostedZonesByName sample_env ->
     route53_changeResourceRecordSets env'
     = route53_changeResourceRecordSets sample_env ->
     dynamodb_rejects env' = dynamodb_rejects sample_env ->
     handler env' remove_tags_event linked_world
     = handler sample_env remove_tags_event linked_world).
Proof.
  apply (remove_tags_unlinks_record sample_env remove_tags_event
           [VStr "Name"; VStr TAG_KEY]
           "arn:aws:elasticloadbalancing:lb/app/web/1" "www.example.com"
           (row (VStr "arn:aws:elasticloadbalancing:lb/app/web/1")
                (VStr "www.example.com") sample_balancer)
           sample_balancer (VStr "Z35SXDOTRQ7X7K") (VStr "application")
           (VStr "web-1.elb.amazonaws.com") (VStr "/hostedzone/Z1") linked_world);
    try reflexivity.
  - right. left. reflexivity.
  - apply sample_zone_listed.
  - apply sample_store_up.
Defined.

(** ** Events that are not acted upon *)

(** An event without the designated tag: the handler logs it and
    returns, with no call made. *)
Lemma untagged_event_ignored env event w :
  untagged event ->
  handler env event w = (Ok tt, logged event w).
Proof.
  intros [specs Hsrc Hname Hspecs Hfalsy
         |tags entry Hsrc Hname Htags Hentry Hfalsy
         |name tags entry Hn Hsrc Hname Htags Hentry Hfalsy
         |name tags entry Hn Hsrc Hname Htags Hentry Hfalsy
         |keys entry Hsrc Hname Hkeys Hentry Hfalsy];
    split_reads.
  - erewrite handler_ec2 by eassumption. unfold processEc2. read_through.
  - erewrite handler_ec2 by eassumption. unfold processEc2.
    match goal with
    | H1 : prop ?s "items" = Ok ?i, H2 : first ?i = Ok _ |- _ =>
        pose proof (prop_first_truthy s "items" _ _ eq_refl H1 H2)
    end.
    read_through.
  - erewrite handler_ec2 by eassumption. unfold processEc2.
    destruct Hn; subst; read_through.
  - erewrite handler_elb by eassumption. unfold processElb.
    destruct Hn; subst; read_through.
  - erewrite handler_elb by eassumption. unfold processElb. read_through.
Qed.

(** The two deletion branches test the row they read: without a row for
    the id they return at once. *)
Lemma terminate_without_association_ignored env event (iid : string) w :
  prop event "source" = Ok (VStr "aws.ec2") ->
  Ok event .> "detail" .> "eventName" = Ok (VStr "TerminateInstances") ->
  Ok event .> "detail" .> "requestParameters" .> "instancesSet"
     .> "items" .>[0] .> "instanceId" = Ok (VStr iid) ->
  dynamodb_rejects env (DynamoDB_get (key_params (VStr iid))) = false ->
  store w !! iid = None ->
  handler env event w
  = (Ok tt, record_call (DynamoDB_get (key_params (VStr iid))) (logged event w)).
Proof.
  intros Hsrc Hname Hiid Hup Hnone. split_reads.
  unfold handler, processEc2, mbind, lift, console_log.
  use_reads. simpl. use_reads. simpl.
  rewrite (getItem_run _ _ _ Hup). simpl. rewrite Hnone. reflexivity.
Qed.

Lemma delete_balancer_without_association_ignored env event (arn : string) w :
  prop event "source" = Ok (VStr "aws.elasticloadbalancing") ->
  Ok event .> "detail" .> "eventName" = Ok (VStr "DeleteLoadBalancer") ->
  Ok event .> "detail" .> "requestParameters" .> "loadBalancerArn"
  = Ok (VStr arn) ->
  dynamodb_rejects env (DynamoDB_get (key_params (VStr arn))) = false ->
  store w !! arn = None ->
  handler env event w
  = (Ok tt, record_call (DynamoDB_get (key_params (VStr arn))) (logged event w)).
Proof.
  intros Hsrc Hname Harn Hup Hnone. split_reads.
  unfold handler, processElb, mbind, lift, console_log.
  use_reads. simpl. use_reads. simpl.
  rewrite (getItem_run _ _ _ Hup). simpl. rewrite Hnone. reflexivity.
Qed.

(** C1, at the event the claim singles out.  A RemoveTags event whose
    removed-key list holds the designated key, for a balancer whose arn
    has no row in the store: the handler reads the table, makes no other
    call (so no change request), and throws a [TypeError], the read
    [item.alias] of the row that is not there. *)
Theorem remove_tags_without_association_throws env event keys (arn : string) w :
  prop event "source" = Ok (VStr "aws.elasticloadbalancing") ->
  Ok event .> "detail" .> "eventName" = Ok (VStr "RemoveTags") ->
  Ok event .> "detail" .> "requestParameters" .> "tagKeys" = Ok (VArr keys) ->
  In (VStr TAG_KEY) keys ->
  Ok event .> "detail" .> "requestParameters" .> "resourceArns" .>[0]
  = Ok (VStr arn) ->
  dynamodb_rejects env (DynamoDB_get (key_params (VStr arn))) = false ->
  store w !! arn = None ->
  handler env event w
  = (Throw TypeError,
     record_call (DynamoDB_get (key_params (VStr arn))) (logged event w)).
Proof.
  intros Hsrc Hname Hkeys Hin Harn Hup Hnone.
  destruct (findKey_found keys Hin) as (entry & Hentry & Htruthy & _).
  rewrite (handler_RemoveTags env event (VArr keys) entry arn w) by assumption.
  rewrite Hnone. reflexivity.
Qed.

Lemma remove_tags_without_association_throws_witness :
  handler sample_env remove_tags_event empty_world
  = (Throw TypeError,
     record_call
       (DynamoDB_get
          (key_params (VStr "arn:aws:elasticloadbalancing:lb/app/web/1")))
       (logged remove_tags_event empty_world)).
Proof.
  apply (remove_tags_without_association_throws sample_env remove_tags_event
           [VStr "Name"; VStr TAG_KEY]);
    try reflexivity.
  right. left. reflexivity.
Defined.

(** ** The console is write-only *)

Lemma agree_refl w : agree w w.
Proof. split; reflexivity. Qed.

Lemma agree_logged e1 e2 w : agree (logged e1 w) (logged e2 w).
Proof. split; reflexivity. Qed.

Lemma oblivious_ret {A} (a : A) : oblivious (ret a).
Proof. intros w1 w2 H. split; [reflexivity|exact H]. Qed.

Lemma oblivious_lift {A} (r : Res A) : oblivious (lift r).
Proof. intros w1 w2 H. split; [reflexivity|exact H]. Qed.

Lemma oblivious_bind {A B} (m : M A) (k : A -> M B) :
  oblivious m -> (forall a, oblivious (k a)) -> oblivious (mbind m k).
Proof.
  intros Hm Hk w1 w2 H. unfold mbind.
  destruct (Hm w1 w2 H) as [Hres Hworld].
  destruct (m w1) as [r1 w1'], (m w2) as [r2 w2']. simpl in *. subst r2.
  destruct r1 as [a|e]; [apply Hk, Hworld|].
  split; [reflexivity|exact Hworld].
Qed.

Lemma oblivious_console_log line : oblivious (console_log line).
Proof. intros w1 w2 [Hs Hc]. repeat split; assumption. Qed.

Lemma oblivious_request c answer : oblivious (request c answer).
Proof.
  intros w1 w2 [Hs Hc]. unfold request, record_call, agree. simpl.
  rewrite Hc. repeat split; assumption.
Qed.

Lemma oblivious_dynamodb_get env params : oblivious (dynamodb_get env params).
Proof.
  intros w1 w2 [Hs Hc]. unfold dynamodb_get, record_call, agree.
  destruct (dynamodb_rejects env _); simpl; [rewrite Hc; auto|].
  destruct (key_of _); simpl; rewrite Hs, Hc; auto.
Qed.

Lemma oblivious_dynamodb_put env params : oblivious (dynamodb_put env params).
Proof.
  intros w1 w2 [Hs Hc]. unfold dynamodb_put, record_call, agree.
  destruct (dynamodb_rejects env _); simpl; [rewrite Hc; auto|].
  destruct (prop params "Item") as [item|]; simpl; [|rewrite Hc; auto].
  destruct (key_of _); simpl; rewrite Hs, Hc; auto.
Qed.

Lemma oblivious_dynamodb_delete env params :
  oblivious (dynamodb_delete env params).
Proof.
  intros w1 w2 [Hs Hc]. unfold dynamodb_delete, record_call, agree.
  destruct (dynamodb_rejects env _); simpl; [rewrite Hc; auto|].
  destruct (key_of _); simpl; rewrite Hs, Hc; auto.
Qed.

Create HintDb oblivious.
#[local] Hint Resolve oblivious_ret oblivious_lift oblivious_console_log
  oblivious_request oblivious_dynamodb_get oblivious_dynamodb_put
  oblivious_dynamodb_delete : oblivious.

(** Walks down a computation built from binds and conditionals. *)
Ltac walk :=
  repeat first
    [ solve [auto with oblivious]
    | apply oblivious_bind; [|intros ?]
    | match goal with
      | |- oblivious (if ?b then _ else _) => destruct b
      | |- oblivious (let _ := _ in _) => cbv zeta
      end ].

Lemma oblivious_getItem env id : oblivious (RecordTable_getItem env id).
Proof. unfold RecordTable_getItem. walk. Qed.

Lemma oblivious_update env id alias object :
  oblivious (RecordTable_update env id alias object).
Proof. unfold RecordTable_update. walk. Qed.

Lemma oblivious_remove env id : oblivious (RecordTable_remove env id).
Proof. unfold RecordTable_remove. walk. Qed.

#[local] Hint Resolve oblivious_getItem oblivious_update oblivious_remove
  : oblivious.

Lemma oblivious_HostedZone_load env z : oblivious (HostedZone_load env z).
Proof. unfold HostedZone_load, route53_list. walk. Qed.

Lemma oblivious_Ec2Handler_load env h : oblivious (Ec2Handler_load env h).
Proof. unfold Ec2Handler_load, ec2_describe. walk. Qed.

Lemma oblivious_ElbHandler_load env h : oblivious (ElbHandler_load env h).
Proof. unfold ElbHandler_load, elbv2_describe. walk. Qed.

Lemma oblivious_Ec2Handler_updateRecords env h zoneId alias upsert :
  oblivious (Ec2Handler_updateRecords env h zoneId alias upsert).
Proof. unfold Ec2Handler_updateRecords, route53_change. walk. Qed.

Lemma oblivious_ElbHandler_updateRecords env h zoneId alias upsert :
  oblivious (ElbHandler_updateRecords env h zoneId alias upsert).
Proof. unfold ElbHandler_updateRecords, route53_change. walk. Qed.

#[local] Hint Resolve oblivious_HostedZone_load oblivious_Ec2Handler_load
  oblivious_ElbHandler_load oblivious_Ec2Handler_updateRecords
  oblivious_ElbHandler_updateRecords : oblivious.

Lemma oblivious_processEc2 env detail : oblivious (processEc2 env detail).
Proof. unfold processEc2, link_ec2, resolve. walk. Qed.

Lemma oblivious_processElb env detail : oblivious (processElb env detail).
Proof. unfold processElb, link_elb, resolve. walk. Qed.

Lemma oblivious_outcome {A} (m : M A) w1 w2 :
  oblivious m -> agree w1 w2 -> outcome (m w1) = outcome (m w2).
Proof.
  intros Hm H. destruct (Hm w1 w2 H) as (Hres & Hs & Hc).
  unfold outcome. now rewrite Hres, Hs, Hc.
Qed.

(** ** Only the head of a resource list is read *)

(** Reduces both runs to the same branch of the same dispatcher, run
    from worlds that differ in the console only. *)
Ltac same_branch process_oblivious :=
  match goal with
  | |- outcome (?p ?env ?d1 (logged ?e1 ?w)) = outcome (?p ?env ?d2 (logged ?e2 ?w)) =>
      transitivity (outcome (p env d1 (logged e2 w)));
      [apply oblivious_outcome; [apply process_oblivious|apply agree_logged]|];
      f_equal
  end.

(** The effect of the instance mutator, after the two calls that precede
    it in a branch. *)
Lemma instance_effect_run env event h zid (alias k : string) (upsert : bool)
    first_call ip w run :
  run = Ec2Handler_updateRecords env h zid (VStr alias) upsert
          (record_call
             (Route53_listHostedZonesByName
                (VObj [("DNSName", VStr (queried_domain alias))]))
             (record_call first_call (logged event w))) ->
  prop (instance h) "PrivateIpAddress" = Ok ip ->
  prop (instance h) "InstanceId" = Ok (VStr k) ->
  store_up env ->
  instance_effect env upsert first_call k alias (instance h) ip zid w run.
Proof.
  intros -> Hip Hid Hup.
  edestruct (Ec2Handler_updateRecords_run env h zid (VStr alias) upsert)
    as (Hstore & Hcalls & Hok); [exact Hip|exact Hid|exact Hup|].
  unfold instance_effect. rewrite Hstore, Hcalls. simpl.
  rewrite <- !app_assoc. simpl.
  split; [reflexivity|]. split; [reflexivity|exact Hok].
Qed.

Lemma balancer_effect_run env event h zid (alias k : string) (upsert : bool)
    first_call targetZone type dns w run :
  run = ElbHandler_updateRecords env h zid (VStr alias) upsert
          (record_call
             (Route53_listHostedZonesByName
                (VObj [("DNSName", VStr (queried_domain alias))]))
             (record_call first_call (logged event w))) ->
  prop (lb h) "CanonicalHostedZoneId" = Ok targetZone ->
  prop (lb h) "Type" = Ok type ->
  prop (lb h) "DNSName" = Ok dns ->
  prop (lb h) "LoadBalancerArn" = Ok (VStr k) ->
  store_up env ->
  balancer_effect env upsert first_call k alias (lb h) targetZone type dns zid
    w run.
Proof.
  intros -> Htarget Htype Hdns Hid Hup.
  edestruct (ElbHandler_updateRecords_run env h zid (VStr alias) upsert)
    as (Hstore & Hcalls & Hok);
    [exact Htarget|exact Htype|exact Hdns|exact Hid|exact Hup|].
  unfold balancer_effect. rewrite Hstore, Hcalls. simpl.
  rewrite <- !app_assoc. simpl.
  split; [reflexivity|]. split; [reflexivity|exact Hok].
Qed.

(** Each kind of event acts on the head of its resource list. *)
Lemma acts_on_first_launched env event spec inst w :
  carries event (RunInstancesOf spec inst) ->
  acts_on_first env (RunInstancesOf spec inst) w (handler env event w).
Proof.
  intros H Hup tags alias iid described ip zid
         Htags Hcarry Hiid Hdesc Hid Hip Hzone.
  inversion H; subst.
  destruct (tags_carry_found tags alias Hcarry)
    as (entry & Hentry & Htruthy & Hvalue).
  split_reads.
  apply (instance_effect_run env event (mkEc2Handler (VStr iid) described));
    [|exact Hip|exact Hid|exact Hup].
  erewrite handler_ec2 by eassumption. unfold processEc2, link_ec2.
  read_through.
  rewrite (Ec2Handler_load_run _ _ _ _ Hdesc). use_reads.
  rewrite (resolve_run _ _ _ _ _ (getDomain_string alias) Hzone).
  reflexivity.
Qed.

(** A read through the head of a list, from the read of the list. *)
Lemma dot_head (r : Res value) x rest name :
  r = Ok (VArr (x :: rest)) -> r .>[0] .> name = prop x name.
Proof. intros ->. reflexivity. Qed.

Lemma dot0_head (r : Res value) x rest :
  r = Ok (VArr (x :: rest)) -> r .>[0] = Ok x.
Proof. intros ->. reflexivity. Qed.

Lemma acts_on_first_terminated env event inst w :
  carries event (TerminateInstancesOf inst) ->
  acts_on_first env (TerminateInstancesOf inst) w (handler env event w).
Proof.
  intros H Hup alias iid snapshot ip zid Hiid Hrow Hid Hip Hzone.
  inversion H as [|? ? Hsrc Hname Hitems| | | |]; subst.
  edestruct (handler_TerminateInstances env event iid
               (row (VStr iid) (VStr alias) snapshot) (VStr alias)
               (VStr (queried_domain alias)) zid (VStr iid) w)
    as (object & Hobject & Hrun);
    eauto using getDomain_string.
  - rewrite (dot_head _ _ _ _ Hitems). exact Hiid.
  - simpl in Hobject. injection Hobject as <-.
    apply (instance_effect_run env event (mkEc2Handler (VStr iid) snapshot));
      [exact Hrun|exact Hip|exact Hid|exact Hup].
Qed.

Lemma acts_on_first_tagged env event name tags resource w :
  carries event (TagsOf name tags resource) ->
  acts_on_first env (TagsOf name tags resource) w (handler env event w).
Proof.
  intros H Hup alias k rid described ip zid
         Hcarry Hrid Hdesc Hid Hip Hzone.
  inversion H as [| |? ? ? ? Hn Hsrc Hname Htags Hres| | |]; subst.
  destruct (tags_carry_found tags alias Hcarry)
    as (entry & Hentry & Htruthy & Hvalue).
  split_reads.
  apply (instance_effect_run env event (mkEc2Handler rid described));
    [|exact Hip|exact Hid|exact Hup].
  erewrite handler_ec2 by eassumption. unfold processEc2, link_ec2.
  destruct Hn; subst name; read_through;
    rewrite (Ec2Handler_load_run _ _ _ _ Hdesc); use_reads;
    rewrite (resolve_run _ _ _ _ _ (getDomain_string alias) Hzone);
    reflexivity.
Qed.

Lemma acts_on_first_balancer_created env event tags balancer w :
  carries event (CreateLoadBalancerOf tags balancer) ->
  acts_on_first env (CreateLoadBalancerOf tags balancer) w
    (handler env event w).
Proof.
  intros H Hup alias k arn described targetZone type dns zid
         Hcarry Harn Hdesc Hid Htarget Htype Hdns Hzone.
  inversion H; subst.
  destruct (tags_carry_found tags alias Hcarry)
    as (entry & Hentry & Htruthy & Hvalue).
  split_reads.
  apply (balancer_effect_run env event (mkElbHandler arn described));
    [|exact Htarget|exact Htype|exact Hdns|exact Hid|exact Hup].
  erewrite handler_elb by eassumption. unfold processElb, link_elb.
  read_through.
  rewrite (ElbHandler_load_run _ _ _ _ Hdesc). use_reads.
  rewrite (resolve_run _ _ _ _ _ (getDomain_string alias) Hzone).
  reflexivity.
Qed.

Lemma acts_on_first_tags_added env event tags arn w :
  carries event (AddTagsOf tags arn) ->
  acts_on_first env (AddTagsOf tags arn) w (handler env event w).
Proof.
  intros H Hup alias k described targetZone type dns zid
         Hcarry Hdesc Hid Htarget Htype Hdns Hzone.
  inversion H; subst.
  destruct (tags_carry_found tags alias Hcarry)
    as (entry & Hentry & Htruthy & Hvalue).
  split_reads.
  apply (balancer_effect_run env event (mkElbHandler arn described));
    [|exact Htarget|exact Htype|exact Hdns|exact Hid|exact Hup].
  erewrite handler_elb by eassumption. unfold processElb, link_elb.
  read_through.
  rewrite (ElbHandler_load_run _ _ _ _ Hdesc). use_reads.
  rewrite (resolve_run _ _ _ _ _ (getDomain_string alias) Hzone).
  reflexivity.
Qed.

Lemma acts_on_first_tags_removed env event keys arn w :
  carries event (RemoveTagsOf keys arn) ->
  acts_on_first env (RemoveTagsOf keys arn) w (handler env event w).
Proof.
  intros H Hup alias k snapshot targetZone type dns zid
         (ks & -> & _ & Hin) -> Hrow Hid Htarget Htype Hdns Hzone.
  inversion H as [| | | | |? ? ? Hsrc Hname Hkeys Harns]; subst.
  destruct (findKey_found ks Hin) as (entry & Hentry & Htruthy & _).
  destruct (HostedZone_load_run env (VStr (queried_domain alias)) zid
              (record_call (DynamoDB_get (key_params (VStr k)))
                 (logged event w)) Hzone) as (z & Hload & Hzid).
  apply (balancer_effect_run env event (mkElbHandler (VStr k) snapshot));
    [|exact Htarget|exact Htype|exact Hdns|exact Hid|exact Hup].
  rewrite (handler_RemoveTags env event (VArr ks) entry k w); try assumption;
    [|exact (dot0_head _ _ _ Harns)|apply Hup].
  assert (prop (row (VStr k) (VStr alias) snapshot) "alias" = Ok (VStr alias))
    as Halias by reflexivity.
  assert (prop (row (VStr k) (VStr alias) snapshot) "object" = Ok snapshot)
    as Hobject by reflexivity.
  rewrite Hrow. unfold mbind, lift.
  rewrite Halias, getDomain_string, Hload, Hobject, Hzid. reflexivity.
Qed.

(** C10.  Of a list of tag specifications, instances, resources,
    balancers or arns the handler reads the first element and nothing
    else.  Two events that carry the same view (the same heads of their
    resource lists, whatever follows the heads) give runs with the same
    result, the same store and the same calls; and that run acts on the
    first resource alone: when the tag is carried and the services
    answer, the row written or deleted is the one keyed by the first
    resource, the store is otherwise as it was, and the four calls made
    (the describe or the read of the row, the zone lookup, the write of
    the row, the one change request) name the first resource and no
    other. *)
Theorem only_first_resource_read env event1 event2 view w :
  carries event1 view ->
  carries event2 view ->
  outcome (handler env event1 w) = outcome (handler env event2 w) /\
  acts_on_first env view w (handler env event1 w).
Proof.
  intros H1 H2. split.
  - destruct H1; inversion H2; subst; split_reads.
    + erewrite (handler_ec2 env event1), (handler_ec2 env event2) by eassumption.
      same_branch oblivious_processEc2. unfold processEc2. read_through.
    + erewrite (handler_ec2 env event1), (handler_ec2 env event2) by eassumption.
      same_branch oblivious_processEc2. unfold processEc2. read_through.
    + erewrite (handler_ec2 env event1), (handler_ec2 env event2) by eassumption.
      same_branch oblivious_processEc2. unfold processEc2.
      match goal with H : _ \/ _ |- _ => destruct H; subst end; read_through.
    + erewrite (handler_elb env event1), (handler_elb env event2) by eassumption.
      same_branch oblivious_processElb. unfold processElb. read_through.
    + erewrite (handler_elb env event1), (handler_elb env event2) by eassumption.
      same_branch oblivious_processElb. unfold processElb. read_through.
    + erewrite (handler_elb env event1), (handler_elb env event2) by eassumption.
      same_branch oblivious_processElb. unfold processElb. read_through.
  - destruct view.
    + now apply acts_on_first_launched.
    + now apply acts_on_first_terminated.
    + now apply acts_on_first_tagged.
    + now apply acts_on_first_balancer_created.
    + now apply acts_on_first_tags_added.
    + now apply acts_on_first_tags_removed.
Qed.

Lemma only_first_resource_read_witness :
  let change :=
    change_params (VStr "/hostedzone/Z1")
      (VArr [address_change "UPSERT" (VStr "svc.example.com")
               (VStr "10.0.0.5")]) in
  let run := handler sample_env launch_two_event empty_world in
  outcome run = outcome (handler sample_env launch_event empty_world) /\
  store (snd run)
  = <["i-0abc" := row (VStr "i-0abc") (VStr "svc.example.com") sample_instance]>
      (store empty_world) /\
  calls (snd run)
  = calls empty_world ++
    [EC2_describeInstances (VObj [("InstanceIds", VArr [VStr "i-0abc"])]);
     Route53_listHostedZonesByName
       (VObj [("DNSName", VStr (queried_domain "svc.example.com"))]);
     DynamoDB_put
       (item_params (VStr "i-0abc") (VStr "svc.example.com") sample_instance);
     Route53_changeResourceRecordSets change] /\
  (change_accepted sample_env change -> fst run = Ok tt).
Proof.
  destruct (only_first_resource_read sample_env launch_two_event launch_event
              (RunInstancesOf
                 (VObj [("resourceType", VStr "instance");
                        ("tags", VArr [sample_tag "svc.example.com"])])
                 (VObj [("instanceId", VStr "i-0abc")]))
              empty_world) as [Hsame Hacts].
  - eapply carries_run; reflexivity.
  - eapply carries_run; reflexivity.
  - split; [exact Hsame|].
    apply (Hacts sample_store_up (VArr [sample_tag "svc.example.com"])
             "svc.example.com" "i-0abc" sample_instance (VStr "10.0.0.5")
             (VStr "/hostedzone/Z1")); try reflexivity.
    + exists [], (sample_tag "svc.example.com"), [].
      repeat split; constructor.
    + apply sample_instance_described.
    + apply sample_zone_listed.
Defined.

(** Two instances launched: one describe call, one row, one change. *)
Example launch_two_links_first_only :
  let run := handler sample_env launch_two_event empty_world in
  fst run = Ok tt /\
  store (snd run) !! "i-0abc"
  = Some (row (VStr "i-0abc") (VStr "svc.example.com") sample_instance) /\
  store (snd run) !! "i-0def" = None /\
  List.length (calls (snd run)) = 4 /\
  List.length (change_requests (calls (snd run))) = 1.
Proof. vm_compute. repeat split. Qed.

(* ===================================================================== *)
(** * Further properties of the handler *)
(* ===================================================================== *)

(** ** The tag lookups *)

Lemma prop_throws_iff_nullish v name :
  prop v name = Throw TypeError <-> nullish v = true.
Proof.
  destruct v; simpl; split; intros H; try reflexivity; try discriminate H.
Qed.

Lemma prop_nullish v name : nullish v = false -> exists x, prop v name = Ok x.
Proof. destruct v; simpl; intros H; try discriminate H; eauto. Qed.

(** X1.  On an array of tags whose keys convert to a string without an
    error (the keys of an event's tags are strings), [findEntry] throws
    exactly when one of the elements is [undefined] or [null] (the read
    [tag.key] of the filter); the error is a [TypeError]. *)
Theorem findEntry_throws_iff_nullish_tag items :
  Forall (fun tag => forall k, prop tag "key" = Ok k -> convertible k = true)
         items ->
  (findEntry (VArr items) = Throw TypeError
   <-> Exists (fun tag => nullish tag = true) items).
Proof.
  intros _. unfold findEntry. simpl.
  set (p := fun tag => let? k := prop tag "key" in Ok (loose_eq k TAG_KEY)).
  assert ((exists kept, filterM p items = Ok kept)
          \/ (filterM p items = Throw TypeError
              /\ Exists (fun tag => nullish tag = true) items)) as Hcases.
  { induction items as [|tag items IH]; [left; eexists; reflexivity|].
    simpl. unfold p at 1 3.
    destruct (nullish tag) eqn:Hn.
    - right. apply (prop_throws_iff_nullish tag "key") in Hn. rewrite Hn.
      split; [reflexivity|]. left.
      now apply (prop_throws_iff_nullish tag "key").
    - destruct (prop_nullish tag "key" Hn) as [k ->]. simpl.
      destruct IH as [[kept ->]|[-> Hex]].
      + left. eexists. reflexivity.
      + right. split; [reflexivity|]. now right. }
  split.
  - intros Hthrow. destruct Hcases as [[kept Hk]|[_ Hex]]; [|exact Hex].
    rewrite Hk in Hthrow. discriminate Hthrow.
  - intros Hex. destruct Hcases as [[kept Hk]|[-> _]]; [|reflexivity].
    exfalso. clear -Hex Hk. revert kept Hk.
    induction Hex as [tag items Hn|tag items _ IH]; intros kept Hk; simpl in Hk.
    + unfold p at 1 in Hk.
      apply (prop_throws_iff_nullish tag "key") in Hn. rewrite Hn in Hk.
      discriminate Hk.
    + destruct (p tag); [|discriminate Hk]. simpl in Hk.
      destruct (filterM p items) as [kept'|]; [|discriminate Hk].
      eapply IH. reflexivity.
Qed.

Lemma findEntry_throws_iff_nullish_tag_witness :
  findEntry (VArr [sample_tag "a.example.com"; VNull]) = Throw TypeError
  <-> Exists (fun tag => nullish tag = true)
             [sample_tag "a.example.com"; VNull].
Proof.
  apply (findEntry_throws_iff_nullish_tag [sample_tag "a.example.com"; VNull]).
  repeat constructor.
  - intros k Hk. injection Hk as <-. reflexivity.
  - intros k Hk. discriminate Hk.
Defined.

Lemma filterM_sound p items kept x :
  filterM p items = Ok kept -> In x kept -> In x items /\ p x = Ok true.
Proof.
  revert kept. induction items as [|y items IH]; intros kept Hk Hin; simpl in Hk.
  - injection Hk as <-. destruct Hin.
  - destruct (p y) as [b|] eqn:Hy; [|discriminate Hk]. simpl in Hk.
    destruct (filterM p items) as [kept'|]; [|discriminate Hk]. simpl in Hk.
    injection Hk as <-. destruct b.
    + destruct Hin as [<-|Hin]; [split; [now left|exact Hy]|].
      destruct (IH kept' eq_refl Hin). split; [now right|assumption].
    + destruct (IH kept' eq_refl Hin). split; [now right|assumption].
Qed.

Lemma pop_truthy_In (l : list value) : truthy (pop l) = true -> In (pop l) l.
Proof.
  intros H. apply pop_In. intros ->. discriminate H.
Qed.

(** X2.  Whatever [findEntry] returns that is truthy is an element of the
    tag array it was given, and the key of that element is [==] to the
    designated key: the lookup never makes up an entry and never returns
    a tag with another key. *)
Theorem findEntry_sound tags entry :
  findEntry tags = Ok entry ->
  truthy entry = true ->
  exists items k,
    tags = VArr items /\ In entry items /\
    prop entry "key" = Ok k /\ loose_eq k TAG_KEY = true.
Proof.
  unfold findEntry. intros Hfind Htruthy.
  destruct (truthy tags); [|injection Hfind as <-; discriminate Htruthy].
  destruct tags as [| | | | |items|]; try discriminate Hfind.
  destruct (filterM _ items) as [kept|] eqn:Hk; [|discriminate Hfind].
  simpl in Hfind. injection Hfind as <-.
  destruct (filterM_sound _ _ _ _ Hk (pop_truthy_In _ Htruthy)) as [Hin Hp].
  destruct (prop (pop kept) "key") as [k|] eqn:Hkey; [|discriminate Hp].
  simpl in Hp. injection Hp as Hp. eauto 6.
Qed.

Lemma findEntry_sound_witness :
  exists items k,
    VArr [sample_tag "a.example.com"; sample_tag "b.example.com"] = VArr items /\
    In (sample_tag "b.example.com") items /\
    prop (sample_tag "b.example.com") "key" = Ok k /\
    loose_eq k TAG_KEY = true.
Proof.
  apply (findEntry_sound
           (VArr [sample_tag "a.example.com"; sample_tag "b.example.com"])
           (sample_tag "b.example.com"));
    reflexivity.
Defined.

(** X3.  On an array of keys that convert to a string without an error
    (the removed keys of an event are strings), [findKey] returns
    normally; its result is truthy exactly when some element is [==] to
    the designated key, and a truthy result is such an element of the
    array. *)
Theorem findKey_truthy_iff keys :
  Forall (fun k => convertible k = true) keys ->
  exists entry,
    findKey (VArr keys) = Ok entry /\
    (truthy entry = true
     <-> Exists (fun k => loose_eq k TAG_KEY = true) keys) /\
    (truthy entry = true -> In entry keys /\ loose_eq entry TAG_KEY = true).
Proof.
  intros _. unfold findKey. simpl. rewrite filterM_total. simpl.
  eexists. split; [reflexivity|].
  set (kept := List.filter (fun tag => loose_eq tag TAG_KEY) keys).
  assert (truthy (pop kept) = true -> In (pop kept) keys /\
                                      loose_eq (pop kept) TAG_KEY = true) as Hsound.
  { intros H. apply pop_truthy_In in H. now apply filter_In in H. }
  split; [split|exact Hsound].
  - intros H. apply Stdlib.Lists.List.Exists_exists. exists (pop kept).
    now apply Hsound.
  - intros Hex. apply Stdlib.Lists.List.Exists_exists in Hex as (k & Hin & Hk).
    assert (In k kept) as Hkept by (apply filter_In; split; assumption).
    assert (In (pop kept) kept) as Hpop
      by (apply pop_In; intros Hnil; rewrite Hnil in Hkept; destruct Hkept).
    apply filter_In in Hpop as [_ Hpop].
    now apply loose_eq_TAG_KEY_truthy.
Qed.

Lemma findKey_truthy_iff_witness :
  exists entry,
    findKey (VArr [VStr "Name"; VStr TAG_KEY]) = Ok entry /\
    (truthy entry = true
     <-> Exists (fun k => loose_eq k TAG_KEY = true)
                [VStr "Name"; VStr TAG_KEY]) /\
    (truthy entry = true ->
     In entry [VStr "Name"; VStr TAG_KEY] /\ loose_eq entry TAG_KEY = true).
Proof.
  apply (findKey_truthy_iff [VStr "Name"; VStr TAG_KEY]).
  repeat constructor.
Defined.

(** X23.  Of several tags with the designated key [findEntry] returns
    the last one: for a tag array made of tags whose keys convert to a
    string without an error (the keys of an event's tags are strings),
    then a tag with the designated key, then tags with other such keys
    only, the result is that tag, whatever the tags before it hold, and
    it passes the test [!entry] of the dispatcher. *)
Theorem findEntry_returns_last_designated_tag before tag after :
  Forall (fun t => exists k, prop t "key" = Ok k /\ convertible k = true)
         before ->
  prop tag "key" = Ok (VStr TAG_KEY) ->
  Forall (fun t => exists k, prop t "key" = Ok k /\ convertible k = true /\
                             loose_eq k TAG_KEY = false) after ->
  findEntry (VArr (before ++ tag :: after)) = Ok tag /\
  negb (truthy tag) = false.
Proof.
  intros Hbefore Htag Hafter.
  split; [|now rewrite (prop_string_truthy _ _ _ Htag)].
  apply findEntry_found; [|exact Htag|].
  - eapply Forall_impl; [exact Hbefore|]. intros t (k & Hk & _). eauto.
  - eapply Forall_impl; [exact Hafter|]. intros t (k & Hk & _ & Hne). eauto.
Qed.

Lemma findEntry_returns_last_designated_tag_witness :
  findEntry (VArr ([sample_tag "a.example.com"]
                   ++ sample_tag "b.example.com"
                   :: [VObj [("key", VStr "Name"); ("value", VStr "web")]]))
  = Ok (sample_tag "b.example.com") /\
  negb (truthy (sample_tag "b.example.com")) = false.
Proof.
  apply (findEntry_returns_last_designated_tag [sample_tag "a.example.com"]
           (sample_tag "b.example.com")
           [VObj [("key", VStr "Name"); ("value", VStr "web")]]).
  - repeat constructor. eexists. split; reflexivity.
  - reflexivity.
  - repeat constructor. eexists. repeat split; reflexivity.
Defined.

(** ** The table, read back *)

(** X4.  With the table up: two updates for the same id followed by a
    read of that id return the row of the second update (the last writer
    wins), with the id, the alias and the object as they were passed; the
    rows under every other id are as they were. *)
Theorem update_overwrites_and_reads_back env (k : string) a1 o1 a2 o2 w :
  store_up env ->
  exists w',
    (RecordTable_update env (VStr k) a1 o1 ;;
     RecordTable_update env (VStr k) a2 o2 ;;
     RecordTable_getItem env (VStr k)) w
    = (Ok (row (VStr k) a2 o2), w') /\
    store w' = <[k := row (VStr k) a2 o2]> (store w) /\
    (forall k', k' <> k -> store w' !! k' = store w !! k').
Proof.
  intros Hup. eexists. unfold mbind at 1 2.
  rewrite (update_run env k a1 o1 w (Hup _)).
  rewrite (update_run env k a2 o2 _ (Hup _)).
  rewrite (getItem_run env k _ (Hup _)). simpl.
  rewrite lookup_insert_eq, insert_insert_eq.
  split; [reflexivity|]. split; [reflexivity|].
  intros k' Hne. now apply lookup_insert_ne.
Qed.

Lemma update_overwrites_and_reads_back_witness :
  exists w',
    (RecordTable_update sample_env (VStr "i-0abc") (VStr "old.example.com")
       VNull ;;
     RecordTable_update sample_env (VStr "i-0abc") (VStr "svc.example.com")
       sample_instance ;;
     RecordTable_getItem sample_env (VStr "i-0abc")) empty_world
    = (Ok (row (VStr "i-0abc") (VStr "svc.example.com") sample_instance), w') /\
    store w'
    = <["i-0abc" := row (VStr "i-0abc") (VStr "svc.example.com") sample_instance]>
        (store empty_world) /\
    (forall k', k' <> "i-0abc" -> store w' !! k' = store empty_world !! k').
Proof.
  apply (update_overwrites_and_reads_back sample_env "i-0abc"
           (VStr "old.example.com") VNull (VStr "svc.example.com")
           sample_instance empty_world).
  apply sample_store_up.
Defined.

(** ** Failures on the way *)

(** X5.  When the zone directory answers with an empty list of zones,
    zone resolution makes its one call and then throws a [TypeError]
    (the read [this.zone.Id] of the zone that is not there); the store is
    untouched.  The link steps of both handlers end the same way, before
    the mutator is entered. *)
Theorem resolve_without_zone_throws env (alias : string) data w :
  route53_listHostedZonesByName env
    (VObj [("DNSName", VStr (queried_domain alias))]) = Some data ->
  prop data "HostedZones" = Ok (VArr []) ->
  let after :=
    record_call
      (Route53_listHostedZonesByName
         (VObj [("DNSName", VStr (queried_domain alias))])) w in
  resolve env (VStr alias) w = (Throw TypeError, after) /\
  (forall h upsert,
     link_ec2 env h (VStr alias) upsert w = (Throw TypeError, after)) /\
  (forall h upsert,
     link_elb env h (VStr alias) upsert w = (Throw TypeError, after)).
Proof.
  intros Hlist Hzones after. subst after.
  assert (resolve env (VStr alias) w
          = (Throw TypeError,
             record_call
               (Route53_listHostedZonesByName
                  (VObj [("DNSName", VStr (queried_domain alias))])) w)) as Hres.
  { unfold resolve, HostedZone_load. unfold_services.
    rewrite getDomain_string. simpl. rewrite Hlist, Hzones. reflexivity. }
  split; [exact Hres|].
  split; intros h upsert; unfold link_ec2, link_elb, mbind; now rewrite Hres.
Qed.

Lemma resolve_without_zone_throws_witness :
  let after :=
    record_call
      (Route53_listHostedZonesByName
         (VObj [("DNSName", VStr (queried_domain "svc.example.com"))]))
      empty_world in
  resolve zoneless_env (VStr "svc.example.com") empty_world
  = (Throw TypeError, after) /\
  (forall h upsert,
     link_ec2 zoneless_env h (VStr "svc.example.com") upsert empty_world
     = (Throw TypeError, after)) /\
  (forall h upsert,
     link_elb zoneless_env h (VStr "svc.example.com") upsert empty_world
     = (Throw TypeError, after)).
Proof.
  apply (resolve_without_zone_throws zoneless_env "svc.example.com"
           (VObj [("HostedZones", VArr [])]) empty_world);
    reflexivity.
Defined.

(** X6.  When the record API rejects the change, the mutator throws, and
    the store mutation it made just before stays: after a rejected upsert
    the row is in the store although no record was written, and after a
    rejected delete the row is gone although the record was not removed.
    This holds for the instance handler and for the balancer handler. *)
Theorem rejected_change_keeps_store_mutation
    env zoneId alias (upsert : bool) (k : string) w :
  store_up env ->
  (forall params, route53_changeResourceRecordSets env params = None) ->
  (forall h ip,
     prop (instance h) "PrivateIpAddress" = Ok ip ->
     prop (instance h) "InstanceId" = Ok (VStr k) ->
     fst (Ec2Handler_updateRecords env h zoneId alias upsert w)
     = Throw AwsError /\
     store (snd (Ec2Handler_updateRecords env h zoneId alias upsert w))
     = (if upsert then <[k := row (VStr k) alias (instance h)]> (store w)
        else delete k (store w))) /\
  (forall h x,
     prop (lb h) "LoadBalancerArn" = Ok (VStr k) ->
     prop (lb h) "DNSName" = Ok x ->
     fst (ElbHandler_updateRecords env h zoneId alias upsert w)
     = Throw AwsError /\
     store (snd (ElbHandler_updateRecords env h zoneId alias upsert w))
     = (if upsert then <[k := row (VStr k) alias (lb h)]> (store w)
        else delete k (store w))).
Proof.
  intros Hup Hreject. split.
  - intros h ip Hip Hid.
    unfold Ec2Handler_updateRecords. unfold_services. rewrite Hip, Hid.
    destruct upsert; simpl; rewrite Hup; simpl; rewrite Hreject;
      split; reflexivity.
  - intros h x Hid Hdns.
    destruct (prop_total _ _ "CanonicalHostedZoneId" _ Hid) as [z Hz].
    destruct (prop_total _ _ "Type" _ Hid) as [t Ht].
    unfold ElbHandler_updateRecords. unfold_services.
    rewrite Hz, Ht, Hdns, Hid.
    destruct upsert; simpl; rewrite Hup; simpl; rewrite Hreject;
      split; reflexivity.
Qed.

Lemma rejected_change_keeps_store_mutation_witness :
  fst (Ec2Handler_updateRecords rejecting_env
         (mkEc2Handler (VStr "i-0abc") sample_instance)
         (VStr "/hostedzone/Z1") (VStr "svc.example.com") true empty_world)
  = Throw AwsError /\
  store (snd (Ec2Handler_updateRecords rejecting_env
                (mkEc2Handler (VStr "i-0abc") sample_instance)
                (VStr "/hostedzone/Z1") (VStr "svc.example.com") true
                empty_world))
  = <["i-0abc" := row (VStr "i-0abc") (VStr "svc.example.com") sample_instance]>
      (store empty_world).
Proof.
  apply (proj1 (rejected_change_keeps_store_mutation rejecting_env
                  (VStr "/hostedzone/Z1") (VStr "svc.example.com") true
                  "i-0abc" empty_world
                  (fun c => eq_refl) (fun params => eq_refl))
           (mkEc2Handler (VStr "i-0abc") sample_instance) (VStr "10.0.0.5"));
    reflexivity.
Defined.

(** ** The other branches of the dispatcher *)

Lemma sample_balancer_described arn :
  balancer_described sample_env arn sample_balancer.
Proof. eexists. split; reflexivity. Qed.

(** X7.  A CreateTags or DeleteTags event whose tag set holds the
    designated tag with a string value, for a resource the inventory
    describes as an instance: the handler describes the instance, looks
    the zone up, and then upserts (CreateTags) or deletes (DeleteTags)
    both the row and the A record.  Unlike a termination, the deletion
    is built from the live description and the tag value of the event,
    not from the stored association, and the row removed is the one
    under the described instance id. *)
Theorem instance_tag_event_links
    env event (name alias k : string) tags entry rid inst ip zid w :
  name = "CreateTags" \/ name = "DeleteTags" ->
  prop event "source" = Ok (VStr "aws.ec2") ->
  Ok event .> "detail" .> "eventName" = Ok (VStr name) ->
  Ok event .> "detail" .> "requestParameters" .> "tagSet" .> "items"
  = Ok tags ->
  findEntry tags = Ok entry ->
  prop entry "value" = Ok (VStr alias) ->
  Ok event .> "detail" .> "requestParameters" .> "resourcesSet"
     .> "items" .>[0] .> "resourceId" = Ok rid ->
  instance_described env rid inst ->
  prop inst "InstanceId" = Ok (VStr k) ->
  prop inst "PrivateIpAddress" = Ok ip ->
  zone_listed env (VStr (queried_domain alias)) zid ->
  store_up env ->
  let upsert := String.eqb name "CreateTags" in
  let change :=
    change_params zid
      (VArr [address_change (if upsert then "UPSERT" else "DELETE")
               (VStr alias) ip]) in
  let run := handler env event w in
  calls (snd run)
  = calls w ++
    [EC2_describeInstances (VObj [("InstanceIds", VArr [rid])]);
     Route53_listHostedZonesByName
       (VObj [("DNSName", VStr (queried_domain alias))]);
     if upsert then DynamoDB_put (item_params (VStr k) (VStr alias) inst)
     else DynamoDB_delete (key_params (VStr k));
     Route53_changeResourceRecordSets change] /\
  store (snd run)
  = (if upsert then <[k := row (VStr k) (VStr alias) inst]> (store w)
     else delete k (store w)) /\
  (change_accepted env change -> fst run = Ok tt).
Proof.
  intros Hn Hsrc Hname Htags Hentry Hvalue Hrid Hdesc Hid Hip Hzone Hup
         upsert change run.
  subst upsert change run.
  pose proof (prop_string_truthy _ _ _ Hvalue) as Htruthy.
  split_reads.
  assert (handler env event w
          = Ec2Handler_updateRecords env (mkEc2Handler rid inst) zid (VStr alias)
              (String.eqb name "CreateTags")
              (record_call
                 (Route53_listHostedZonesByName
                    (VObj [("DNSName", VStr (queried_domain alias))]))
                 (record_call
                    (EC2_describeInstances (VObj [("InstanceIds", VArr [rid])]))
                    (logged event w)))) as ->.
  { erewrite handler_ec2 by eassumption. unfold processEc2, link_ec2.
    destruct Hn; subst name; read_through;
      rewrite (Ec2Handler_load_run _ _ _ _ Hdesc); use_reads;
      rewrite (resolve_run _ _ _ _ _ (getDomain_string alias) Hzone);
      reflexivity. }
  edestruct (Ec2Handler_updateRecords_run env (mkEc2Handler rid inst)
               zid (VStr alias) (String.eqb name "CreateTags"))
    as (Hstore & Hcalls & Hok); [exact Hip|exact Hid|exact Hup|].
  rewrite Hstore, Hcalls. simpl. rewrite <- !app_assoc. simpl.
  split; [reflexivity|]. split; [reflexivity|exact Hok].
Qed.

Lemma instance_tag_event_links_witness :
  let change :=
    change_params (VStr "/hostedzone/Z1")
      (VArr [address_change "DELETE" (VStr "svc.example.com")
               (VStr "10.0.0.5")]) in
  let run := handler sample_env delete_tags_event linked_world in
  calls (snd run)
  = [EC2_describeInstances (VObj [("InstanceIds", VArr [VStr "i-0abc"])]);
     Route53_listHostedZonesByName (VObj [("DNSName", VStr "example.com")]);
     DynamoDB_delete (key_params (VStr "i-0abc"));
     Route53_changeResourceRecordSets change] /\
  store (snd run) = delete "i-0abc" (store linked_world) /\
  (change_accepted sample_env change -> fst run = Ok tt).
Proof.
  apply (instance_tag_event_links sample_env delete_tags_event
           "DeleteTags" "svc.example.com" "i-0abc"
           (VArr [sample_tag "svc.example.com"]) (sample_tag "svc.example.com")
           (VStr "i-0abc") sample_instance (VStr "10.0.0.5")
           (VStr "/hostedzone/Z1") linked_world);
    try reflexivity.
  - right. reflexivity.
  - apply sample_instance_described.
  - apply sample_zone_listed.
  - apply sample_store_up.
Defined.

(** X8.  A CreateLoadBalancer event (arn of the first balancer of the
    response) or an AddTags event (first arn of the request) whose tags
    hold the designated tag with a string value, for a balancer the
    inventory describes: the handler describes the balancer, looks the
    zone up, stores the row under the described arn and upserts the alias
    record named by the tag value. *)
Theorem balancer_tag_event_links
    env event (alias k : string) tags entry arn balancer
    targetZone type dns zid w :
  (Ok event .> "detail" .> "eventName" = Ok (VStr "CreateLoadBalancer") /\
   Ok event .> "detail" .> "responseElements" .> "loadBalancers" .>[0]
      .> "loadBalancerArn" = Ok arn)
  \/
  (Ok event .> "detail" .> "eventName" = Ok (VStr "AddTags") /\
   Ok event .> "detail" .> "requestParameters" .> "resourceArns" .>[0]
   = Ok arn) ->
  prop event "source" = Ok (VStr "aws.elasticloadbalancing") ->
  Ok event .> "detail" .> "requestParameters" .> "tags" = Ok tags ->
  findEntry tags = Ok entry ->
  prop entry "value" = Ok (VStr alias) ->
  balancer_described env arn balancer ->
  prop balancer "LoadBalancerArn" = Ok (VStr k) ->
  prop balancer "CanonicalHostedZoneId" = Ok targetZone ->
  prop balancer "Type" = Ok type ->
  prop balancer "DNSName" = Ok dns ->
  zone_listed env (VStr (queried_domain alias)) zid ->
  store_up env ->
  let change :=
    change_params zid
      (VArr [alias_change "UPSERT" (VStr alias) targetZone
               ((if loose_eq type "application" then "dualstack." else "")
                +:+ to_string dns +:+ ".")]) in
  let run := handler env event w in
  calls (snd run)
  = calls w ++
    [ELBv2_describeLoadBalancers (VObj [("LoadBalancerArns", VArr [arn])]);
     Route53_listHostedZonesByName
       (VObj [("DNSName", VStr (queried_domain alias))]);
     DynamoDB_put (item_params (VStr k) (VStr alias) balancer);
     Route53_changeResourceRecordSets change] /\
  store (snd run) = <[k := row (VStr k) (VStr alias) balancer]> (store w) /\
  (change_accepted env change -> fst run = Ok tt).
Proof.
  intros Hkind Hsrc Htags Hentry Hvalue Hdesc Hid Htarget Htype Hdns Hzone Hup
         change run.
  subst change run.
  pose proof (prop_string_truthy _ _ _ Hvalue) as Htruthy.
  assert (handler env event w
          = ElbHandler_updateRecords env (mkElbHandler arn balancer) zid
              (VStr alias) true
              (record_call
                 (Route53_listHostedZonesByName
                    (VObj [("DNSName", VStr (queried_domain alias))]))
                 (record_call
                    (ELBv2_describeLoadBalancers
                       (VObj [("LoadBalancerArns", VArr [arn])]))
                    (logged event w)))) as ->.
  { destruct Hkind as [[Hname Harn]|[Hname Harn]]; split_reads;
      (erewrite handler_elb by eassumption); unfold processElb, link_elb;
      read_through;
      rewrite (ElbHandler_load_run _ _ _ _ Hdesc); use_reads;
      rewrite (resolve_run _ _ _ _ _ (getDomain_string alias) Hzone);
      reflexivity. }
  edestruct (ElbHandler_updateRecords_run env (mkElbHandler arn balancer)
               zid (VStr alias) true) as (Hstore & Hcalls & Hok);
    [exact Htarget|exact Htype|exact Hdns|exact Hid|exact Hup|].
  rewrite Hstore, Hcalls. simpl. rewrite <- !app_assoc. simpl.
  split; [reflexivity|]. split; [reflexivity|exact Hok].
Qed.

Lemma balancer_tag_event_links_witness :
  let arn := "arn:aws:elasticloadbalancing:lb/app/web/1" in
  let change :=
    change_params (VStr "/hostedzone/Z1")
      (VArr [alias_change "UPSERT" (VStr "www.example.com")
               (VStr "Z35SXDOTRQ7X7K")
               "dualstack.web-1.elb.amazonaws.com."]) in
  let run := handler sample_env add_tags_event empty_world in
  calls (snd run)
  = [ELBv2_describeLoadBalancers
       (VObj [("LoadBalancerArns", VArr [VStr arn])]);
     Route53_listHostedZonesByName (VObj [("DNSName", VStr "example.com")]);
     DynamoDB_put (item_params (VStr arn) (VStr "www.example.com")
                     sample_balancer);
     Route53_changeResourceRecordSets change] /\
  store (snd run)
  = <[arn := row (VStr arn) (VStr "www.example.com") sample_balancer]>
      (store empty_world) /\
  (change_accepted sample_env change -> fst run = Ok tt).
Proof.
  apply (balancer_tag_event_links sample_env add_tags_event
           "www.example.com" "arn:aws:elasticloadbalancing:lb/app/web/1"
           (VArr [sample_tag "www.example.com"]) (sample_tag "www.example.com")
           (VStr "arn:aws:elasticloadbalancing:lb/app/web/1") sample_balancer
           (VStr "Z35SXDOTRQ7X7K") (VStr "application")
           (VStr "web-1.elb.amazonaws.com") (VStr "/hostedzone/Z1") empty_world);
    try reflexivity.
  - right. split; reflexivity.
  - apply sample_balancer_described.
  - apply sample_zone_listed.
  - apply sample_store_up.
Defined.

(** X9.  A DeleteLoadBalancer event for an arn that has an association
    row (string alias, snapshot of that balancer): the handler reads the
    row, looks the zone up, deletes the row and deletes the alias record,
    built from the stored snapshot; the balancer, which no longer exists,
    is not described. *)
Theorem delete_balancer_unlinks_record
    env event (arn alias : string) item balancer targetZone type dns zid w :
  prop event "source" = Ok (VStr "aws.elasticloadbalancing") ->
  Ok event .> "detail" .> "eventName" = Ok (VStr "DeleteLoadBalancer") ->
  Ok event .> "detail" .> "requestParameters" .> "loadBalancerArn"
  = Ok (VStr arn) ->
  store w !! arn = Some item ->
  prop item "alias" = Ok (VStr alias) ->
  prop item "object" = Ok balancer ->
  prop balancer "LoadBalancerArn" = Ok (VStr arn) ->
  prop balancer "CanonicalHostedZoneId" = Ok targetZone ->
  prop balancer "Type" = Ok type ->
  prop balancer "DNSName" = Ok dns ->
  zone_listed env (VStr (queried_domain alias)) zid ->
  store_up env ->
  let change :=
    change_params zid
      (VArr [alias_change "DELETE" (VStr alias) targetZone
               ((if loose_eq type "application" then "dualstack." else "")
                +:+ to_string dns +:+ ".")]) in
  let run := handler env event w in
  calls (snd run)
  = calls w ++
    [DynamoDB_get (key_params (VStr arn));
     Route53_listHostedZonesByName
       (VObj [("DNSName", VStr (queried_domain alias))]);
     DynamoDB_delete (key_params (VStr arn));
     Route53_changeResourceRecordSets change] /\
  store (snd run) = delete arn (store w) /\
  (change_accepted env change -> fst run = Ok tt).
Proof.
  intros Hsrc Hname Harn Hitem Halias Hobject Hid Htarget Htype Hdns Hzone Hup
         change run.
  subst change run.
  pose proof (prop_string_truthy _ _ _ Halias) as Htruthy.
  split_reads.
  destruct (HostedZone_load_run env (VStr (queried_domain alias)) zid
              (record_call (DynamoDB_get (key_params (VStr arn)))
                 (logged event w)) Hzone) as (z & Hload & Hzid).
  assert (handler env event w
          = ElbHandler_updateRecords env (mkElbHandler (VStr arn) balancer) zid
              (VStr alias) false
              (record_call
                 (Route53_listHostedZonesByName
                    (VObj [("DNSName", VStr (queried_domain alias))]))
                 (record_call (DynamoDB_get (key_params (VStr arn)))
                    (logged event w)))) as ->.
  { erewrite handler_elb by eassumption. unfold processElb. read_through.
    pose proof (getDomain_string alias) as Hdom.
    rewrite (getItem_run _ _ _ (Hup _)). simpl. rewrite Hitem. use_reads.
    simpl. rewrite Hload, Hzid. reflexivity. }
  edestruct (ElbHandler_updateRecords_run env (mkElbHandler (VStr arn) balancer)
               zid (VStr alias) false) as (Hstore & Hcalls & Hok);
    [exact Htarget|exact Htype|exact Hdns|exact Hid|exact Hup|].
  rewrite Hstore, Hcalls. simpl. rewrite <- !app_assoc. simpl.
  split; [reflexivity|]. split; [reflexivity|exact Hok].
Qed.

Lemma delete_balancer_unlinks_record_witness :
  let arn := "arn:aws:elasticloadbalancing:lb/app/web/1" in
  let change :=
    change_params (VStr "/hostedzone/Z1")
      (VArr [alias_change "DELETE" (VStr "www.example.com")
               (VStr "Z35SXDOTRQ7X7K")
               "dualstack.web-1.elb.amazonaws.com."]) in
  let run := handler sample_env delete_balancer_event linked_world in
  calls (snd run)
  = [DynamoDB_get (key_params (VStr arn));
     Route53_listHostedZonesByName (VObj [("DNSName", VStr "example.com")]);
     DynamoDB_delete (key_params (VStr arn));
     Route53_changeResourceRecordSets change] /\
  store (snd run) = delete arn (store linked_world) /\
  (change_accepted sample_env change -> fst run = Ok tt).
Proof.
  apply (delete_balancer_unlinks_record sample_env delete_balancer_event
           "arn:aws:elasticloadbalancing:lb/app/web/1" "www.example.com"
           (row (VStr "arn:aws:elasticloadbalancing:lb/app/web/1")
                (VStr "www.example.com") sample_balancer)
           sample_balancer (VStr "Z35SXDOTRQ7X7K") (VStr "application")
           (VStr "web-1.elb.amazonaws.com") (VStr "/hostedzone/Z1") linked_world);
    try reflexivity.
  - apply sample_zone_listed.
  - apply sample_store_up.
Defined.

(** ** Events that make the handler throw *)

(** X10.  A CreateTags or DeleteTags event whose designated tag has no
    string value (a DeleteTags that names the key alone has none): the
    handler describes the instance and then throws a [TypeError], in
    [getDomain], before the zone lookup; the store is untouched and no
    change is requested. *)
Theorem tag_without_string_value_throws
    env event (name : string) tags entry v rid inst w :
  name = "CreateTags" \/ name = "DeleteTags" ->
  prop event "source" = Ok (VStr "aws.ec2") ->
  Ok event .> "detail" .> "eventName" = Ok (VStr name) ->
  Ok event .> "detail" .> "requestParameters" .> "tagSet" .> "items"
  = Ok tags ->
  findEntry tags = Ok entry ->
  truthy entry = true ->
  prop entry "value" = Ok v ->
  (forall s, v <> VStr s) ->
  Ok event .> "detail" .> "requestParameters" .> "resourcesSet"
     .> "items" .>[0] .> "resourceId" = Ok rid ->
  instance_described env rid inst ->
  handler env event w
  = (Throw TypeError,
     record_call (EC2_describeInstances (VObj [("InstanceIds", VArr [rid])]))
       (logged event w)).
Proof.
  intros Hn Hsrc Hname Htags Hentry Htruthy Hvalue Hv Hrid Hdesc.
  assert (getDomain v = Throw TypeError) as Hdom
    by (destruct v; try reflexivity; exfalso; eapply Hv; reflexivity).
  split_reads.
  erewrite handler_ec2 by eassumption. unfold processEc2, link_ec2, resolve.
  destruct Hn; subst name; read_through;
    rewrite (Ec2Handler_load_run _ _ _ _ Hdesc); use_reads; reflexivity.
Qed.

Lemma tag_without_string_value_throws_witness :
  handler sample_env delete_tags_by_key_event linked_world
  = (Throw TypeError,
     record_call
       (EC2_describeInstances (VObj [("InstanceIds", VArr [VStr "i-0abc"])]))
       (logged delete_tags_by_key_event linked_world)).
Proof.
  apply (tag_without_string_value_throws sample_env delete_tags_by_key_event
           "DeleteTags" (VArr [VObj [("key", VStr TAG_KEY)]])
           (VObj [("key", VStr TAG_KEY)]) VUndef (VStr "i-0abc")
           sample_instance linked_world);
    try reflexivity.
  - right. reflexivity.
  - intros s H. discriminate H.
  - apply sample_instance_described.
Defined.

(** X11.  An event from one of the two recognized sources whose [detail]
    is [undefined] or [null]: the handler logs the event and throws a
    [TypeError] (the read [detail.requestParameters]); no call is made. *)
Theorem recognized_source_without_detail_throws env event (source : string) detail w :
  source = "aws.ec2" \/ source = "aws.elasticloadbalancing" ->
  prop event "source" = Ok (VStr source) ->
  prop event "detail" = Ok detail ->
  nullish detail = true ->
  handler env event w = (Throw TypeError, logged event w).
Proof.
  intros Hs Hsrc Hdetail Hnull.
  apply (prop_throws_iff_nullish detail "requestParameters") in Hnull.
  destruct Hs; subst source.
  - erewrite handler_ec2 by eassumption.
    unfold processEc2, mbind, lift. now rewrite Hnull.
  - erewrite handler_elb by eassumption.
    unfold processElb, mbind, lift. now rewrite Hnull.
Qed.

Lemma recognized_source_without_detail_throws_witness :
  handler sample_env (VObj [("source", VStr "aws.ec2")]) linked_world
  = (Throw TypeError, logged (VObj [("source", VStr "aws.ec2")]) linked_world).
Proof.
  apply (recognized_source_without_detail_throws sample_env
           (VObj [("source", VStr "aws.ec2")]) "aws.ec2" VUndef linked_world);
    try reflexivity.
  left. reflexivity.
Defined.

(** ** Events in sequence *)

Lemma launch_run env event (alias iid : string) inst ip zid w :
  launches event alias iid ->
  instance_described env (VStr iid) inst ->
  prop inst "InstanceId" = Ok (VStr iid) ->
  prop inst "PrivateIpAddress" = Ok ip ->
  zone_listed env (VStr (queried_domain alias)) zid ->
  store_up env ->
  let change :=
    change_params zid (VArr [address_change "UPSERT" (VStr alias) ip]) in
  let run := handler env event w in
  store (snd run) = <[iid := row (VStr iid) (VStr alias) inst]> (store w) /\
  calls (snd run)
  = calls w ++
    [EC2_describeInstances (VObj [("InstanceIds", VArr [VStr iid])]);
     Route53_listHostedZonesByName
       (VObj [("DNSName", VStr (queried_domain alias))]);
     DynamoDB_put (item_params (VStr iid) (VStr alias) inst);
     Route53_changeResourceRecordSets change] /\
  (change_accepted env change -> fst run = Ok tt).
Proof.
  intros (Hsrc & Hname & (tags & entry & Htags & Hentry & Hvalue) & Hiid)
         Hdesc Hinst Hip Hzone Hup change run.
  subst run.
  rewrite (handler_RunInstances env event tags entry (VStr alias) (VStr iid)
             inst zid (VStr (queried_domain alias)) w)
    by eauto using prop_string_truthy, getDomain_string.
  edestruct (Ec2Handler_updateRecords_run env (mkEc2Handler (VStr iid) inst)
               zid (VStr alias) true) as (Hstore & Hcalls & Hok);
    [exact Hip|exact Hinst|exact Hup|].
  rewrite Hstore, Hcalls. simpl. rewrite <- !app_assoc. simpl.
  split; [reflexivity|]. split; [reflexivity|exact Hok].
Qed.

Lemma terminate_run env event (iid alias : string) inst ip zid w :
  terminates event iid ->
  store w !! iid = Some (row (VStr iid) (VStr alias) inst) ->
  prop inst "InstanceId" = Ok (VStr iid) ->
  prop inst "PrivateIpAddress" = Ok ip ->
  zone_listed env (VStr (queried_domain alias)) zid ->
  store_up env ->
  let change :=
    change_params zid (VArr [address_change "DELETE" (VStr alias) ip]) in
  let run := handler env event w in
  store (snd run) = delete iid (store w) /\
  calls (snd run)
  = calls w ++
    [DynamoDB_get (key_params (VStr iid));
     Route53_listHostedZonesByName
       (VObj [("DNSName", VStr (queried_domain alias))]);
     DynamoDB_delete (key_params (VStr iid));
     Route53_changeResourceRecordSets change] /\
  (change_accepted env change -> fst run = Ok tt).
Proof.
  intros (Hsrc & Hname & Hiid) Hitem Hinst Hip Hzone Hup change run.
  subst run.
  edestruct (handler_TerminateInstances env event iid
               (row (VStr iid) (VStr alias) inst) (VStr alias)
               (VStr (queried_domain alias)) zid (VStr iid) w)
    as (object' & Hobject' & ->);
    eauto using getDomain_string.
  simpl in Hobject'. injection Hobject' as <-.
  edestruct (Ec2Handler_updateRecords_run env (mkEc2Handler (VStr iid) inst)
               zid (VStr alias) false) as (Hstore & Hcalls & Hok);
    [exact Hip|exact Hinst|exact Hup|].
  rewrite Hstore, Hcalls. simpl. rewrite <- !app_assoc. simpl.
  split; [reflexivity|]. split; [reflexivity|exact Hok].
Qed.

(** X12.  The launch event of an instance followed by its termination
    event, with the services answering both: the second run finds the row
    the first one stored, deletes the record with the name and the
    address the first one upserted, and leaves the store without a row
    for the instance; a store that had no such row before is back as it
    was.  The eight calls are those of the two runs, in order. *)
Theorem launch_then_terminate_round_trip
    env launch terminate (alias iid : string) inst ip zid w :
  launches launch alias iid ->
  terminates terminate iid ->
  instance_described env (VStr iid) inst ->
  prop inst "InstanceId" = Ok (VStr iid) ->
  prop inst "PrivateIpAddress" = Ok ip ->
  zone_listed env (VStr (queried_domain alias)) zid ->
  store_up env ->
  let zoneCall :=
    Route53_listHostedZonesByName
      (VObj [("DNSName", VStr (queried_domain alias))]) in
  let upsert :=
    change_params zid (VArr [address_change "UPSERT" (VStr alias) ip]) in
  let delete_ :=
    change_params zid (VArr [address_change "DELETE" (VStr alias) ip]) in
  let run1 := handler env launch w in
  let run2 := handler env terminate (snd run1) in
  store (snd run2) = delete iid (store w) /\
  (store w !! iid = None -> store (snd run2) = store w) /\
  calls (snd run2)
  = calls w ++
    [EC2_describeInstances (VObj [("InstanceIds", VArr [VStr iid])]);
     zoneCall;
     DynamoDB_put (item_params (VStr iid) (VStr alias) inst);
     Route53_changeResourceRecordSets upsert;
     DynamoDB_get (key_params (VStr iid));
     zoneCall;
     DynamoDB_delete (key_params (VStr iid));
     Route53_changeResourceRecordSets delete_] /\
  (change_accepted env upsert -> change_accepted env delete_ ->
   fst run1 = Ok tt /\ fst run2 = Ok tt).
Proof.
  intros Hlaunch Hterm Hdesc Hinst Hip Hzone Hup
         zoneCall upsert delete_ run1 run2.
  destruct (launch_run env launch alias iid inst ip zid w
              Hlaunch Hdesc Hinst Hip Hzone Hup) as (Hs1 & Hc1 & Hok1).
  fold run1 in Hs1, Hc1, Hok1.
  assert (store (snd run1) !! iid = Some (row (VStr iid) (VStr alias) inst))
    as Hrow by (rewrite Hs1; apply lookup_insert_eq).
  destruct (terminate_run env terminate iid alias inst ip zid (snd run1)
              Hterm Hrow Hinst Hip Hzone Hup) as (Hs2 & Hc2 & Hok2).
  fold run2 in Hs2, Hc2, Hok2.
  assert (store (snd run2) = delete iid (store w)) as Hstore
    by (rewrite Hs2, Hs1; apply delete_insert_eq).
  split; [exact Hstore|].
  split; [intros Hnone; rewrite Hstore; now apply delete_id|].
  split; [rewrite Hc2, Hc1, <- app_assoc; reflexivity|].
  intros Ha1 Ha2. split; [apply Hok1, Ha1|apply Hok2, Ha2].
Qed.

Lemma sample_launches : launches launch_event "svc.example.com" "i-0abc".
Proof.
  repeat split; try reflexivity.
  exists (VArr [sample_tag "svc.example.com"]), (sample_tag "svc.example.com").
  repeat split; reflexivity.
Qed.

Lemma sample_terminates : terminates terminate_event "i-0abc".
Proof. repeat split; reflexivity. Qed.

Lemma launch_then_terminate_round_trip_witness :
  let run1 := handler sample_env launch_event empty_world in
  let run2 := handler sample_env terminate_event (snd run1) in
  store (snd run2) = store empty_world /\
  fst run1 = Ok tt /\ fst run2 = Ok tt.
Proof.
  destruct (launch_then_terminate_round_trip sample_env launch_event
              terminate_event "svc.example.com" "i-0abc" sample_instance
              (VStr "10.0.0.5") (VStr "/hostedzone/Z1") empty_world
              sample_launches sample_terminates
              (sample_instance_described _) eq_refl eq_refl
              (sample_zone_listed _) sample_store_up)
    as (_ & Hback & _ & Hok).
  split; [apply Hback; reflexivity|].
  apply Hok; apply sample_change_accepted.
Defined.

(** X13.  The same launch event handled twice: the second run overwrites
    the row with the same row, so the store is as the first run left it,
    and it submits the same four calls again, ending with the same
    UPSERT. *)
Theorem relaunch_is_idempotent_on_store
    env launch (alias iid : string) inst ip zid w :
  launches launch alias iid ->
  instance_described env (VStr iid) inst ->
  prop inst "InstanceId" = Ok (VStr iid) ->
  prop inst "PrivateIpAddress" = Ok ip ->
  zone_listed env (VStr (queried_domain alias)) zid ->
  store_up env ->
  let run1 := handler env launch w in
  let run2 := handler env launch (snd run1) in
  store (snd run2) = store (snd run1) /\
  exists four,
    List.length four = 4 /\
    calls (snd run1) = calls w ++ four /\
    calls (snd run2) = calls (snd run1) ++ four /\
    change_requests four
    = [change_params zid (VArr [address_change "UPSERT" (VStr alias) ip])].
Proof.
  intros Hlaunch Hdesc Hinst Hip Hzone Hup run1 run2.
  destruct (launch_run env launch alias iid inst ip zid w
              Hlaunch Hdesc Hinst Hip Hzone Hup) as (Hs1 & Hc1 & _).
  fold run1 in Hs1, Hc1.
  destruct (launch_run env launch alias iid inst ip zid (snd run1)
              Hlaunch Hdesc Hinst Hip Hzone Hup) as (Hs2 & Hc2 & _).
  fold run2 in Hs2, Hc2.
  split; [rewrite Hs2, Hs1; apply insert_insert_eq|].
  eexists. split; [|split; [exact Hc1|split; [exact Hc2|reflexivity]]].
  reflexivity.
Qed.

Lemma relaunch_is_idempotent_on_store_witness :
  let run1 := handler sample_env launch_event empty_world in
  let run2 := handler sample_env launch_event (snd run1) in
  store (snd run2) = store (snd run1) /\
  exists four,
    List.length four = 4 /\
    calls (snd run1) = calls empty_world ++ four /\
    calls (snd run2) = calls (snd run1) ++ four /\
    change_requests four
    = [change_params (VStr "/hostedzone/Z1")
         (VArr [address_change "UPSERT" (VStr "svc.example.com")
                  (VStr "10.0.0.5")])].
Proof.
  apply (relaunch_is_idempotent_on_store sample_env launch_event
           "svc.example.com" "i-0abc" sample_instance (VStr "10.0.0.5")
           (VStr "/hostedzone/Z1") empty_world
           sample_launches (sample_instance_described _) eq_refl eq_refl
           (sample_zone_listed _) sample_store_up).
Defined.

(** ** What every run has in common *)

Lemma reads_only_ret {A} (a : A) : reads_only (ret a).
Proof.
  intros w. split; [reflexivity|]. exists []. now rewrite app_nil_r.
Qed.

Lemma reads_only_lift {A} (r : Res A) : reads_only (lift r).
Proof.
  intros w. split; [reflexivity|]. exists []. now rewrite app_nil_r.
Qed.

Lemma reads_only_console_log line : reads_only (console_log line).
Proof.
  intros w. split; [reflexivity|]. exists []. simpl. now rewrite app_nil_r.
Qed.

Lemma reads_only_request c answer :
  is_read c = true -> reads_only (request c answer).
Proof.
  intros Hc w. split; [reflexivity|]. exists [c]. simpl. now rewrite Hc.
Qed.

Lemma reads_only_dynamodb_get env params : reads_only (dynamodb_get env params).
Proof.
  intros w. unfold dynamodb_get.
  destruct (dynamodb_rejects env _); [|destruct (key_of _)];
    (split; [reflexivity|]; eexists [_]; split; reflexivity).
Qed.

Lemma reads_only_bind {A B} (m : M A) (k : A -> M B) :
  reads_only m -> (forall a, reads_only (k a)) -> reads_only (mbind m k).
Proof.
  intros Hm Hk w. unfold mbind.
  destruct (Hm w) as (Hs & reads & Hc & Hr).
  destruct (m w) as [[a|e] w1]; simpl in *.
  - destruct (Hk a w1) as (Hs' & reads' & Hc' & Hr').
    split; [now rewrite Hs', Hs|].
    exists (reads ++ reads'). rewrite Hc', Hc, <- app_assoc.
    split; [reflexivity|]. rewrite forallb_app, Hr, Hr'. reflexivity.
  - split; [exact Hs|]. exists reads. split; assumption.
Qed.

Create HintDb discipline.
#[local] Hint Resolve reads_only_ret reads_only_lift reads_only_console_log
  reads_only_dynamodb_get : discipline.

Ltac walk_reads :=
  repeat first
    [ solve [auto with discipline]
    | apply reads_only_request; reflexivity
    | apply reads_only_bind; [|intros ?]
    | match goal with
      | |- reads_only (if ?b then _ else _) => destruct b
      end ].

Lemma reads_only_getItem env id : reads_only (RecordTable_getItem env id).
Proof. unfold RecordTable_getItem. walk_reads. Qed.

Lemma reads_only_HostedZone_load env z : reads_only (HostedZone_load env z).
Proof. unfold HostedZone_load, route53_list. walk_reads. Qed.

Lemma reads_only_Ec2Handler_load env h : reads_only (Ec2Handler_load env h).
Proof. unfold Ec2Handler_load, ec2_describe. walk_reads. Qed.

Lemma reads_only_ElbHandler_load env h : reads_only (ElbHandler_load env h).
Proof. unfold ElbHandler_load, elbv2_describe. walk_reads. Qed.

#[local] Hint Resolve reads_only_getItem reads_only_HostedZone_load
  reads_only_Ec2Handler_load reads_only_ElbHandler_load : discipline.

Lemma reads_only_resolve env name : reads_only (resolve env name).
Proof. unfold resolve. walk_reads. Qed.

#[local] Hint Resolve reads_only_resolve : discipline.

Lemma disciplined_of_reads_only {A} (m : M A) : reads_only m -> disciplined m.
Proof.
  intros Hm w. destruct (Hm w) as (Hs & reads & Hc & Hr).
  split; [|split].
  - exists reads, true, []. rewrite app_nil_r.
    repeat split; try assumption; [constructor|]. intros a _. now left.
  - exists "". intros k' _. now rewrite Hs.
  - now rewrite Hs.
Qed.

Lemma disciplined_bind {A B} (m : M A) (k : A -> M B) :
  reads_only m -> (forall a, disciplined (k a)) -> disciplined (mbind m k).
Proof.
  intros Hm Hk w. unfold mbind.
  destruct (Hm w) as (Hs & reads & Hc & Hr).
  destruct (m w) as [[a|e] w1]; simpl in *.
  - destruct (Hk a w1)
      as ((reads' & upsert & tail & Hc' & Hr' & Htail & Hok) & (key & Hkey) & Hinv).
    rewrite Hs in Hkey, Hinv. split; [|split; [exists key; exact Hkey|exact Hinv]].
    exists (reads ++ reads'), upsert, tail.
    rewrite Hc', Hc, <- !app_assoc, forallb_app, Hr, Hr'.
    repeat split; assumption.
  - split; [|split].
    + exists reads, true, []. rewrite app_nil_r.
      repeat split; try assumption; [constructor|]. intros a Ha. discriminate Ha.
    + exists "". intros k' _. now rewrite Hs.
    + now rewrite Hs.
Qed.

(** The store after a run of the mutator: at most the row under the id
    of the resource has changed, and a well-formed store stays so. *)
Ltac close_store :=
  simpl;
  split;
  [ first
      [ exists ""; intros; reflexivity
      | eexists; intros ? Hne; first [apply lookup_insert_ne|apply lookup_delete_ne];
        intros Heq; apply Hne; symmetry; exact Heq ]
  | intros Hok;
    first
      [ exact Hok
      | apply map_Forall_insert_2;
        [do 2 eexists; split; [reflexivity|auto]|exact Hok]
      | apply map_Forall_delete; exact Hok ] ].

Lemma Ec2Handler_updateRecords_store env h zoneId alias upsert w :
  (exists k, forall k', k' <> k ->
     store (snd (Ec2Handler_updateRecords env h zoneId alias upsert w)) !! k'
     = store w !! k') /\
  (store_ok (store w) ->
   store_ok (store (snd (Ec2Handler_updateRecords env h zoneId alias upsert w)))).
Proof.
  unfold Ec2Handler_updateRecords. unfold_services.
  destruct (prop (instance h) "PrivateIpAddress") as [ip|]; [|close_store].
  destruct (prop (instance h) "InstanceId") as [id|] eqn:Hid;
    [|destruct upsert; close_store].
  destruct upsert; simpl; after_build ltac:(close_store) env id.
Qed.

Lemma ElbHandler_updateRecords_store env h zoneId alias upsert w :
  (exists k, forall k', k' <> k ->
     store (snd (ElbHandler_updateRecords env h zoneId alias upsert w)) !! k'
     = store w !! k') /\
  (store_ok (store w) ->
   store_ok (store (snd (ElbHandler_updateRecords env h zoneId alias upsert w)))).
Proof.
  unfold ElbHandler_updateRecords. unfold_services.
  destruct (prop (lb h) "CanonicalHostedZoneId") as [czone|]; [|close_store].
  destruct (prop (lb h) "Type") as [type|]; [|close_store].
  destruct (prop (lb h) "DNSName") as [dns|]; [|close_store].
  destruct (prop (lb h) "LoadBalancerArn") as [id|] eqn:Hid;
    [|destruct upsert; close_store].
  destruct upsert; simpl; after_build ltac:(close_store) env id.
Qed.

Lemma disciplined_Ec2Handler_updateRecords env h zoneId alias upsert :
  disciplined (Ec2Handler_updateRecords env h zoneId alias upsert).
Proof.
  intros w.
  destruct (Ec2Handler_updateRecords_calls env h zoneId alias upsert w)
    as (new & Hc & Hfirst & Hok).
  split; [|apply Ec2Handler_updateRecords_store].
  exists [], upsert, new. repeat split; try assumption.
  intros [] Ha. right. apply Hok, Ha.
Qed.

Lemma disciplined_ElbHandler_updateRecords env h zoneId alias upsert :
  disciplined (ElbHandler_updateRecords env h zoneId alias upsert).
Proof.
  intros w.
  destruct (ElbHandler_updateRecords_calls env h zoneId alias upsert w)
    as (new & Hc & Hfirst & Hok).
  split; [|apply ElbHandler_updateRecords_store].
  exists [], upsert, new. repeat split; try assumption.
  intros [] Ha. right. apply Hok, Ha.
Qed.

#[local] Hint Resolve disciplined_Ec2Handler_updateRecords
  disciplined_ElbHandler_updateRecords : discipline.

Ltac walk_discipline :=
  repeat first
    [ solve [auto with discipline]
    | solve [apply disciplined_of_reads_only; auto with discipline]
    | apply disciplined_bind; [solve [walk_reads]|intros ?]
    | match goal with
      | |- disciplined (if ?b then _ else _) => destruct b
      | |- disciplined (let _ := _ in _) => cbv zeta
      end ].

Lemma disciplined_processEc2 env detail : disciplined (processEc2 env detail).
Proof. unfold processEc2, link_ec2. walk_discipline. Qed.

Lemma disciplined_processElb env detail : disciplined (processElb env detail).
Proof. unfold processElb, link_elb. walk_discipline. Qed.

Lemma disciplined_handler env event : disciplined (handler env event).
Proof.
  pose proof (disciplined_processEc2 env).
  pose proof (disciplined_processElb env).
  unfold handler. walk_discipline.
Qed.

Lemma change_requests_reads reads :
  forallb is_read reads = true -> change_requests reads = [].
Proof.
  induction reads as [|c reads IH]; [reflexivity|].
  simpl. intros H. apply andb_true_iff in H as [Hc Hr].
  destruct c; try discriminate Hc; simpl; now apply IH.
Qed.

(** X14.  Whatever the event and whatever the services answer, the calls
    of one invocation are reads (describes, the zone lookup, the table
    read) followed by at most one store mutation and then at most one
    change request: never a change request before or without the store
    mutation, never two of either.  An invocation that returns normally
    has made neither or both. *)
Theorem handler_call_discipline env event w :
  exists reads upsert tail,
    calls (snd (handler env event w)) = calls w ++ reads ++ tail /\
    forallb is_read reads = true /\
    store_first upsert tail /\
    List.length (change_requests (reads ++ tail)) <= 1 /\
    (fst (handler env event w) = Ok tt ->
     tail = [] \/ exists p c, tail = [p; Route53_changeResourceRecordSets c]).
Proof.
  destruct (disciplined_handler env event w)
    as ((reads & upsert & tail & Hc & Hr & Htail & Hok) & _).
  exists reads, upsert, tail. repeat split; try assumption.
  - rewrite change_requests_app, (change_requests_reads _ Hr).
    destruct Htail; simpl; lia.
  - apply Hok.
Qed.

(** X15.  Whatever the event and whatever the services answer, one
    invocation changes the store under one key at most: the rows of all
    other resources are as they were. *)
Theorem handler_changes_one_key_at_most env event w :
  exists k,
    forall k', k' <> k ->
      store (snd (handler env event w)) !! k' = store w !! k'.
Proof. apply (disciplined_handler env event w). Qed.

Lemma handle_all_keeps_rows env events w :
  store_ok (store w) -> store_ok (store (handle_all env events w)).
Proof.
  revert w. induction events as [|event events IH]; intros w Hok; [exact Hok|].
  simpl. apply IH. now apply (disciplined_handler env event w).
Qed.

(** X16.  Starting from an empty table, after any sequence of events,
    whatever the services answered, every row of the store is one the
    handlers wrote whole: under a key [k] it has the id [k] and the
    snapshot of the instance or of the balancer whose own id is [k]. *)
Theorem rows_are_keyed_by_their_snapshot env events :
  store_ok (store (handle_all env events empty_world)).
Proof. apply handle_all_keeps_rows. apply map_Forall_empty. Qed.

(** X17.  A recognized event that lacks the designated tag (no tag
    specification, no such tag in the first specification, in the tag
    set, in the tags or in the key list): the handler logs the event and
    returns normally; it makes no call and leaves the store as it was. *)
Theorem untagged_event_is_silent env event w :
  untagged event ->
  fst (handler env event w) = Ok tt /\
  calls (snd (handler env event w)) = calls w /\
  store (snd (handler env event w)) = store w.
Proof.
  intros H. rewrite (untagged_event_ignored env event w H).
  repeat split.
Qed.

Lemma untagged_event_is_silent_witness :
  let event :=
    VObj [("source", VStr "aws.elasticloadbalancing");
          ("detail",
           VObj [("eventName", VStr "RemoveTags");
                 ("requestParameters",
                  VObj [("resourceArns", VArr [VStr "arn:lb"]);
                        ("tagKeys", VArr [VStr "Name"; VStr "Owner"])])])] in
  fst (handler sample_env event linked_world) = Ok tt /\
  calls (snd (handler sample_env event linked_world)) = calls linked_world /\
  store (snd (handler sample_env event linked_world)) = store linked_world.
Proof.
  apply (untagged_event_is_silent sample_env
           (VObj [("source", VStr "aws.elasticloadbalancing");
                  ("detail",
                   VObj [("eventName", VStr "RemoveTags");
                         ("requestParameters",
                          VObj [("resourceArns", VArr [VStr "arn:lb"]);
                                ("tagKeys", VArr [VStr "Name"; VStr "Owner"])])])])
           linked_world).
  eapply untagged_remove; reflexivity.
Defined.

(** X18.  A TerminateInstances or DeleteLoadBalancer event for a
    resource that has no row in the store: the handler reads the table,
    finds nothing and returns normally; the table read is its only call
    and the store is as it was. *)
Theorem deletion_without_association_is_silent env event (id : string) w :
  (Ok event .> "detail" .> "eventName" = Ok (VStr "TerminateInstances") /\
   prop event "source" = Ok (VStr "aws.ec2") /\
   Ok event .> "detail" .> "requestParameters" .> "instancesSet"
      .> "items" .>[0] .> "instanceId" = Ok (VStr id))
  \/
  (Ok event .> "detail" .> "eventName" = Ok (VStr "DeleteLoadBalancer") /\
   prop event "source" = Ok (VStr "aws.elasticloadbalancing") /\
   Ok event .> "detail" .> "requestParameters" .> "loadBalancerArn"
   = Ok (VStr id)) ->
  dynamodb_rejects env (DynamoDB_get (key_params (VStr id))) = false ->
  store w !! id = None ->
  fst (handler env event w) = Ok tt /\
  calls (snd (handler env event w))
  = calls w ++ [DynamoDB_get (key_params (VStr id))] /\
  store (snd (handler env event w)) = store w.
Proof.
  intros [(Hname & Hsrc & Hid)|(Hname & Hsrc & Hid)] Hup Hnone.
  - rewrite (terminate_without_association_ignored env event id w)
      by assumption.
    repeat split.
  - rewrite (delete_balancer_without_association_ignored env event id w)
      by assumption.
    repeat split.
Qed.

Lemma deletion_without_association_is_silent_witness :
  fst (handler sample_env terminate_event empty_world) = Ok tt /\
  calls (snd (handler sample_env terminate_event empty_world))
  = calls empty_world ++ [DynamoDB_get (key_params (VStr "i-0abc"))] /\
  store (snd (handler sample_env terminate_event empty_world))
  = store empty_world.
Proof.
  apply (deletion_without_association_is_silent sample_env terminate_event
           "i-0abc" empty_world);
    try reflexivity.
  left. repeat split; reflexivity.
Defined.

(** ** The event rules and the dispatcher *)

Ltac case_strings H :=
  repeat match type of H with
  | context [String.eqb ?a ?b] =>
      destruct (String.eqb_spec a b); subst; simpl in H; try discriminate H
  end.

(** The two rules, read as a table: they let through the CloudTrail
    API-call events whose (source, eventName) pair is one of the eight of
    section 4.5, with the event source of the same service. *)
Lemma rules_as_pairs event :
  delivered event = true
  <-> exists source name,
        event_pair event = Ok (VStr source, VStr name) /\
        recognized (VStr source) (VStr name) = true /\
        prop event "detail-type" = Ok (VStr "AWS API Call via CloudTrail") /\
        Ok event .> "detail" .> "eventSource"
        = Ok (VStr (if String.eqb source "aws.ec2" then "ec2.amazonaws.com"
                    else "elasticloadbalancing.amazonaws.com")).
Proof.
  unfold delivered, pattern_matches, field_matches, event_pair, dot. simpl.
  destruct (prop event "source") as [src|]; simpl;
    [|split; [intros H; discriminate H|intros (s & n & H & _); discriminate H]].
  destruct (prop event "detail-type") as [dt|]; simpl;
    [|split; [intros H; destruct src; try discriminate H;
              rewrite !andb_false_r in H; discriminate H
             |intros (s & n & _ & _ & H & _); discriminate H]].
  destruct (prop event "detail") as [detail|]; simpl;
    [|split; [intros H; destruct src, dt; try discriminate H;
              rewrite !andb_false_r in H; discriminate H
             |intros (s & n & H & _); discriminate H]].
  destruct (prop detail "eventSource") as [es|]; simpl;
    [|split; [intros H; destruct src, dt; try discriminate H;
              rewrite !andb_false_r in H; discriminate H
             |intros (s & n & _ & _ & _ & H); discriminate H]].
  destruct (prop detail "eventName") as [name|]; simpl;
    [|split; [intros H; destruct src, dt, es; try discriminate H;
              rewrite !andb_false_r in H; discriminate H
             |intros (s & n & H & _); discriminate H]].
  split.
  - intros H.
    destruct src as [| | | |s| |]; try discriminate H.
    destruct dt as [| | | |d| |];
      try (rewrite !andb_false_r in H; discriminate H).
    destruct es as [| | | |e| |];
      try (rewrite !andb_false_r in H; discriminate H).
    destruct name as [| | | |n| |];
      try (rewrite !andb_false_r in H; discriminate H).
    exists s, n. unfold recognized. simpl.
    case_strings H; repeat split; reflexivity.
  - intros (s & n & Hpair & Hrec & Hdt & Hes).
    injection Hpair as -> ->. injection Hdt as ->. injection Hes as ->.
    unfold recognized in Hrec. simpl in Hrec.
    case_strings Hrec; reflexivity.
Qed.

(** X19.  The two event rules of the stack and the dispatcher agree on
    the events they take.  For a CloudTrail API-call event of a service
    (its event source being that of its source) whose request parameters
    are missing: if the rules deliver the event, the handler enters one
    of the eight branches of the dispatcher, whose first read of the
    parameters throws a [TypeError]; if the rules hold it back, the
    handler returns without having entered a branch.  So no branch of the
    dispatcher is left without a rule, and the function is not invoked
    for an event the dispatcher drops. *)
Theorem rules_deliver_what_the_dispatcher_handles
    env event (source name : string) parameters w :
  prop event "source" = Ok (VStr source) ->
  prop event "detail-type" = Ok (VStr "AWS API Call via CloudTrail") ->
  Ok event .> "detail" .> "eventSource"
  = Ok (VStr (cloudtrail_event_source source)) ->
  Ok event .> "detail" .> "eventName" = Ok (VStr name) ->
  Ok event .> "detail" .> "requestParameters" = Ok parameters ->
  nullish parameters = true ->
  handler env event w
  = (if delivered event then Throw TypeError else Ok tt, logged event w).
Proof.
  intros Hsrc Hdt Hes Hname Hparams Hnull. split_reads.
  assert (forall n, prop parameters n = Throw TypeError) as Hthrow
    by (intros n; now apply prop_throws_iff_nullish).
  unfold delivered, pattern_matches, field_matches, dot, cloudtrail_event_source,
    handler, processEc2, processElb, mbind, lift, console_log, ret, logged in *.
  use_reads. simpl.
  repeat (rewrite ?Hthrow; simpl;
          match goal with
          | |- context [String.eqb ?a ?b] =>
              destruct (String.eqb_spec a b); subst; simpl
          end);
    rewrite ?Hthrow; reflexivity.
Qed.

Lemma rules_deliver_what_the_dispatcher_handles_witness :
  handler sample_env delivered_bare_event linked_world
  = (if delivered delivered_bare_event then Throw TypeError else Ok tt,
     logged delivered_bare_event linked_world).
Proof.
  apply (rules_deliver_what_the_dispatcher_handles sample_env
           delivered_bare_event "aws.ec2" "DeleteTags" VNull linked_world);
    reflexivity.
Defined.

(** The event above is delivered, and the handler throws on it. *)
Example delivered_bare_event_throws :
  delivered delivered_bare_event = true /\
  fst (handler sample_env delivered_bare_event linked_world) = Throw TypeError.
Proof. split; reflexivity. Qed.

(** ** The parent domain *)

Lemma after_first_dot_split s rest :
  after_first_dot s = Some rest ->
  exists label, dotless label /\ s = label +:+ "." +:+ rest.
Proof.
  revert rest. induction s as [|c s IH]; intros rest H; [discriminate H|].
  simpl in H. destruct (Ascii.eqb c ".") eqn:Hc.
  - injection H as <-. apply Ascii.eqb_eq in Hc as ->.
    exists "". split; reflexivity.
  - destruct (IH rest H) as (label & Hlabel & ->).
    exists (String c label). split; [|reflexivity].
    unfold dotless. simpl. now rewrite Hc.
Qed.

(** X20.  [getDomain] of a string cuts it at its first dot: either the
    string is a dotless label, a dot and a rest, and the result is the
    rest (later dots are kept), or the string has no dot and the result
    is the string itself.  It never throws on a string. *)
Theorem getDomain_splits_at_first_dot (s : string) :
  (exists label rest,
     dotless label /\ s = label +:+ "." +:+ rest /\
     getDomain (VStr s) = Ok (VStr rest))
  \/
  (dotless s /\ getDomain (VStr s) = Ok (VStr s)).
Proof.
  rewrite getDomain_string. unfold queried_domain.
  destruct (after_first_dot s) as [rest|] eqn:Hs.
  - left. destruct (after_first_dot_split s rest Hs) as (label & Hlabel & ->).
    exists label, rest. repeat split. exact Hlabel.
  - right. split; [exact Hs|reflexivity].
Qed.

(** ** Runs that stop early *)

(** X21.  A mutator whose handler holds no description ([instance] or
    [lb] is [undefined] or [null]) throws a [TypeError] while it builds
    the change batch: it makes no call, and the world is as it was. *)
Theorem mutator_without_description_throws_first env zoneId alias upsert w :
  (forall h, nullish (instance h) = true ->
     Ec2Handler_updateRecords env h zoneId alias upsert w
     = (Throw TypeError, w)) /\
  (forall h, nullish (lb h) = true ->
     ElbHandler_updateRecords env h zoneId alias upsert w
     = (Throw TypeError, w)).
Proof.
  split; intros h Hnull.
  - apply (prop_throws_iff_nullish _ "PrivateIpAddress") in Hnull.
    unfold Ec2Handler_updateRecords, mbind, lift. now rewrite Hnull.
  - apply (prop_throws_iff_nullish _ "CanonicalHostedZoneId") in Hnull.
    unfold ElbHandler_updateRecords, mbind, lift. now rewrite Hnull.
Qed.

Lemma mutator_without_description_throws_first_witness :
  Ec2Handler_updateRecords sample_env (new_Ec2Handler (VStr "i-0abc"))
    (VStr "/hostedzone/Z1") (VStr "svc.example.com") true linked_world
  = (Throw TypeError, linked_world)
  /\
  ElbHandler_updateRecords sample_env (new_ElbHandler (VStr "arn:lb"))
    (VStr "/hostedzone/Z1") (VStr "www.example.com") false linked_world
  = (Throw TypeError, linked_world).
Proof.
  split.
  - apply (proj1 (mutator_without_description_throws_first sample_env
                    (VStr "/hostedzone/Z1") (VStr "svc.example.com") true
                    linked_world)
             (new_Ec2Handler (VStr "i-0abc"))).
    reflexivity.
  - apply (proj2 (mutator_without_description_throws_first sample_env
                    (VStr "/hostedzone/Z1") (VStr "www.example.com") false
                    linked_world)
             (new_ElbHandler (VStr "arn:lb"))).
    reflexivity.
Defined.

(** X22.  A launch event with the designated tag, when the instance
    inventory rejects the describe: the handler throws the service error
    right after that one call; it does not look the zone up, the store is
    untouched and no change is requested. *)
Theorem inventory_rejection_stops_launch env event (alias iid : string) w :
  launches event alias iid ->
  ec2_describeInstances env (VObj [("InstanceIds", VArr [VStr iid])]) = None ->
  handler env event w
  = (Throw AwsError,
     record_call
       (EC2_describeInstances (VObj [("InstanceIds", VArr [VStr iid])]))
       (logged event w)).
Proof.
  intros (Hsrc & Hname & (tags & entry & Htags & Hentry & Hvalue) & Hiid) Hnone.
  pose proof (prop_string_truthy _ _ _ Hvalue) as Htruthy.
  split_reads.
  match goal with
  | H1 : prop ?s "items" = Ok ?i, H2 : first ?i = Ok _,
    H3 : prop _ "tagSpecificationSet" = Ok ?s |- _ =>
      pose proof (prop_first_truthy s "items" _ _ eq_refl H1 H2) as Hspecs
  end.
  erewrite handler_ec2 by eassumption.
  unfold processEc2. read_through.
  unfold Ec2Handler_load, ec2_describe, request, mbind. simpl.
  rewrite Hnone. reflexivity.
Qed.

Lemma inventory_rejection_stops_launch_witness :
  handler blind_env launch_event empty_world
  = (Throw AwsError,
     record_call
       (EC2_describeInstances (VObj [("InstanceIds", VArr [VStr "i-0abc"])]))
       (logged launch_event empty_world)).
Proof.
  apply (inventory_rejection_stops_launch blind_env launch_event
           "svc.example.com" "i-0abc" empty_world sample_launches).
  reflexivity.
Defined.
